(** * Results consolidation and regression verification: a shallow embedding

    This development embeds the decision logic of three Python modules,

    - [tools/_util/path_parsing.py]  (metadata inference from file paths),
    - [tools/collect_results.py]     (long-format normalisation, summaries),
    - [tools/check_regression.py]    (baseline comparison),

    and proves properties of the embedded functions.

    Modelling conventions.
    - A Python [str] is a [string] of ASCII characters, on which
      [str.lower], [str.isalpha], [str.strip] and the regex classes are
      as defined here; paths and labels with other characters are not
      covered.
    - A Python or numpy float is a binary64 number ([PrimFloat.float]):
      arithmetic rounds to nearest even, with infinities, signed zeros and
      one NaN.
    - A cell of an integer column is a [numpy.int64], whose arithmetic
      wraps around; a cell of a boolean column is a [numpy.bool_].
    - Code that can raise returns a [result]; [try]/[except] is a [match].
    - Everything read from the file system or from a library whose code is
      not part of the repository (pandas readers, [json], [yaml], [md5],
      [float()] on text, [str()] on floats, the floating-point reductions
      [mean] and [std] of pandas, the clock) is a field of an explicit
      environment record. *)

From Stdlib Require Import ZArith QArith Qabs Floats.
From stdpp Require Import base option list strings pretty gmap sorting.
From Stdlib Require Import Ascii String.

Set Warnings "-inexact-float".

Open Scope string_scope.

(** ** Python values *)

Inductive exn : Type :=
| TypeError
| ValueError
| KeyError
| OSError
| ParseError.

Inductive result (A : Type) : Type :=
| Ok (a : A)
| Raise (e : exn).
Arguments Ok {A} a.
Arguments Raise {A} e.

Definition rbind {A B} (m : result A) (k : A -> result B) : result B :=
  match m with
  | Ok a => k a
  | Raise e => Raise e
  end.

Notation "'let!' x ':=' m 'in' k" := (rbind m (fun x => k))
  (at level 10, x name, m at level 100, k at level 200).

(** A scalar as it occurs in a table cell or in a record field: [None],
    a [numpy.bool_], a [numpy.int64], a float or a [str]. *)
Inductive pyval : Type :=
| VNone
| VBool (b : bool)
| VInt (z : Z)
| VFloat (f : float)
| VStr (s : string).

Abbreviation VNaN := (VFloat nan).

(** ** Numbers *)

Module Num.

(** [float(z)] for an integer: the nearest binary64 number, ties to even. *)
Definition float_of_Z (z : Z) : float :=
  SF2Prim (binary_normalize prec emax z 0 false).

Definition float_of_bool (b : bool) : float :=
  if b then PrimFloat.one else PrimFloat.zero.

(** The value of a [numpy.int64] operation: the result modulo 2^64, in
    the range from -2^63 to 2^63 - 1. *)
Definition wrap64 (z : Z) : Z :=
  ((z + 2 ^ 63) mod 2 ^ 64 - 2 ^ 63)%Z.

(** The exact value of a finite float, as a reduced fraction. *)
Definition exact (f : float) : option Q :=
  match Prim2SF f with
  | S754_zero _ => Some 0%Q
  | S754_finite s m e =>
      let n := if s then Zneg m else Zpos m in
      Some (Qred (match e with
                  | Z0 => n # 1
                  | Zpos p => (n * 2 ^ Zpos p) # 1
                  | Zneg p => n # (2 ^ p)
                  end))
  | S754_infinity _ | S754_nan => None
  end.

(** *** Classes of numbers *)

(** Neither NaN nor infinite. *)
Definition finite (s : spec_float) : Prop :=
  match s with
  | S754_zero _ | S754_finite _ _ _ => True
  | _ => False
  end.

(** Zero or above, infinity included. *)
Definition nonneg (s : spec_float) : Prop :=
  match s with
  | S754_zero _ | S754_finite false _ _ | S754_infinity false => True
  | _ => False
  end.

(** A zero of either sign, or NaN. *)
Definition zero_or_nan (s : spec_float) : Prop :=
  match s with
  | S754_zero _ | S754_nan => True
  | _ => False
  end.

(** The outcome of rounding a mantissa that is not negative: a zero, a
    finite number or an infinity of the given sign. *)
Definition signed (sx : bool) (s : spec_float) : Prop :=
  match s with
  | S754_zero s' | S754_infinity s' | S754_finite s' _ _ => s' = sx
  | S754_nan => False
  end.

End Num.

(** [pd.isna] / [pd.notna] on a scalar. *)
Definition isna (v : pyval) : bool :=
  match v with
  | VNone => true
  | VFloat f => is_nan f
  | _ => false
  end.

Definition notna (v : pyval) : bool := negb (isna v).

(** Truth value of a scalar: [None], [False], zero and [''] are false;
    NaN is true. *)
Definition truthy (v : pyval) : bool :=
  match v with
  | VNone => false
  | VBool b => b
  | VInt z => negb (z =? 0)%Z
  | VFloat f => negb (PrimFloat.eqb f PrimFloat.zero)
  | VStr s => negb (String.eqb s "")
  end.

(** [a or b]. *)
Definition py_or (a b : pyval) : pyval := if truthy a then a else b.

(** [v == 'literal'] for a scalar [v]. *)
Definition eq_str (v : pyval) (s : string) : bool :=
  match v with
  | VStr t => String.eqb t s
  | _ => false
  end.

Definition of_opt_str (o : option string) : pyval :=
  match o with
  | Some s => VStr s
  | None => VNone
  end.

(** Truth value of an [Optional[str]]. *)
Definition truthy_opt (o : option string) : bool :=
  match o with
  | Some s => negb (String.eqb s "")
  | None => false
  end.

(** ** Strings *)

Module Str.

Definition is_upper (c : ascii) : bool :=
  let n := nat_of_ascii c in (65 <=? n)%nat && (n <=? 90)%nat.

Definition is_lower (c : ascii) : bool :=
  let n := nat_of_ascii c in (97 <=? n)%nat && (n <=? 122)%nat.

Definition is_alpha (c : ascii) : bool := is_upper c || is_lower c.

Definition is_digit (c : ascii) : bool :=
  let n := nat_of_ascii c in (48 <=? n)%nat && (n <=? 57)%nat.

(** [[a-zA-Z_]] *)
Definition is_word_alpha (c : ascii) : bool :=
  is_alpha c || Ascii.eqb c "_"%char.

(** Whitespace removed by [str.strip()]. *)
Definition is_space (c : ascii) : bool :=
  let n := nat_of_ascii c in
  ((9 <=? n)%nat && (n <=? 13)%nat) || ((28 <=? n)%nat && (n <=? 32)%nat).

Definition lower_char (c : ascii) : ascii :=
  if is_upper c then ascii_of_nat (nat_of_ascii c + 32) else c.

(** [s.lower()] *)
Fixpoint lower (s : string) : string :=
  match s with
  | EmptyString => EmptyString
  | String c t => String (lower_char c) (lower t)
  end.

(** [needle in hay] *)
Fixpoint contains (needle hay : string) : bool :=
  String.prefix needle hay ||
  match hay with
  | EmptyString => false
  | String _ t => contains needle t
  end.

(** [s.endswith(suffix)] *)
Fixpoint endswith (s suffix : string) : bool :=
  String.eqb s suffix ||
  match s with
  | EmptyString => false
  | String _ t => endswith t suffix
  end.

(** [s.isalpha()]: non-empty and letters only. *)
Fixpoint all_chars (p : ascii -> bool) (s : string) : bool :=
  match s with
  | EmptyString => true
  | String c t => p c && all_chars p t
  end.

Definition isalpha (s : string) : bool :=
  negb (String.eqb s "") && all_chars is_alpha s.

(** [s.replace(old, new)] for a one-character [old]. *)
Fixpoint replace_char (old : ascii) (new : string) (s : string) : string :=
  match s with
  | EmptyString => EmptyString
  | String c t =>
      if Ascii.eqb c old then new ++ replace_char old new t
      else String c (replace_char old new t)
  end.

Fixpoint lstrip (s : string) : string :=
  match s with
  | EmptyString => EmptyString
  | String c t => if is_space c then lstrip t else s
  end.

Fixpoint rstrip (s : string) : string :=
  match s with
  | EmptyString => EmptyString
  | String c t =>
      match rstrip t with
      | EmptyString => if is_space c then EmptyString else String c EmptyString
      | t' => String c t'
      end
  end.

(** [s.strip()] *)
Definition strip (s : string) : string := rstrip (lstrip s).

(** Decimal rendering of an index, as an f-string prints an [int]. *)
Definition of_nat (n : nat) : string := pretty n.

(** [str(z)] for an integer. *)
Definition of_Z (z : Z) : string := pretty z.

End Str.

(** ** Regular expressions

    The patterns of the source are sequences of literal characters and
    greedy character-class repetitions, with exactly one capturing group
    that encloses one repetition.  [search] follows [re.search]: leftmost
    start position, greedy repetitions, backtracking. *)

Module Re.

Inductive atom : Type :=
| Lit (c : ascii)
| Rep (cls : ascii -> bool) (lo : nat) (hi : option nat)
| Cap (cls : ascii -> bool) (lo : nat) (hi : option nat).

Definition below (hi : option nat) (n : nat) : bool :=
  match hi with
  | Some h => (n <? h)%nat
  | None => true
  end.

(** Greedy [cls{lo,hi}] followed by the continuation [k], which receives
    the remaining input and the text consumed by the repetition. *)
Fixpoint rep (cls : ascii -> bool) (lo : nat) (hi : option nat)
    (k : string -> string -> option string)
    (s : string) (n : nat) (taken : string) : option string :=
  let stop := if (lo <=? n)%nat then k s taken else None in
  match s with
  | String c t =>
      if cls c && below hi n then
        match rep cls lo hi k t (S n) (taken ++ String c EmptyString) with
        | Some r => Some r
        | None => stop
        end
      else stop
  | EmptyString => stop
  end.

(** Match the pattern at the start of [s]; the result is group 1. *)
Fixpoint match_here (p : list atom) (s : string) (cap : string) : option string :=
  match p with
  | [] => Some cap
  | Lit c :: p' =>
      match s with
      | String d t => if Ascii.eqb c d then match_here p' t cap else None
      | EmptyString => None
      end
  | Rep cls lo hi :: p' =>
      rep cls lo hi (fun t _ => match_here p' t cap) s 0 EmptyString
  | Cap cls lo hi :: p' =>
      rep cls lo hi (fun t taken => match_here p' t taken) s 0 EmptyString
  end.

(** [re.search(p, s).group(1)], or [None] when there is no match. *)
Fixpoint search (p : list atom) (s : string) : option string :=
  match match_here p s EmptyString with
  | Some c => Some c
  | None =>
      match s with
      | EmptyString => None
      | String _ t => search p t
      end
  end.

Fixpoint lits (s : string) : list atom :=
  match s with
  | EmptyString => []
  | String c t => Lit c :: lits t
  end.

(** [re.search] over an ordered list of patterns, first match wins. *)
Fixpoint first_match (ps : list (list atom)) (s : string) : option string :=
  match ps with
  | [] => None
  | p :: ps' =>
      match search p s with
      | Some c => Some c
      | None => first_match ps' s
      end
  end.

(** A pattern without a capturing group. *)
Fixpoint no_cap (p : list atom) : bool :=
  match p with
  | [] => true
  | Cap _ _ _ :: _ => false
  | _ :: p' => no_cap p'
  end.

End Re.


(** ** Tables and parsed documents *)

(** A [pandas.DataFrame] with a default [RangeIndex]: the column labels and
    the rows, each row listing its cells in column order.  The label of a
    row is its position.  The frames of the model are rectangular.  A
    column of numeric dtype holds cells of one kind: floats, integers or
    booleans. *)
Record DataFrame : Type := {
  columns : list string;
  rows : list (list pyval)
}.

(** [row[col]] for a row of a frame: the cell under the label, or the
    Series of the cells under it when several columns bear the label. *)
Inductive row_item : Type :=
| Scalar (v : pyval)
| Series (vs : list pyval).

(** A parsed JSON or YAML document. *)
#[warnings="-register-all"]
Inductive json : Type :=
| JNull
| JBool (b : bool)
| JInt (z : Z)
| JFloat (f : float)
| JStr (s : string)
| JArr (l : list json)
| JObj (l : list (string * json)).

(** What the code obtains from the file system, from pandas and from the
    Python standard library. *)
Record Env : Type := {
  path_exists : string -> bool;                      (* os.path.exists / Path.exists *)
  open_json : string -> result json;                 (* open + json.load *)
  open_yaml : string -> result json;                 (* open + yaml.safe_load *)
  json_dumps : json -> result string;                (* json.dumps(_, sort_keys=True) *)
  md5_hex8 : string -> result string;                (* md5(s.encode()).hexdigest()[:8] *)
  read_csv_header : string -> result (list string);  (* pd.read_csv(_, nrows=1).columns *)
  read_csv : string -> result DataFrame;             (* pd.read_csv *)
  sheet_names : string -> result (list string);      (* pd.ExcelFile(_).sheet_names *)
  read_excel : string -> string -> result DataFrame; (* pd.read_excel(_, sheet_name=_) *)
  json_normalize : json -> result DataFrame;         (* pd.json_normalize *)
  glob : string -> string -> list string;            (* Path(dir).glob(pattern) *)
  float_of_str : string -> result float;             (* float(s) for a str *)
  str_of_float : float -> string;                    (* str(x) for a float that is not NaN *)
  mean : list float -> float;                        (* the mean of a group of at least one number *)
  std : list float -> float;                         (* the sample std of a group of at least two *)
  now : string                                       (* datetime.now().isoformat() *)
}.

(** ** tools/_util/path_parsing.py *)

Module PathParsing.

Import Str.

Inductive fold_t : Type :=
| FoldAll
| FoldNum (n : N).

(** The dictionary built by [parse_file_metadata]; every key is always
    present, so [metadata.get(key, default)] is the field. *)
Record Metadata : Type := {
  file_path : string;
  asset : option string;
  model : option string;
  split_type : string;
  fold : fold_t;
  metrics : list string;
  config_hash : option string;
  model_family : option string;
  asset_type : option string
}.

Definition known_assets : list string :=
  ["AMZN"; "CAT"; "MSFT"; "NVDA"; "PG"; "WMT";
   "EURUSD"; "EURZAR"; "GBPCNY"; "GBPUSD"; "GBPZAR"; "USDZAR"].

(** The first vocabulary entry whose lower-cased form occurs in the
    lower-cased path. *)
Definition vocabulary_match (vocab : list string) (file_path : string) : option string :=
  let path_lower := lower file_path in
  List.find (fun w => contains (lower w) path_lower) vocab.

Definition asset_patterns : list (list Re.atom) :=
  [ Re.Lit "/" :: Re.Cap is_upper 3 (Some 6) :: Re.lits "_";
    Re.Cap is_upper 3 (Some 6) :: Re.lits ".csv";
    Re.Cap is_upper 3 (Some 6) :: Re.lits ".png" ].

Definition parse_asset_from_path (file_path : string) : option string :=
  match vocabulary_match known_assets file_path with
  | Some a => Some a
  | None => Re.first_match asset_patterns file_path
  end.

Definition known_models : list string :=
  ["sGARCH_norm"; "sGARCH_sstd"; "eGARCH"; "gjrGARCH"; "TGARCH";
   "NF_sGARCH_norm"; "NF_sGARCH_sstd"; "NF_eGARCH"; "NF_gjrGARCH"; "NF_TGARCH"].

Definition model_patterns : list (list Re.atom) :=
  [ Re.Cap is_word_alpha 1 None :: Re.Lit "_" :: Re.Rep is_word_alpha 1 None :: Re.lits ".csv";
    Re.Cap is_word_alpha 1 None :: Re.Lit "_" :: Re.Rep is_word_alpha 1 None :: Re.lits ".png";
    Re.Cap is_word_alpha 1 None :: Re.lits "_results" ].

Definition parse_model_from_path (file_path : string) : option string :=
  match vocabulary_match known_models file_path with
  | Some m => Some m
  | None => Re.first_match model_patterns file_path
  end.

Definition parse_split_type_from_path (file_path : string) : string :=
  let path_lower := lower file_path in
  if contains "tscv" path_lower || contains "ts_cv" path_lower
     || contains "cross_validation" path_lower then "tscv"
  else if contains "chrono" path_lower || contains "chronological" path_lower then "chrono"
  else if contains "cv" path_lower && negb (contains "tscv" path_lower) then "tscv"
  else "chrono".

Definition fold_patterns : list (list Re.atom) :=
  [ (Re.lits "fold_" ++ [Re.Cap is_digit 1 None])%list;
    (Re.lits "fold" ++ [Re.Cap is_digit 1 None])%list;
    Re.Cap is_digit 1 None :: Re.lits "_fold" ].

(** [sys.int_max_str_digits], at its default. *)
Definition int_max_str_digits : nat := 4300.

Fixpoint int_of_digits (acc : N) (s : string) : N :=
  match s with
  | EmptyString => acc
  | String c t => int_of_digits (acc * 10 + (N.of_nat (nat_of_ascii c) - 48))%N t
  end.

(** [int(s)] for a string of decimal digits: the interpreter refuses a
    string of more than [int_max_str_digits] digits, leading zeros
    included. *)
Definition py_int (s : string) : result N :=
  if (int_max_str_digits <? String.length s)%nat then Raise ValueError
  else Ok (int_of_digits 0%N s).

Definition parse_fold_from_path (file_path : string) : result fold_t :=
  match Re.first_match fold_patterns file_path with
  | Some digits => let! n := py_int digits in Ok (FoldNum n)
  | None => Ok FoldAll
  end.

(** The keys of the first dictionary of a JSON document. *)
Definition json_keys (data : json) : list string :=
  match data with
  | JObj kvs => List.map fst kvs
  | JArr (JObj kvs :: _) => List.map fst kvs
  | _ => []
  end.

Definition parse_metric_from_content (env : Env) (file_path : string) : list string :=
  let attempt : result (list string) :=
    if endswith file_path ".csv" then read_csv_header env file_path
    else if endswith file_path ".json" then
      let! data := open_json env file_path in Ok (json_keys data)
    else Ok []
  in
  match attempt with
  | Ok ms => ms
  | Raise _ => []
  end.

Definition parse_model_family (model_name : string) : string :=
  if negb (String.eqb model_name "")
     && (contains "NF" model_name || contains "Flow" model_name
         || contains "nf" (lower model_name))
  then "NF-GARCH" else "GARCH".

Definition parse_asset_type (asset_name : string) : string :=
  if negb (String.eqb asset_name "") then
    if (String.length asset_name =? 6)%nat && isalpha asset_name then "FX" else "Equity"
  else "Unknown".

Definition lower_is_better : list string :=
  ["mse"; "mae"; "mape"; "aic"; "bic"; "rmse"; "error"; "loss";
   "violation_rate"; "qstat"; "archlm_pval"].

Definition higher_is_better : list string :=
  ["loglik"; "log_likelihood"; "likelihood"; "win_rate"; "accuracy";
   "r_squared"; "correlation"; "p_value"; "convergence"].

Definition get_metric_polarity (metric_name : string) : string :=
  let metric_lower := lower metric_name in
  if List.existsb (fun metric => contains metric metric_lower) lower_is_better then "lower"
  else if List.existsb (fun metric => contains metric metric_lower) higher_is_better
       then "higher"
  else "lower".

(** [os.path.dirname] (POSIX). *)
Fixpoint head_to_last_slash (s : string) : string :=
  match s with
  | EmptyString => EmptyString
  | String c t =>
      if contains "/" t || Ascii.eqb c "/" then String c (head_to_last_slash t)
      else EmptyString
  end.

Fixpoint rstrip_slash (s : string) : string :=
  match s with
  | EmptyString => EmptyString
  | String c t =>
      match rstrip_slash t with
      | EmptyString => if Ascii.eqb c "/" then EmptyString else String c EmptyString
      | t' => String c t'
      end
  end.

Definition dirname (p : string) : string :=
  let head := head_to_last_slash p in
  if negb (String.eqb head "") && negb (all_chars (Ascii.eqb "/") head)
  then rstrip_slash head else head.

(** [os.path.join(a, b)] (POSIX) for a relative [b]. *)
Definition path_join (a b : string) : string :=
  if String.eqb a "" || endswith a "/" then a ++ b else a ++ "/" ++ b.

Definition config_files : list string :=
  ["config.json"; "config.yaml"; "config.yml";
   "params.json"; "params.yaml"; "params.yml";
   "settings.json"; "settings.yaml"; "settings.yml"].

(** The body of the [try] block of [extract_config_hash]. *)
Definition config_digest (env : Env) (config_file config_path : string) : result string :=
  let! config_data :=
    (if endswith config_file ".json" then open_json env config_path
     else open_yaml env config_path) in
  let! config_str := json_dumps env config_data in
  md5_hex8 env config_str.

(** The loop over candidate files: a candidate that does not exist is
    passed over, a candidate whose processing raises is passed over
    ([except Exception: continue]). *)
Fixpoint first_config_hash (env : Env) (file_dir : string) (cands : list string) : option string :=
  match cands with
  | [] => None
  | config_file :: rest =>
      let config_path := path_join file_dir config_file in
      if path_exists env config_path then
        match config_digest env config_file config_path with
        | Ok h => Some h
        | Raise _ => first_config_hash env file_dir rest
        end
      else first_config_hash env file_dir rest
  end.

Definition extract_config_hash (env : Env) (file_path : string) : option string :=
  first_config_hash env (dirname file_path) config_files.

(** A candidate contributes nothing when it does not exist or when
    reading it raises. *)
Definition passed_over (env : Env) (file_dir config_file : string) : Prop :=
  path_exists env (path_join file_dir config_file) = false \/
  exists e, config_digest env config_file (path_join file_dir config_file) = Raise e.

(** The dictionary is built entry by entry; [parse_fold_from_path] is the
    one call that can raise, and nothing guards it. *)
Definition parse_file_metadata (env : Env) (file_path : string) : result Metadata :=
  let asset := parse_asset_from_path file_path in
  let model := parse_model_from_path file_path in
  let split_type := parse_split_type_from_path file_path in
  let! fold := parse_fold_from_path file_path in
  Ok {| file_path := file_path;
        asset := asset;
        model := model;
        split_type := split_type;
        fold := fold;
        metrics := parse_metric_from_content env file_path;
        config_hash := extract_config_hash env file_path;
        model_family :=
          match model with
          | Some m => if negb (String.eqb m "") then Some (parse_model_family m) else None
          | None => None
          end;
        asset_type :=
          match asset with
          | Some a => if negb (String.eqb a "") then Some (parse_asset_type a) else None
          | None => None
          end |}.

(** What [parse_file_metadata] returns for a path whose fold is [fold]. *)
Definition metadata_of (env : Env) (file_path : string) (fold : fold_t) : Metadata :=
  let asset := parse_asset_from_path file_path in
  let model := parse_model_from_path file_path in
  {| file_path := file_path;
     asset := asset;
     model := model;
     split_type := parse_split_type_from_path file_path;
     fold := fold;
     metrics := parse_metric_from_content env file_path;
     config_hash := extract_config_hash env file_path;
     model_family :=
       match model with
       | Some m => if negb (String.eqb m "") then Some (parse_model_family m) else None
       | None => None
       end;
     asset_type :=
       match asset with
       | Some a => if negb (String.eqb a "") then Some (parse_asset_type a) else None
       | None => None
       end |}.

Definition normalizations : list (string * string) :=
  [ ("loglik", "LogLikelihood"); ("log_likelihood", "LogLikelihood");
    ("loglikelihood", "LogLikelihood"); ("aic", "AIC"); ("bic", "BIC");
    ("mse", "MSE"); ("mae", "MAE"); ("mape", "MAPE"); ("rmse", "RMSE");
    ("r_squared", "R_Squared"); ("r2", "R_Squared");
    ("correlation", "Correlation"); ("win_rate", "Win_Rate");
    ("violation_rate", "Violation_Rate"); ("p_value", "P_Value");
    ("qstat", "QStat"); ("archlm_pval", "ARCHLM_PValue") ].

(** [s.lower().replace('_', '').replace('-', '')] *)
Definition squash (s : string) : string :=
  replace_char "-" "" (replace_char "_" "" (lower s)).

Definition normalize_metric_name (metric_name : string) : string :=
  let metric_lower := squash metric_name in
  match List.find (fun kv => String.eqb (squash (fst kv)) metric_lower) normalizations with
  | Some kv => snd kv
  | None => metric_name
  end.

End PathParsing.

(** ** tools/collect_results.py *)

Module CollectResults.

Import Str PathParsing.

(** One row of the long-format master table.  [original] holds the
    [original_<column>] entries, in column order. *)
Record ResultRecord : Type := {
  r_asset : pyval;
  r_model : pyval;
  r_model_family : string;
  r_split_type : string;
  r_fold : fold_t;
  r_metric : string;
  r_value : option float;
  r_run_id : string;
  r_timestamp : string;
  r_source_file : string;
  r_sheet_name : option string;
  r_row_index : nat;
  r_asset_type : option string;
  r_config_hash : option string;
  r_original : list (string * row_item)
}.

(** The polarity table set up by [__init__]. *)
Definition metric_polarity : list (string * string) :=
  [ ("MSE", "lower"); ("MAE", "lower"); ("MAPE", "lower"); ("RMSE", "lower");
    ("AIC", "lower"); ("BIC", "lower"); ("Error", "lower"); ("Loss", "lower");
    ("LogLikelihood", "higher"); ("LogLik", "higher"); ("Likelihood", "higher");
    ("Win_Rate", "higher"); ("Accuracy", "higher"); ("R_Squared", "higher");
    ("Correlation", "higher"); ("Convergence", "higher") ].

(** [df.empty] *)
Definition empty (df : DataFrame) : bool :=
  (List.length (rows df) =? 0)%nat || (List.length (columns df) =? 0)%nat.

Definition mem (x : string) (l : list string) : bool :=
  List.existsb (String.eqb x) l.

(** [col.strip().replace(' ', '_')] *)
Definition clean_column (col : string) : string :=
  replace_char " " "_" (strip col).

Fixpoint index_of (c : string) (cols : list string) : nat :=
  match cols with
  | [] => 0
  | d :: t => if String.eqb c d then 0 else S (index_of c t)
  end.

(** The cell of a row under the first column that bears the label. *)
Definition row_get (cols : list string) (cells : list pyval) (col : string) : pyval :=
  List.nth (index_of col cols) cells VNaN.

(** The number of columns that bear a label. *)
Definition count_label (col : string) (cols : list string) : nat :=
  List.length (List.filter (String.eqb col) cols).

(** The cells of a row under a label, in column order. *)
Fixpoint cells_under (col : string) (cols : list string) (cells : list pyval) : list pyval :=
  match cols, cells with
  | d :: cols', v :: cells' =>
      if String.eqb col d then v :: cells_under col cols' cells'
      else cells_under col cols' cells'
  | _, _ => []
  end.

(** [row[col]]: a scalar, or a Series when the cleaned labels repeat. *)
Definition row_item_at (cols : list string) (cells : list pyval) (col : string) : row_item :=
  if (1 <? count_label col cols)%nat then Series (cells_under col cols cells)
  else Scalar (row_get cols cells col).

(** The use of [row[col]] as a condition, directly or through
    [pd.notna]: the truth value of a Series raises. *)
Definition scalar (x : row_item) : result pyval :=
  match x with
  | Scalar v => Ok v
  | Series _ => Raise ValueError
  end.

Definition _find_column (cols : list string) (possible_names : list string) : option string :=
  List.find (fun name => mem name cols) possible_names.

Definition _get_value (cols : list string) (cells : list pyval) (col : option string)
    : row_item :=
  match col with
  | None => Scalar VNone
  | Some c => if mem c cols then row_item_at cols cells c else Scalar VNone
  end.

Definition metric_indicators : list string :=
  ["mse"; "mae"; "mape"; "rmse"; "aic"; "bic"; "loglik"; "log_likelihood";
   "win_rate"; "accuracy"; "r_squared"; "correlation"; "p_value";
   "violation_rate"; "qstat"; "archlm"; "convergence"; "error"; "loss";
   "avg_mse"; "avg_mae"; "avg_mape"].

Definition is_metric_column (col : string) : bool :=
  let col_lower := lower col in
  if List.existsb (fun indicator => contains indicator col_lower) metric_indicators then true
  else negb (mem col ["asset"; "model"; "Asset"; "Model"; "index"; "Index"]).

Definition _get_metric_columns (cols : list string) : list string :=
  List.filter is_metric_column cols.

Definition _infer_model_family (model : pyval) : result string :=
  if truthy model then
    match model with
    | VStr m =>
        Ok (if contains "NF" m || contains "Flow" m || contains "nf" (lower m)
            then "NF-GARCH" else "GARCH")
    | _ => Raise TypeError
    end
  else Ok "GARCH".

(** [float(v)] for a cell that is not missing. *)
Definition py_float (env : Env) (v : pyval) : result float :=
  match v with
  | VFloat f => Ok f
  | VInt z => Ok (Num.float_of_Z z)
  | VBool b => Ok (Num.float_of_bool b)
  | VStr s => float_of_str env s
  | VNone => Raise TypeError
  end.

(** Sequencing of a loop whose body may raise and appends to a list. *)
Fixpoint collect {A B : Type} (f : A -> result (list B)) (l : list A) : result (list B) :=
  match l with
  | [] => Ok []
  | a :: t =>
      let! here := f a in
      let! rest := collect f t in
      Ok (here ++ rest)%list
  end.

(** The labels of a list, each at its first position: the keys of a
    dictionary filled in list order. *)
Fixpoint first_occurrences (seen : list string) (l : list string) : list string :=
  match l with
  | [] => []
  | x :: t =>
      if mem x seen then first_occurrences seen t
      else x :: first_occurrences (x :: seen) t
  end.

Section ProcessDataframe.

Variables (env : Env) (run_id : string) (metadata : Metadata) (sheet_name : option string).
Variables (cols : list string) (asset_col model_col : option string) (metric_cols : list string).

(** The [original_<col>] entries of a row. *)
Definition originals (cells : list pyval) : list (string * row_item) :=
  List.map (fun col => ("original_" ++ col, row_item_at cols cells col))
    (first_occurrences []
       (List.filter
          (fun col =>
             negb (List.existsb
                     (fun k => match k with Some c => String.eqb col c | None => false end)
                     [asset_col; model_col])
             && negb (mem col metric_cols))
          cols)).

(** The body of the loop over metric columns. *)
Definition emit (idx : nat) (cells : list pyval) (asset model : pyval)
    (metric_col : string) : result (list ResultRecord) :=
  let! cell := scalar (row_item_at cols cells metric_col) in
  if notna cell then
    let metric_name := normalize_metric_name metric_col in
    let source_file := file_path metadata in
    let! model_family :=
      (if contains "nf_generated_residuals" source_file then Ok "NF-GARCH"
       else if truthy_opt (model_family metadata)
            then Ok (default "" (model_family metadata))
            else _infer_model_family model) in
    let! value :=
      (if notna cell then (let! x := py_float env cell in Ok (Some x)) else Ok None) in
    Ok [ {| r_asset := asset;
            r_model := model;
            r_model_family := model_family;
            r_split_type := split_type metadata;
            r_fold := fold metadata;
            r_metric := metric_name;
            r_value := value;
            r_run_id := run_id;
            r_timestamp := now env;
            r_source_file := source_file;
            r_sheet_name := sheet_name;
            r_row_index := idx;
            r_asset_type := asset_type metadata;
            r_config_hash := config_hash metadata;
            r_original := originals cells |} ]
  else Ok [].

(** Asset and model of a row: the row's own cells, else the file-level
    metadata, then the file-based defaults and the NaN replacement. *)
Definition row_keys (cells : list pyval) : result (pyval * pyval) :=
  let! own_asset := scalar (_get_value cols cells asset_col) in
  let asset := py_or own_asset (of_opt_str (asset metadata)) in
  let! own_model := scalar (_get_value cols cells model_col) in
  let model := py_or own_model (of_opt_str (model metadata)) in
  let '(asset, model) :=
    if eq_str asset "Unknown" && eq_str model "Unknown" then
      let file_path := file_path metadata in
      if contains "model_ranking" file_path then (VStr "All_Assets", VStr "Summary")
      else if contains "forecast_accuracy" file_path then (VStr "All_Assets", VStr "Summary")
      else (VStr "Unknown", VStr "Unknown")
    else (asset, model) in
  let asset := if isna asset || eq_str asset "nan" then VStr "All_Assets" else asset in
  let model := if isna model || eq_str model "nan" then VStr "Summary" else model in
  Ok (asset, model).

(** The body of the loop over rows. *)
Definition process_row (ir : nat * list pyval) : result (list ResultRecord) :=
  let '(idx, cells) := ir in
  let! keys := row_keys cells in
  collect (emit idx cells (fst keys) (snd keys)) metric_cols.

End ProcessDataframe.

Definition indexed {A : Type} (l : list A) : list (nat * A) :=
  List.combine (List.seq 0 (List.length l)) l.

Definition _process_dataframe (env : Env) (run_id : string) (df : DataFrame)
    (metadata : Metadata) (sheet_name : option string) : result (list ResultRecord) :=
  if empty df then Ok []
  else
    let cols := List.map clean_column (columns df) in
    let asset_col := _find_column cols ["asset"; "Asset"; "ASSET"; "symbol"; "Symbol"] in
    let model_col := _find_column cols ["model"; "Model"; "MODEL"; "method"; "Method"] in
    let metric_cols := _get_metric_columns cols in
    collect
      (process_row env run_id metadata sheet_name cols asset_col model_col metric_cols)
      (indexed (rows df)).

(** The (row, metric column) pairs of a table whose cell is not missing,
    in the order rows and columns are visited. *)
Definition present_cells (df : DataFrame) : list (nat * string * pyval) :=
  let cols := List.map clean_column (columns df) in
  List.flat_map
    (fun ir : nat * list pyval =>
       List.flat_map
         (fun col =>
            let cell := row_get cols (snd ir) col in
            if notna cell then [(fst ir, col, cell)] else [])
         (_get_metric_columns cols))
    (indexed (rows df)).

(** [os.path.basename] and [Path.suffix]. *)
Fixpoint basename (p : string) : string :=
  match p with
  | EmptyString => EmptyString
  | String _ t => if contains "/" p then basename t else p
  end.

Fixpoint from_last_dot (s : string) : option string :=
  match s with
  | EmptyString => None
  | String c t =>
      match from_last_dot t with
      | Some r => Some r
      | None => if Ascii.eqb c "." then Some s else None
      end
  end.

Definition suffix (p : string) : string :=
  match basename p with
  | EmptyString => EmptyString
  | String _ t =>
      match from_last_dot t with
      | Some r => if (String.length r =? 1)%nat then EmptyString else r
      | None => EmptyString
      end
  end.

Definition skip_patterns : list string :=
  ["archive/"; "old_"; "duplicate_"; "legacy_"; "unused_"; "__pycache__/"; ".git/";
   "node_modules/"; "checkpoints/"; "environment/"; "scripts/"; "tools/"; "tests/"].

(** [size_of] is [file_path.stat().st_size]. *)
Definition _should_skip_file (size_of : string -> N) (file_path : string) : bool :=
  if List.existsb (fun pattern => contains pattern file_path) skip_patterns then true
  else if (size_of file_path <? 100)%N then true
  else false.

(** [Path(base) / segment] for a relative segment. *)
Definition path_div (base segment : string) : string :=
  if String.eqb base "." || String.eqb base "" then segment
  else PathParsing.path_join base segment.

Definition search_patterns : list string := ["**/*.csv"; "**/*.xlsx"; "**/*.json"].

Definition search_dirs : list string :=
  ["outputs"; "results"; "data/processed"; "nf_generated_residuals"].

Definition scan_result_files (env : Env) (size_of : string -> N) (base_dir : string)
    : list string :=
  List.flat_map
    (fun pattern =>
       List.flat_map
         (fun search_dir =>
            let search_path := path_div base_dir search_dir in
            if path_exists env search_path then
              List.filter (fun file_path => negb (_should_skip_file size_of file_path))
                (glob env search_path pattern)
            else [])
         search_dirs)
    search_patterns.

(** The [try] block of [process_file]. *)
Definition process_file_body (env : Env) (run_id : string) (file_path : string)
    : result (list ResultRecord) :=
  let! metadata := parse_file_metadata env file_path in
  if String.eqb (suffix file_path) ".csv" then
    let! df := read_csv env file_path in
    _process_dataframe env run_id df metadata None
  else if String.eqb (suffix file_path) ".xlsx" then
    let! names := sheet_names env file_path in
    let! excel_data :=
      collect (fun name => let! d := read_excel env file_path name in Ok [(name, d)]) names in
    collect (fun sd => _process_dataframe env run_id (snd sd) metadata (Some (fst sd)))
      excel_data
  else if String.eqb (suffix file_path) ".json" then
    let! data := open_json env file_path in
    let! df := json_normalize env data in
    _process_dataframe env run_id df metadata None
  else Ok [].

(** [process_file]: the records of the file and the updated list of
    skipped files. *)
Definition process_file (env : Env) (run_id : string) (skipped_files : list (string * exn))
    (file_path : string) : list ResultRecord * list (string * exn) :=
  match process_file_body env run_id file_path with
  | Ok records => (records, skipped_files)
  | Raise e => ([], (skipped_files ++ [(file_path, e)])%list)
  end.

(** *** The Aggregator

    [master_df.groupby(keys)['value'].agg(['mean','std','min','max','count'])
    .reset_index()]: one row per distinct key, rows in key order; a
    record whose key has a missing component is dropped; missing values
    are skipped by every statistic.  [count], [min] and [max] are exact;
    [mean] and [std] are accumulated in binary64 by pandas, in the order
    of the rows, and are taken from the environment. *)

Record Stats : Type := {
  s_mean : float;
  s_std : float;
  s_min : float;
  s_max : float;
  s_count : nat
}.

(** The minimum of a group: the first value that no other value is below. *)
Definition fmin (values : list float) : float :=
  match values with
  | [] => nan
  | x :: t => List.fold_left (fun m v => if PrimFloat.ltb v m then v else m) t x
  end.

Definition fmax (values : list float) : float :=
  match values with
  | [] => nan
  | x :: t => List.fold_left (fun m v => if PrimFloat.ltb m v then v else m) t x
  end.

Definition agg (env : Env) (values : list float) : Stats :=
  {| s_mean := match values with [] => nan | _ => mean env values end;
     s_std := if (List.length values <? 2)%nat then nan else std env values;
     s_min := fmin values;
     s_max := fmax values;
     s_count := List.length values |}.

(** A key as [groupby] compares it: numbers by value, whatever their type. *)
Inductive key_value : Type :=
| KNegInf
| KNum (q : Q)
| KPosInf
| KStr (s : string).

Definition key_cell (v : pyval) : option key_value :=
  match v with
  | VNone => None
  | VBool b => Some (KNum (if b then 1 else 0))
  | VInt z => Some (KNum (inject_Z z))
  | VFloat f =>
      if is_nan f then None
      else match Num.exact f with
           | Some q => Some (KNum q)
           | None => Some (if get_sign f then KNegInf else KPosInf)
           end
  | VStr s => Some (KStr s)
  end.

(** The value of a record as the statistics see it. *)
Definition number_of (r : ResultRecord) : option float :=
  match r_value r with
  | Some f => if is_nan f then None else Some f
  | None => None
  end.

Global Instance Q_eq_dec : EqDecision Q.
Proof. solve_decision. Defined.
Global Instance key_value_eq_dec : EqDecision key_value.
Proof. solve_decision. Defined.

Definition key_code (k : key_value) : (bool + Z * positive) + string :=
  match k with
  | KNegInf => inl (inl true)
  | KPosInf => inl (inl false)
  | KNum q => inl (inr (Qnum q, Qden q))
  | KStr s => inr s
  end.

Definition key_decode (c : (bool + Z * positive) + string) : key_value :=
  match c with
  | inl (inl true) => KNegInf
  | inl (inl false) => KPosInf
  | inl (inr (n, d)) => KNum (Qmake n d)
  | inr s => KStr s
  end.

Global Instance key_value_countable : Countable key_value.
Proof.
  apply (inj_countable' key_code key_decode).
  intros [| [n d] | | s]; reflexivity.
Defined.

(** The order of the rows of a summary: numbers by value, then text in
    lexicographic order. *)
Definition key_value_leb (a b : key_value) : bool :=
  match a, b with
  | KNegInf, _ => true
  | _, KNegInf => false
  | KNum p, KNum q => Qle_bool p q
  | KNum _, _ => true
  | _, KNum _ => false
  | KPosInf, _ => true
  | _, KPosInf => false
  | KStr s, KStr t => String.leb s t
  end.

Definition key2 : Type := key_value * string.
Definition key3 : Type := key_value * key_value * string.

Definition key2_leb (a b : key2) : bool :=
  let '(a1, a2) := a in
  let '(b1, b2) := b in
  if decide (a1 = b1) then String.leb a2 b2 else key_value_leb a1 b1.

Definition key3_leb (a b : key3) : bool :=
  let '(a1, a2, a3) := a in
  let '(b1, b2, b3) := b in
  if decide (a1 = b1) then
    if decide (a2 = b2) then String.leb a3 b3 else key_value_leb a2 b2
  else key_value_leb a1 b1.

Section GroupBy.

Context {K : Type} `{Countable K}.
Variables (env : Env) (key : ResultRecord -> option K) (leb : K -> K -> bool).

Definition key_le : relation K := fun a b => Is_true (leb a b).

Global Instance key_le_dec : RelDecision key_le.
Proof. intros a b. unfold key_le. apply _. Defined.

(** The distinct keys, in key order. *)
Definition group_keys (master : list ResultRecord) : list K :=
  merge_sort key_le (elements (list_to_set (omap key master) : gset K)).

(** The non-missing values of the group of [k], in row order. *)
Definition group_values (master : list ResultRecord) (k : K) : list float :=
  omap number_of (filter (fun r => key r = Some k) master).

Definition groupby_agg (master : list ResultRecord) : list (K * Stats) :=
  List.map (fun k => (k, agg env (group_values master k))) (group_keys master).

End GroupBy.

Definition by_model (r : ResultRecord) : option key2 :=
  match key_cell (r_model r) with
  | Some m => Some (m, r_metric r)
  | None => None
  end.

Definition by_asset_model (r : ResultRecord) : option key3 :=
  match key_cell (r_asset r), key_cell (r_model r) with
  | Some a, Some m => Some (a, m, r_metric r)
  | _, _ => None
  end.

(** The grouped entries of the dictionary returned by
    [create_summary_tables]; the dictionary is empty for an empty table.
    Its third entry, [winrates], is not part of this development. *)
Record Summaries : Type := {
  summary_by_model : list (key2 * Stats);
  summary_by_asset_model : list (key3 * Stats)
}.

Definition create_summary_tables (env : Env) (master : list ResultRecord) : option Summaries :=
  match master with
  | [] => None
  | _ =>
      Some {| summary_by_model := groupby_agg env by_model key2_leb master;
              summary_by_asset_model := groupby_agg env by_asset_model key3_leb master |}
  end.

(** *** The collection run *)









(** *** Specification predicates *)

(** The column names that are never metric columns. *)
Definition key_names : list string :=
  ["asset"; "model"; "Asset"; "Model"; "index"; "Index"].

(** Aliases of the key columns that [_get_metric_columns] does not
    exclude. *)
Definition alias_names : list string :=
  ["ASSET"; "symbol"; "Symbol"; "MODEL"; "method"; "Method"].

(** The invariants of the records of one table. *)
Definition record_of_table (env : Env) (run_id : string) (df : DataFrame)
    (metadata : Metadata) (sheet_name : option string) (r : ResultRecord) : Prop :=
  r_source_file r = file_path metadata /\ r_run_id r = run_id /\
  r_split_type r = split_type metadata /\ r_fold r = fold metadata /\
  r_config_hash r = config_hash metadata /\ r_asset_type r = asset_type metadata /\
  r_sheet_name r = sheet_name /\
  (r_row_index r < List.length (rows df))%nat /\
  (exists col, List.In col (List.map clean_column (columns df)) /\
               r_metric r = normalize_metric_name col) /\
  (isna (r_asset r) = false /\ eq_str (r_asset r) "nan" = false) /\
  (isna (r_model r) = false /\ eq_str (r_model r) "nan" = false).

(** A record that a group counts: its key is complete and its value is a
    number. *)
Definition counted {K : Type} (key : ResultRecord -> option K) (r : ResultRecord) : bool :=
  match key r, number_of r with
  | Some _, Some _ => true
  | _, _ => false
  end.

(** The values of a group: none of them is NaN. *)
Definition numbers (values : list float) : Prop :=
  List.Forall (fun v => is_nan v = false) values.

(** Two floats are the same number: equal as floats (the two zeros are),
    or both NaN. *)
Definition same_number (a b : float) : Prop :=
  PrimFloat.eqb a b = true \/ (is_nan a = true /\ is_nan b = true).

(** Two rows of a summary agree in what does not depend on rounding:
    the key, the count, the minimum and the maximum. *)
Definition rows_agree {K : Type} (a b : K * Stats) : Prop :=
  fst a = fst b /\
  s_count (snd a) = s_count (snd b) /\
  same_number (s_min (snd a)) (s_min (snd b)) /\
  same_number (s_max (snd a)) (s_max (snd b)).

(** Two results of [create_summary_tables] agree: both empty, or both
    tables agree row by row. *)
Definition summaries_agree (a b : option Summaries) : Prop :=
  match a, b with
  | None, None => True
  | Some s, Some s' =>
      Forall2 rows_agree (summary_by_model s) (summary_by_model s') /\
      Forall2 rows_agree (summary_by_asset_model s) (summary_by_asset_model s')
  | _, _ => False
  end.

(** The statistics of a group are either those of no value at all
    or ordered numbers. *)
Definition stats_consistent (st : Stats) : Prop :=
  (s_count st = 0%nat /\ is_nan (s_mean st) = true /\ is_nan (s_std st) = true /\
   is_nan (s_min st) = true /\ is_nan (s_max st) = true) \/
  ((1 <= s_count st)%nat /\
   is_nan (s_min st) = false /\ is_nan (s_max st) = false /\
   PrimFloat.leb (s_min st) (s_max st) = true /\
   (s_count st = 1%nat -> is_nan (s_std st) = true /\ s_min st = s_max st)).

End CollectResults.

(** ** tools/check_regression.py *)

Module CheckRegression.

Import Str.

(** The entries of [self.failures]; each constructor is one message
    format and carries what the message interpolates. *)
Inductive failure : Type :=
| NaNMismatch (field_name : string) (current expected : pyval)
| NearZeroMismatch (field_name : string) (current expected : pyval)
| RelativeDifference (field_name : string) (relative_diff tolerance : float)
| StringMismatch (field_name : string) (current expected : pyval)
| ShapeMismatch (current expected : nat * nat)
| ColumnMismatch (current expected : list string)
| ReadError (current_file : string) (e : exn)
| SheetNamesMismatch (current expected : list string)
| SheetShapeMismatch (sheet_name : string) (current expected : nat * nat)
| SheetColumnMismatch (sheet_name : string).

(** A method of the checker: it reads and extends [self.failures] and
    returns a value or raises. *)
Definition M (A : Type) : Type := list failure -> result A * list failure.

Definition ret {A} (a : A) : M A := fun fs => (Ok a, fs).
Definition raise {A} (e : exn) : M A := fun fs => (Raise e, fs).
Definition append (f : failure) : M unit := fun fs => (Ok tt, (fs ++ [f])%list).
Definition bind {A B} (m : M A) (k : A -> M B) : M B :=
  fun fs =>
    match m fs with
    | (Ok a, fs') => k a fs'
    | (Raise e, fs') => (Raise e, fs')
    end.
Definition lift {A} (r : result A) : M A := fun fs => (r, fs).

Notation "'do' x <- m ; k" := (bind m (fun x => k))
  (at level 10, x name, m at level 100, k at level 200).
Notation "m ;; k" := (bind m (fun _ => k))
  (at level 100, k at level 200, right associativity).

Fixpoint for_each {A} (l : list A) (body : A -> M unit) : M unit :=
  match l with
  | [] => ret tt
  | a :: t => body a ;; for_each t body
  end.

(** *** Arithmetic on the scalars of numeric columns *)

(** A number as numpy sees it. *)
Inductive num : Type :=
| NBool (b : bool)
| NInt (z : Z)
| NFloat (f : float).

(** The operand of an arithmetic operation; text and [None] raise
    [TypeError]. *)
Definition to_num (v : pyval) : result num :=
  match v with
  | VBool b => Ok (NBool b)
  | VInt z => Ok (NInt z)
  | VFloat f => Ok (NFloat f)
  | VStr _ | VNone => Raise TypeError
  end.

(** Conversion to float64, as in mixed arithmetic, true division and
    comparison with a Python float. *)
Definition as_float (x : num) : float :=
  match x with
  | NBool b => Num.float_of_bool b
  | NInt z => Num.float_of_Z z
  | NFloat f => f
  end.

Definition as_int (x : num) : Z :=
  match x with
  | NBool b => if b then 1%Z else 0%Z
  | NInt z => z
  | NFloat _ => 0%Z
  end.

(** [abs(x)]: a boolean stays a boolean, an integer wraps around. *)
Definition num_abs (x : num) : num :=
  match x with
  | NBool b => NBool b
  | NInt z => NInt (Num.wrap64 (Z.abs z))
  | NFloat f => NFloat (PrimFloat.abs f)
  end.

(** [x - y]: numpy refuses to subtract two booleans; a float operand
    makes the result a float; otherwise the result is an int64. *)
Definition num_sub (x y : num) : result num :=
  match x, y with
  | NBool _, NBool _ => Raise TypeError
  | NFloat _, _ | _, NFloat _ => Ok (NFloat (PrimFloat.sub (as_float x) (as_float y)))
  | _, _ => Ok (NInt (Num.wrap64 (as_int x - as_int y)))
  end.

(** [x / y] *)
Definition num_div (x y : num) : float := PrimFloat.div (as_float x) (as_float y).

Definition compare_numeric (tolerance : float) (current expected : pyval)
    (field_name : string) : M bool :=
  if isna current && isna expected then ret true
  else if isna current || isna expected then
    append (NaNMismatch field_name current expected) ;; ret false
  else
    do e <- lift (to_num expected);
    if PrimFloat.ltb (as_float (num_abs e)) 1e-10%float then
      do c <- lift (to_num current);
      do d <- lift (num_sub c e);
      if PrimFloat.ltb tolerance (as_float (num_abs d)) then
        append (NearZeroMismatch field_name current expected) ;; ret false
      else ret true
    else
      do c <- lift (to_num current);
      do d <- lift (num_sub c e);
      let relative_diff := num_div (num_abs d) (num_abs e) in
      if PrimFloat.ltb tolerance relative_diff then
        append (RelativeDifference field_name relative_diff tolerance) ;; ret false
      else ret true.

(** [str(v)] *)
Definition py_str (env : Env) (v : pyval) : string :=
  match v with
  | VNone => "None"
  | VBool b => if b then "True" else "False"
  | VInt z => of_Z z
  | VFloat f => if is_nan f then "nan" else str_of_float env f
  | VStr s => s
  end.

Definition compare_string (env : Env) (current expected : pyval)
    (field_name : string) : M bool :=
  if negb (String.eqb (py_str env current) (py_str env expected)) then
    append (StringMismatch field_name current expected) ;; ret false
  else ret true.

(** [df.shape] *)
Definition shape (df : DataFrame) : nat * nat :=
  (List.length (rows df), List.length (columns df)).

(** [df.loc[idx, col]]; the readers never return a table in which a
    label repeats. *)
Definition loc (df : DataFrame) (idx : nat) (col : string) : pyval :=
  CollectResults.row_get (columns df) (List.nth idx (rows df) []) col.

Definition is_float (v : pyval) : bool :=
  match v with
  | VFloat _ => true
  | _ => false
  end.

Definition is_int (v : pyval) : bool :=
  match v with
  | VInt _ => true
  | _ => false
  end.

Definition is_bool (v : pyval) : bool :=
  match v with
  | VBool _ => true
  | _ => false
  end.

(** The cells of a column, top to bottom. *)
Definition column_cells (df : DataFrame) (col : string) : list pyval :=
  List.map (fun cells => CollectResults.row_get (columns df) cells col) (rows df).

(** [pd.api.types.is_numeric_dtype(df[col])]: the column is a float, an
    integer or a boolean column. *)
Definition is_numeric_dtype (df : DataFrame) (col : string) : bool :=
  List.forallb is_float (column_cells df col)
  || List.forallb is_int (column_cells df col)
  || List.forallb is_bool (column_cells df col).

(** A column of dtype [bool] with at least one cell. *)
Definition boolean_column (df : DataFrame) (col : string) : bool :=
  negb (List.length (rows df) =? 0)%nat && List.forallb is_bool (column_cells df col).

Definition index (df : DataFrame) : list nat := List.seq 0 (List.length (rows df)).

(** The loop over the cells of two aligned tables; [label col idx] is the
    field name. *)
Definition check_cells (env : Env) (tolerance : float) (label : string -> nat -> string)
    (current_df expected_df : DataFrame) : M unit :=
  for_each (columns current_df) (fun col =>
    for_each (index current_df) (fun idx =>
      let current_val := loc current_df idx col in
      let expected_val := loc expected_df idx col in
      if is_numeric_dtype current_df col then
        compare_numeric tolerance current_val expected_val (label col idx) ;; ret tt
      else
        compare_string env current_val expected_val (label col idx) ;; ret tt)).

Definition no_failures : M bool := fun fs => (Ok (bool_decide (fs = [])), fs).

Definition shape_eqb (a b : nat * nat) : bool :=
  (fst a =? fst b)%nat && (snd a =? snd b)%nat.

Definition labels_eqb (a b : list string) : bool := bool_decide (a = b).

(** The [try] block of [check_csv_file]. *)
Definition check_csv_body (env : Env) (tolerance : float)
    (current_file expected_file : string) : M bool :=
  do current_df <- lift (read_csv env current_file);
  do expected_df <- lift (read_csv env expected_file);
  if negb (shape_eqb (shape current_df) (shape expected_df)) then
    append (ShapeMismatch (shape current_df) (shape expected_df)) ;; ret false
  else if negb (labels_eqb (columns current_df) (columns expected_df)) then
    append (ColumnMismatch (columns current_df) (columns expected_df)) ;; ret false
  else
    check_cells env tolerance (fun col idx => col ++ "[" ++ of_nat idx ++ "]")
      current_df expected_df ;;
    no_failures.

(** [try: body except Exception as e: failures.append(...); return False] *)
Definition guarded (current_file : string) (body : M bool) (fs : list failure)
    : bool * list failure :=
  match body fs with
  | (Ok b, fs') => (b, fs')
  | (Raise e, fs') => (false, (fs' ++ [ReadError current_file e])%list)
  end.

Definition check_csv_file (env : Env) (tolerance : float)
    (current_file expected_file : string) (fs : list failure) : bool * list failure :=
  guarded current_file (check_csv_body env tolerance current_file expected_file) fs.

(** The body of the loop over sheets; [continue] ends it early. *)
Definition check_sheet (env : Env) (tolerance : float) (current_file expected_file : string)
    (sheet_name : string) : M unit :=
  do current_df <- lift (read_excel env current_file sheet_name);
  do expected_df <- lift (read_excel env expected_file sheet_name);
  if negb (shape_eqb (shape current_df) (shape expected_df)) then
    append (SheetShapeMismatch sheet_name (shape current_df) (shape expected_df))
  else if negb (labels_eqb (columns current_df) (columns expected_df)) then
    append (SheetColumnMismatch sheet_name)
  else
    check_cells env tolerance
      (fun col idx => sheet_name ++ "." ++ col ++ "[" ++ of_nat idx ++ "]")
      current_df expected_df.

Definition check_excel_body (env : Env) (tolerance : float)
    (current_file expected_file : string) : M bool :=
  do current_names <- lift (sheet_names env current_file);
  do expected_names <- lift (sheet_names env expected_file);
  if negb (labels_eqb current_names expected_names) then
    append (SheetNamesMismatch current_names expected_names) ;; ret false
  else
    for_each current_names (check_sheet env tolerance current_file expected_file) ;;
    no_failures.

Definition check_excel_file (env : Env) (tolerance : float)
    (current_file expected_file : string) (fs : list failure) : bool * list failure :=
  guarded current_file (check_excel_body env tolerance current_file expected_file) fs.

(** One iteration of the loop of [check_metrics_directory]. *)
Definition check_metric_file (env : Env) (tolerance : float)
    (expected_path metric_file : string) (fs : list failure) : bool * list failure :=
  if String.eqb (CollectResults.suffix metric_file) ".csv"
  then check_csv_file env tolerance metric_file expected_path fs
  else check_excel_file env tolerance metric_file expected_path fs.

Fixpoint check_metric_files (env : Env) (tolerance : float) (expected_path : string)
    (metric_files : list string) (all_passed : bool) (fs : list failure)
    : bool * list failure :=
  match metric_files with
  | [] => (all_passed, fs)
  | metric_file :: rest =>
      let '(passed, fs') := check_metric_file env tolerance expected_path metric_file fs in
      check_metric_files env tolerance expected_path rest
        (if negb passed then false else all_passed) fs'
  end.

Definition check_metrics_directory (env : Env) (tolerance : float)
    (current_dir expected_file : string) (fs : list failure) : bool * list failure :=
  if negb (path_exists env current_dir) then (false, fs)
  else if negb (path_exists env expected_file) then (false, fs)
  else
    let metric_files :=
      List.concat (List.map (glob env current_dir) ["*.csv"; "*.xlsx"; "*.xls"]) in
    check_metric_files env tolerance expected_file metric_files true fs.

(** *** Specification predicates *)

(** The quantity [compare_numeric] holds against the tolerance for two
    floats: the absolute difference when the baseline is below 1e-10 in
    magnitude, the relative difference otherwise, computed in binary64. *)
Definition difference (current baseline : float) : float :=
  if PrimFloat.ltb (PrimFloat.abs baseline) 1e-10%float
  then PrimFloat.abs (PrimFloat.sub current baseline)
  else PrimFloat.div (PrimFloat.abs (PrimFloat.sub current baseline)) (PrimFloat.abs baseline).


(** A method only appends to [self.failures]. *)
Definition grows {A} (m : M A) : Prop :=
  forall fs, exists added, snd (m fs) = (fs ++ added)%list.

(** The value a method returns is whether the failure list is empty. *)
Definition reports_emptiness (m : M bool) : Prop :=
  forall fs,
    match m fs with
    | (Ok b, fs') => b = bool_decide (fs' = [])
    | (Raise _, _) => True
    end.

End CheckRegression.

(** ** Environments used in examples *)

(** No file exists, every reader raises and the reductions answer NaN. *)
Definition bare_env : Env :=
  {| path_exists := fun _ => false;
     open_json := fun _ => Raise OSError;
     open_yaml := fun _ => Raise OSError;
     json_dumps := fun _ => Raise TypeError;
     md5_hex8 := fun s => Ok s;
     read_csv_header := fun _ => Raise OSError;
     read_csv := fun _ => Raise OSError;
     sheet_names := fun _ => Raise OSError;
     read_excel := fun _ _ => Raise OSError;
     json_normalize := fun _ => Raise ValueError;
     glob := fun _ _ => [];
     float_of_str := fun _ => Raise ValueError;
     str_of_float := fun _ => "";
     mean := fun _ => nan;
     std := fun _ => nan;
     now := "" |}.

(** The mean as a running sum in row order, divided by the count. *)
Definition running_mean (values : list float) : float :=
  PrimFloat.div (List.fold_left PrimFloat.add values PrimFloat.zero)
    (Num.float_of_Z (Z.of_nat (List.length values))).

(** The sample standard deviation from running mean and sum of squares. *)
Definition running_std (values : list float) : float :=
  let step (acc : float * float * float) (v : float) :=
    let '(n, m, s) := acc in
    let n' := PrimFloat.add n PrimFloat.one in
    let m' := PrimFloat.add m (PrimFloat.div (PrimFloat.sub v m) n') in
    (n', m', PrimFloat.add s (PrimFloat.mul (PrimFloat.sub v m') (PrimFloat.sub v m))) in
  let '(n, _, s) := List.fold_left step values (PrimFloat.zero, PrimFloat.zero, PrimFloat.zero) in
  PrimFloat.sqrt (PrimFloat.div s (PrimFloat.sub n PrimFloat.one)).

(** The mean by compensated summation in row order: the running sum
    carries the rounding error of the previous addition. *)
Definition compensated_mean (values : list float) : float :=
  let step (acc : float * float) (v : float) :=
    let '(sumx, compensation) := acc in
    let y := PrimFloat.sub v compensation in
    let t := PrimFloat.add sumx y in
    let c := PrimFloat.sub (PrimFloat.sub t sumx) y in
    (t, if is_nan c then PrimFloat.zero else c) in
  PrimFloat.div (fst (List.fold_left step values (PrimFloat.zero, PrimFloat.zero)))
    (Num.float_of_Z (Z.of_nat (List.length values))).

(** An environment without files whose reductions are the running ones. *)
Definition summing_env : Env :=
  {| path_exists := path_exists bare_env;
     open_json := open_json bare_env;
     open_yaml := open_yaml bare_env;
     json_dumps := json_dumps bare_env;
     md5_hex8 := md5_hex8 bare_env;
     read_csv_header := read_csv_header bare_env;
     read_csv := read_csv bare_env;
     sheet_names := sheet_names bare_env;
     read_excel := read_excel bare_env;
     json_normalize := json_normalize bare_env;
     glob := glob bare_env;
     float_of_str := float_of_str bare_env;
     str_of_float := str_of_float bare_env;
     mean := running_mean;
     std := running_std;
     now := now bare_env |}.

(** The same with the compensated mean. *)
Definition compensating_env : Env :=
  {| path_exists := path_exists bare_env;
     open_json := open_json bare_env;
     open_yaml := open_yaml bare_env;
     json_dumps := json_dumps bare_env;
     md5_hex8 := md5_hex8 bare_env;
     read_csv_header := read_csv_header bare_env;
     read_csv := read_csv bare_env;
     sheet_names := sheet_names bare_env;
     read_excel := read_excel bare_env;
     json_normalize := json_normalize bare_env;
     glob := glob bare_env;
     float_of_str := float_of_str bare_env;
     str_of_float := str_of_float bare_env;
     mean := compensated_mean;
     std := running_std;
     now := now bare_env |}.

(** The single-row table [{"Model": "sGARCH", "Asset": "AMZN", "MSE": 0.01}]. *)
Definition single_row : DataFrame :=
  {| columns := ["Model"; "Asset"; "MSE"];
     rows := [[VStr "sGARCH"; VStr "AMZN"; VFloat 0.01]] |}.

(** A current table and a baseline of different heights whose aligned
    cells [a[0]] differ. *)
Definition short_table : DataFrame :=
  {| columns := ["a"]; rows := [[VFloat 1]] |}.

Definition tall_table : DataFrame :=
  {| columns := ["a"]; rows := [[VFloat 5]; [VFloat 2]] |}.

Definition other_table : DataFrame :=
  {| columns := ["a"]; rows := [[VFloat 3]] |}.

(** [current.csv] against [baseline.csv] differ in shape; the workbooks
    have sheets [s1] (different shapes) and [s2] (same shape, one cell
    differs). *)
Definition shape_env : Env :=
  {| path_exists := path_exists bare_env;
     open_json := open_json bare_env;
     open_yaml := open_yaml bare_env;
     json_dumps := json_dumps bare_env;
     md5_hex8 := md5_hex8 bare_env;
     read_csv_header := read_csv_header bare_env;
     read_csv := fun p =>
       if String.eqb p "current.csv" then Ok short_table
       else if String.eqb p "baseline.csv" then Ok tall_table
       else Raise OSError;
     sheet_names := fun p =>
       if String.eqb p "current.xlsx" then Ok ["s1"; "s2"]
       else if String.eqb p "baseline.xlsx" then Ok ["s1"; "s2"]
       else Raise OSError;
     read_excel := fun p sheet =>
       if String.eqb p "current.xlsx" then Ok short_table
       else if String.eqb sheet "s1" then Ok tall_table else Ok other_table;
     json_normalize := json_normalize bare_env;
     glob := glob bare_env;
     float_of_str := float_of_str bare_env;
     str_of_float := str_of_float bare_env;
     mean := mean bare_env;
     std := std bare_env;
     now := now bare_env |}.

(** A row whose [MSE] cell is missing. *)
Definition gappy_table : DataFrame :=
  {| columns := ["Model"; "MSE"; "MAE"];
     rows := [[VStr "sGARCH"; VNaN; VFloat 0.5]] |}.

(** The table [pd.json_normalize] builds from the document
    [{"Model": "sGARCH", "MSE": "nan"}], whose [MSE] cell is the text
    "nan", and an environment that holds this document alone, in
    [outputs/metrics.json], and in which [float] reads that text. *)
Definition nan_text_table : DataFrame :=
  {| columns := ["Model"; "MSE"];
     rows := [[VStr "sGARCH"; VStr "nan"]] |}.

Definition float_env : Env :=
  {| path_exists := path_exists bare_env;
     open_json := fun p =>
       if String.eqb p "outputs/metrics.json"
       then Ok (JObj [("Model", JStr "sGARCH"); ("MSE", JStr "nan")])
       else Raise OSError;
     open_yaml := open_yaml bare_env;
     json_dumps := json_dumps bare_env;
     md5_hex8 := md5_hex8 bare_env;
     read_csv_header := read_csv_header bare_env;
     read_csv := read_csv bare_env;
     sheet_names := sheet_names bare_env;
     read_excel := read_excel bare_env;
     json_normalize := fun _ => Ok nan_text_table;
     glob := glob bare_env;
     float_of_str := fun s => if String.eqb s "nan" then Ok nan else Raise ValueError;
     str_of_float := str_of_float bare_env;
     mean := mean bare_env;
     std := std bare_env;
     now := now bare_env |}.

(** A table whose cleaned labels repeat: [MSE] and [ MSE]. *)
Definition repeated_table : DataFrame :=
  {| columns := ["Model"; "MSE"; " MSE"];
     rows := [[VStr "sGARCH"; VFloat 0.5; VFloat 0.25]] |}.

(** A directory [out/] holding an unreadable [config.json] and a
    readable [config.yaml]. *)
Definition config_env : Env :=
  {| path_exists := fun p =>
       String.eqb p "out/config.json" || String.eqb p "out/config.yaml";
     open_json := fun _ => Raise ParseError;
     open_yaml := fun p =>
       if String.eqb p "out/config.yaml" then Ok (JObj []) else Raise OSError;
     json_dumps := fun d => match d with JObj [] => Ok "{}" | _ => Raise TypeError end;
     md5_hex8 := fun s => if String.eqb s "{}" then Ok "99914b93" else Raise ValueError;
     read_csv_header := read_csv_header bare_env;
     read_csv := read_csv bare_env;
     sheet_names := sheet_names bare_env;
     read_excel := read_excel bare_env;
     json_normalize := json_normalize bare_env;
     glob := glob bare_env;
     float_of_str := float_of_str bare_env;
     str_of_float := str_of_float bare_env;
     mean := mean bare_env;
     std := std bare_env;
     now := now bare_env |}.

(** A run of [n] digits, and a path whose fold number has 4301 digits. *)
Fixpoint ones (n : nat) : string :=
  match n with
  | O => EmptyString
  | S k => String "1" (ones k)
  end.

Definition long_fold_path : string := "outputs/fold_" ++ ones 4301 ++ ".txt".

(** A record of the master table with the given model, metric and value. *)
Definition sample_record (model metric : string) (value : float) : CollectResults.ResultRecord :=
  {| CollectResults.r_asset := VStr "AMZN";
     CollectResults.r_model := VStr model;
     CollectResults.r_model_family := "GARCH";
     CollectResults.r_split_type := "chrono";
     CollectResults.r_fold := PathParsing.FoldAll;
     CollectResults.r_metric := metric;
     CollectResults.r_value := Some value;
     CollectResults.r_run_id := "run";
     CollectResults.r_timestamp := "";
     CollectResults.r_source_file := "outputs/results.csv";
     CollectResults.r_sheet_name := None;
     CollectResults.r_row_index := 0;
     CollectResults.r_asset_type := Some "Equity";
     CollectResults.r_config_hash := None;
     CollectResults.r_original := [] |}.

(** A table whose asset column is named [symbol]. *)
Definition symbol_table : DataFrame :=
  {| columns := ["symbol"; "MSE"];
     rows := [[VStr "AAPL"; VFloat 0.1]] |}.

(** A header without rows. *)
Definition header_only : DataFrame :=
  {| columns := ["Model"; "MSE"]; rows := [] |}.

(** A tree with two CSV files under [outputs], one of them in a
    directory of scripts; [outputs/a.csv] holds the single-row table and
    [outputs/empty.csv] an empty one. *)
Definition scan_env : Env :=
  {| path_exists := fun p => String.eqb p "outputs";
     open_json := open_json bare_env;
     open_yaml := open_yaml bare_env;
     json_dumps := json_dumps bare_env;
     md5_hex8 := md5_hex8 bare_env;
     read_csv_header := read_csv_header bare_env;
     read_csv := fun p =>
       if String.eqb p "outputs/empty.csv" then Ok header_only
       else if String.eqb p "outputs/a.csv" then Ok single_row
       else Raise OSError;
     sheet_names := sheet_names bare_env;
     read_excel := read_excel bare_env;
     json_normalize := json_normalize bare_env;
     glob := fun dir pattern =>
       if String.eqb dir "outputs" && String.eqb pattern "**/*.csv"
       then ["outputs/a.csv"; "outputs/scripts/b.csv"] else [];
     float_of_str := float_of_str bare_env;
     str_of_float := str_of_float bare_env;
     mean := running_mean;
     std := running_std;
     now := now bare_env |}.

Definition sample_master : list CollectResults.ResultRecord :=
  [sample_record "sGARCH" "MSE" 0.5; sample_record "eGARCH" "MSE" 1.5;
   sample_record "sGARCH" "MSE" 2.5].

(** Three values of one group whose running sum depends on their order,
    in two orders. *)
Definition cancelling_master : list CollectResults.ResultRecord :=
  [sample_record "sGARCH" "LogLik" 1; sample_record "sGARCH" "LogLik" 1e16;
   sample_record "sGARCH" "LogLik" (-1e16)].

Definition cancelling_master' : list CollectResults.ResultRecord :=
  [sample_record "sGARCH" "LogLik" 1e16; sample_record "sGARCH" "LogLik" (-1e16);
   sample_record "sGARCH" "LogLik" 1].

(** A table with a boolean column. *)
Definition flag_table : DataFrame :=
  {| columns := ["converged"]; rows := [[VBool true]] |}.

(** A directory [outputs/standardized] with one CSV file that holds a
    number where the baseline has text; [flags.csv] holds the table with
    the boolean column. *)
Definition text_baseline : DataFrame :=
  {| columns := ["a"]; rows := [[VStr "high"]] |}.

Definition text_env : Env :=
  {| path_exists := fun p => String.eqb p "outputs/standardized" || String.eqb p "baseline.csv";
     open_json := open_json bare_env;
     open_yaml := open_yaml bare_env;
     json_dumps := json_dumps bare_env;
     md5_hex8 := md5_hex8 bare_env;
     read_csv_header := read_csv_header bare_env;
     read_csv := fun p =>
       if String.eqb p "outputs/standardized/current.csv" then Ok short_table
       else if String.eqb p "baseline.csv" then Ok text_baseline
       else if String.eqb p "flags.csv" then Ok flag_table
       else Raise OSError;
     sheet_names := sheet_names bare_env;
     read_excel := read_excel bare_env;
     json_normalize := json_normalize bare_env;
     glob := fun dir pattern =>
       if String.eqb dir "outputs/standardized" && String.eqb pattern "*.csv"
       then ["outputs/standardized/current.csv"] else [];
     float_of_str := float_of_str bare_env;
     str_of_float := str_of_float bare_env;
     mean := mean bare_env;
     std := std bare_env;
     now := now bare_env |}.

(** * Properties *)

(** ** Strings *)

Module StrFacts.

Import Str.

Local Arguments String.append !_ _ / : simpl nomatch.

Lemma prefix_app (n post : string) : String.prefix n (n ++ post) = true.
Proof.
  induction n as [| c n IH]; cbn.
  - now destruct post.
  - destruct (ascii_dec c c); [exact IH | congruence].
Qed.

Lemma prefix_inv (n h : string) :
  String.prefix n h = true -> exists post, h = n ++ post.
Proof.
  revert h. induction n as [| c n IH]; intros h Hp.
  - now exists h.
  - destruct h as [| d h]; cbn in Hp; [discriminate |].
    destruct (ascii_dec c d) as [-> |]; [| discriminate].
    destruct (IH _ Hp) as [post ->]. now exists post.
Qed.

Lemma contains_cons (n : string) (c : ascii) (h : string) :
  contains n (String c h) = String.prefix n (String c h) || contains n h.
Proof. reflexivity. Qed.

Lemma contains_nil (n : string) : contains n "" = String.prefix n "".
Proof. cbn. apply orb_false_r. Qed.

(** [contains] is the substring test. *)
Lemma contains_spec (n h : string) :
  contains n h = true <-> exists pre post, h = pre ++ n ++ post.
Proof.
  split.
  - induction h as [| c h IH]; intros Hc.
    + rewrite contains_nil in Hc. apply prefix_inv in Hc as [post ->].
      now exists "", post.
    + rewrite contains_cons in Hc. apply orb_true_iff in Hc as [Hp | Ht].
      * apply prefix_inv in Hp as [post ->]. now exists "", post.
      * destruct (IH Ht) as (pre & post & ->). now exists (String c pre), post.
  - intros (pre & post & ->).
    induction pre as [| c pre IH].
    + change ("" ++ n ++ post) with (n ++ post).
      destruct (n ++ post) as [| d r] eqn:E.
      * rewrite contains_nil, <- E. apply prefix_app.
      * rewrite contains_cons, <- E, prefix_app. reflexivity.
    + change (String c pre ++ n ++ post) with (String c (pre ++ n ++ post)).
      rewrite contains_cons, IH. apply orb_true_r.
Qed.

Lemma append_assoc (a b c : string) : (a ++ b) ++ c = a ++ (b ++ c).
Proof. induction a as [| x a IH]; cbn; [reflexivity | now rewrite IH]. Qed.

(** A text that contains [a ++ b] contains [b]. *)
Lemma contains_tail (a b h : string) :
  contains (a ++ b) h = true -> contains b h = true.
Proof.
  rewrite !contains_spec. intros (pre & post & ->).
  exists (pre ++ a), post. now rewrite !append_assoc.
Qed.

(** A text that contains [a ++ b] contains [a]. *)
Lemma contains_head (a b h : string) :
  contains (a ++ b) h = true -> contains a h = true.
Proof.
  rewrite !contains_spec. intros (pre & post & ->).
  exists pre, (b ++ post). now rewrite !append_assoc.
Qed.

Lemma append_nil_r (a : string) : a ++ "" = a.
Proof. induction a as [| x a IH]; cbn; [reflexivity | now rewrite IH]. Qed.

Lemma length_append (a b : string) :
  String.length (a ++ b) = (String.length a + String.length b)%nat.
Proof. induction a as [| x a IH]; cbn; [reflexivity | now rewrite IH]. Qed.

Lemma all_chars_append (p : ascii -> bool) (a b : string) :
  all_chars p (a ++ b) = all_chars p a && all_chars p b.
Proof.
  induction a as [| x a IH]; cbn; [reflexivity |].
  now rewrite IH, andb_assoc.
Qed.

Lemma lower_append (a b : string) : lower (a ++ b) = lower a ++ lower b.
Proof. induction a as [| x a IH]; cbn; [reflexivity | now rewrite IH]. Qed.

Lemma lower_char_idempotent (c : ascii) : lower_char (lower_char c) = lower_char c.
Proof.
  destruct c as [[] [] [] [] [] [] [] []]; reflexivity.
Qed.

Lemma lower_idempotent (s : string) : lower (lower s) = lower s.
Proof.
  induction s as [| c s IH]; cbn; [reflexivity |].
  now rewrite lower_char_idempotent, IH.
Qed.

(** Lower-casing both texts preserves occurrence. *)
Lemma contains_lower (n h : string) :
  contains n h = true -> contains (lower n) (lower h) = true.
Proof.
  rewrite !contains_spec. intros (pre & post & ->).
  exists (lower pre), (lower post). now rewrite !lower_append.
Qed.

Lemma contains_refl_mid (pre n post : string) : contains n (pre ++ n ++ post) = true.
Proof. apply contains_spec. now exists pre, post. Qed.

End StrFacts.

(** ** The cases of the repository's unit tests *)

Module UnitTests.

Import PathParsing.

Example parse_asset_cases :
  List.map parse_asset_from_path
    ["outputs/model_eval/tables/AMZN_results.csv";
     "results/plots/EURUSD_forecast.png";
     "nf_generated_residuals/sGARCH_norm_equity_AMZN_residuals.csv";
     "outputs/var_backtest/tables/GBPUSD_backtest.csv";
     "some_random_file.csv"]
  = [Some "AMZN"; Some "EURUSD"; Some "AMZN"; Some "GBPUSD"; None].
Proof. reflexivity. Qed.

(** The test suite expects no model for the last path; the first fallback
    pattern matches it and yields "some_random". *)
Example parse_model_cases :
  List.map parse_model_from_path
    ["outputs/model_eval/tables/sGARCH_results.csv";
     "results/plots/eGARCH_forecast.png";
     "nf_generated_residuals/sGARCH_norm_equity_AMZN_residuals.csv";
     "outputs/var_backtest/tables/gjrGARCH_backtest.csv";
     "some_random_file.csv"]
  = [Some "sGARCH"; Some "eGARCH"; Some "sGARCH_norm"; Some "gjrGARCH"; Some "some_random"].
Proof. reflexivity. Qed.

Example parse_split_type_cases :
  List.map parse_split_type_from_path
    ["outputs/tscv_results.csv"; "results/chronological_split.csv";
     "outputs/cv_results.csv"; "outputs/regular_results.csv"]
  = ["tscv"; "chrono"; "tscv"; "chrono"].
Proof. reflexivity. Qed.

Example parse_fold_cases :
  List.map parse_fold_from_path
    ["outputs/fold_1_results.csv"; "results/fold2_results.csv";
     "outputs/3_fold_results.csv"; "outputs/regular_results.csv"]
  = [Ok (FoldNum 1); Ok (FoldNum 2); Ok (FoldNum 3); Ok FoldAll].
Proof. reflexivity. Qed.

Example parse_model_family_cases :
  List.map parse_model_family
    ["sGARCH"; "eGARCH"; "NF_sGARCH"; "NF_eGARCH"; "Flow_GARCH"; "nf_garch"]
  = ["GARCH"; "GARCH"; "NF-GARCH"; "NF-GARCH"; "NF-GARCH"; "NF-GARCH"].
Proof. reflexivity. Qed.

Example parse_asset_type_cases :
  List.map parse_asset_type ["AMZN"; "EURUSD"; "GBPUSD"; "NVDA"; "USDZAR"]
  = ["Equity"; "FX"; "FX"; "Equity"; "FX"].
Proof. reflexivity. Qed.

Example normalize_metric_name_cases :
  List.map normalize_metric_name
    ["mse"; "loglik"; "log_likelihood"; "aic"; "win_rate"; "unknown_metric"]
  = ["MSE"; "LogLikelihood"; "LogLikelihood"; "AIC"; "Win_Rate"; "unknown_metric"].
Proof. reflexivity. Qed.

(** The tolerance cases of the specification. *)
Example near_zero_cases :
  CheckRegression.compare_numeric 1e-9 (VFloat 5e-11) (VFloat 0) "v[0]" [] = (Ok true, []) /\
  CheckRegression.compare_numeric 1e-9 (VFloat 5e-9) (VFloat 0) "v[0]" []
  = (Ok false, [CheckRegression.NearZeroMismatch "v[0]" (VFloat 5e-9) (VFloat 0)]).
Proof. split; reflexivity. Qed.

End UnitTests.

(** ** Metadata inference *)

Module PathParsingFacts.

Import Str StrFacts PathParsing.

(** The split type is one of the two names. *)
Lemma split_type_range (file_path : string) :
  parse_split_type_from_path file_path = "tscv" \/
  parse_split_type_from_path file_path = "chrono".
Proof.
  unfold parse_split_type_from_path.
  repeat match goal with |- context [if ?b then _ else _] => destruct b end;
    auto.
Qed.

(** C7. The split type of a path is decided by a keyword scan of the
    lower-cased path: "tscv" when it contains "tscv", "ts_cv" or
    "cross_validation"; otherwise "chrono" when it contains "chrono" or
    "chronological"; otherwise "tscv" when it contains "cv"; otherwise
    "chrono".  The result is always one of the two names, never null. *)
Theorem split_type_keyword_scan (file_path : string) :
  let l := lower file_path in
  let cv_words :=
    contains "tscv" l || contains "ts_cv" l || contains "cross_validation" l in
  let chrono_words := contains "chrono" l || contains "chronological" l in
  (cv_words = true -> parse_split_type_from_path file_path = "tscv") /\
  (cv_words = false -> chrono_words = true ->
   parse_split_type_from_path file_path = "chrono") /\
  (cv_words = false -> chrono_words = false -> contains "cv" l = true ->
   parse_split_type_from_path file_path = "tscv") /\
  (cv_words = false -> chrono_words = false -> contains "cv" l = false ->
   parse_split_type_from_path file_path = "chrono") /\
  (parse_split_type_from_path file_path = "tscv" \/
   parse_split_type_from_path file_path = "chrono").
Proof.
  intros l cv_words chrono_words. unfold parse_split_type_from_path.
  fold l. fold cv_words. fold chrono_words.
  assert (Htscv : cv_words = false -> contains "tscv" l = false).
  { unfold cv_words. intros Hf.
    apply orb_false_iff in Hf as [Hf _]. now apply orb_false_iff in Hf as [Hf _]. }
  repeat split.
  - now intros ->.
  - now intros -> ->.
  - intros Hcv -> ->. rewrite (Htscv Hcv), Hcv. reflexivity.
  - now intros -> -> ->.
  - destruct cv_words; [now left |].
    destruct chrono_words; [now right |].
    destruct (contains "cv" l && negb (contains "tscv" l)); [now left | now right].
Qed.

Lemma split_type_keyword_scan_witness :
  parse_split_type_from_path "outputs/tscv_results.csv" = "tscv" /\
  parse_split_type_from_path "results/chronological_split.csv" = "chrono" /\
  parse_split_type_from_path "outputs/cv_results.csv" = "tscv" /\
  parse_split_type_from_path "outputs/regular_results.csv" = "chrono".
Proof.
  split; [| split; [| split]].
  - apply (proj1 (split_type_keyword_scan "outputs/tscv_results.csv")).
    reflexivity.
  - apply (proj1 (proj2 (split_type_keyword_scan "results/chronological_split.csv")));
      reflexivity.
  - apply (proj1 (proj2 (proj2 (split_type_keyword_scan "outputs/cv_results.csv"))));
      reflexivity.
  - apply (proj1 (proj2 (proj2 (proj2
             (split_type_keyword_scan "outputs/regular_results.csv")))));
      reflexivity.
Defined.

(** The vocabulary scan returns the first listed entry that occurs in the
    path, so an entry is returned only if no earlier entry occurs. *)
Lemma vocabulary_match_first (vocab : list string) (file_path w : string) :
  vocabulary_match vocab file_path = Some w ->
  exists before after,
    vocab = (before ++ w :: after)%list /\
    contains (lower w) (lower file_path) = true /\
    List.Forall (fun v => contains (lower v) (lower file_path) = false) before.
Proof.
  unfold vocabulary_match. induction vocab as [| v vocab IH]; cbn; [discriminate |].
  destruct (contains (lower v) (lower file_path)) eqn:Hv.
  - intros [= ->]. exists [], vocab. repeat split; [assumption | constructor].
  - intros Hf. destruct (IH Hf) as (before & after & -> & Hw & Hb).
    exists (v :: before), after. repeat split; [assumption |].
    constructor; assumption.
Qed.

(** No path makes the vocabulary scan return an [NF_] entry: each of them
    is listed after the entry it extends. *)
Lemma vocabulary_never_nf (file_path m : string) :
  vocabulary_match known_models file_path = Some m ->
  List.In m ["sGARCH_norm"; "sGARCH_sstd"; "eGARCH"; "gjrGARCH"; "TGARCH"].
Proof.
  unfold vocabulary_match, known_models.
  set (l := lower file_path). cbn [List.find].
  change (lower "sGARCH_norm") with "sgarch_norm".
  change (lower "sGARCH_sstd") with "sgarch_sstd".
  change (lower "eGARCH") with "egarch".
  change (lower "gjrGARCH") with "gjrgarch".
  change (lower "TGARCH") with "tgarch".
  change (lower "NF_sGARCH_norm") with ("nf_" ++ "sgarch_norm").
  change (lower "NF_sGARCH_sstd") with ("nf_" ++ "sgarch_sstd").
  change (lower "NF_eGARCH") with ("nf_" ++ "egarch").
  change (lower "NF_gjrGARCH") with ("nf_" ++ "gjrgarch").
  change (lower "NF_TGARCH") with ("nf_" ++ "tgarch").
  destruct (contains "sgarch_norm" l) eqn:H1; [intros [= <-]; cbn; tauto |].
  destruct (contains "sgarch_sstd" l) eqn:H2; [intros [= <-]; cbn; tauto |].
  destruct (contains "egarch" l) eqn:H3; [intros [= <-]; cbn; tauto |].
  destruct (contains "gjrgarch" l) eqn:H4; [intros [= <-]; cbn; tauto |].
  destruct (contains "tgarch" l) eqn:H5; [intros [= <-]; cbn; tauto |].
  destruct (contains ("nf_" ++ "sgarch_norm") l) eqn:N1;
    [apply contains_tail in N1; congruence |].
  destruct (contains ("nf_" ++ "sgarch_sstd") l) eqn:N2;
    [apply contains_tail in N2; congruence |].
  destruct (contains ("nf_" ++ "egarch") l) eqn:N3;
    [apply contains_tail in N3; congruence |].
  destruct (contains ("nf_" ++ "gjrgarch") l) eqn:N4;
    [apply contains_tail in N4; congruence |].
  destruct (contains ("nf_" ++ "tgarch") l) eqn:N5;
    [apply contains_tail in N5; congruence |].
  discriminate.
Qed.

(** C2.  The code does not prefer the longest vocabulary entry: for
    every path that contains the token NF_sGARCH_norm (in any letter
    case) the inferred model is the shorter entry "sGARCH_norm", because
    the scan returns the first listed match; and for every path that
    contains any NF_-prefixed entry the inferred model is one of the
    five entries without the prefix. *)
Theorem nf_entries_shadowed (file_path : string) :
  (contains "nf_sgarch_norm" (lower file_path) = true ->
   parse_model_from_path file_path = Some "sGARCH_norm") /\
  (forall w,
     List.In w ["NF_sGARCH_norm"; "NF_sGARCH_sstd"; "NF_eGARCH"; "NF_gjrGARCH"; "NF_TGARCH"] ->
     contains (lower w) (lower file_path) = true ->
     exists m,
       parse_model_from_path file_path = Some m /\
       List.In m ["sGARCH_norm"; "sGARCH_sstd"; "eGARCH"; "gjrGARCH"; "TGARCH"]).
Proof.
  split.
  - intros H. change "nf_sgarch_norm" with ("nf_" ++ "sgarch_norm") in H.
    apply contains_tail in H.
    unfold parse_model_from_path, vocabulary_match, known_models. cbn [List.find].
    change (lower "sGARCH_norm") with "sgarch_norm". now rewrite H.
  - intros w Hw Hc. unfold parse_model_from_path.
    destruct (vocabulary_match known_models file_path) as [m |] eqn:Hv.
    + exists m. split; [reflexivity | now apply vocabulary_never_nf in Hv].
    + exfalso. unfold vocabulary_match in Hv.
      assert (Hin : List.In w known_models).
      { unfold known_models. cbn in Hw |- *. intuition. }
      pose proof (List.find_none _ _ Hv w Hin) as Hf. cbv beta in Hf. congruence.
Qed.

Lemma nf_entries_shadowed_witness :
  contains "nf_sgarch_norm" (lower "results/NF_sGARCH_norm_AMZN.csv") = true /\
  parse_model_from_path "results/NF_sGARCH_norm_AMZN.csv" = Some "sGARCH_norm".
Proof.
  split; [reflexivity |].
  apply (proj1 (nf_entries_shadowed "results/NF_sGARCH_norm_AMZN.csv")). reflexivity.
Defined.

(** The regular expressions are consulted only when no vocabulary entry
    occurs in the path, and the result is null when neither applies. *)
Lemma parse_model_fallback (file_path : string) :
  (forall m, vocabulary_match known_models file_path = Some m ->
             parse_model_from_path file_path = Some m) /\
  (vocabulary_match known_models file_path = None ->
   parse_model_from_path file_path = Re.first_match model_patterns file_path).
Proof.
  unfold parse_model_from_path. split.
  - now intros m ->.
  - now intros ->.
Qed.

(** [parse_file_metadata] raises what [parse_fold_from_path] raises and
    otherwise builds the dictionary. *)
Lemma parse_file_metadata_eq (env : Env) (file_path : string) :
  parse_file_metadata env file_path =
  match parse_fold_from_path file_path with
  | Ok fold => Ok (metadata_of env file_path fold)
  | Raise e => Raise e
  end.
Proof. unfold parse_file_metadata. now destruct (parse_fold_from_path file_path). Qed.

Lemma parse_file_metadata_ok (env : Env) (path : string) (md : Metadata) :
  parse_file_metadata env path = Ok md ->
  exists fold, parse_fold_from_path path = Ok fold /\ md = metadata_of env path fold.
Proof.
  rewrite parse_file_metadata_eq.
  destruct (parse_fold_from_path path) as [fold | e]; [| discriminate].
  intros [= <-]. now exists fold.
Qed.

(** The fold parser raises exactly when the first fold pattern that
    matches captures more digits than [int] accepts. *)
Lemma parse_fold_raises (path : string) (e : exn) :
  parse_fold_from_path path = Raise e <->
  e = ValueError /\
  exists digits, Re.first_match fold_patterns path = Some digits /\
                 (int_max_str_digits < String.length digits)%nat.
Proof.
  unfold parse_fold_from_path, py_int.
  destruct (Re.first_match fold_patterns path) as [digits |].
  - destruct (Nat.ltb_spec int_max_str_digits (String.length digits)); cbn.
    + split.
      * intros [= <-]. split; [reflexivity |]. now exists digits.
      * now intros [-> _].
    + split; [discriminate |]. intros [_ (d & [= <-] & Hd)]. lia.
  - split; [discriminate |]. now intros [_ (d & Hd & _)].
Qed.

End PathParsingFacts.

(** ** Binary64 arithmetic *)

Module NumFacts.

Import Num.

(** *** Classes of floats *)

Lemma is_nan_spec (x : float) :
  is_nan x = match Prim2SF x with S754_nan => true | _ => false end.
Proof.
  unfold is_nan. rewrite FloatAxioms.eqb_spec. unfold SFeqb, SFcompare.
  destruct (Prim2SF x) as [s | s | | s m e]; try reflexivity.
  - now destruct s.
  - destruct s; now rewrite Z.compare_refl, Pos.compare_cont_refl.
Qed.

Lemma is_nan_true (x : float) : is_nan x = true <-> Prim2SF x = S754_nan.
Proof.
  rewrite is_nan_spec. destruct (Prim2SF x); split; congruence.
Qed.

Lemma is_nan_false (x : float) : is_nan x = false <-> Prim2SF x <> S754_nan.
Proof.
  rewrite is_nan_spec. destruct (Prim2SF x); split; congruence.
Qed.

(** There is one NaN. *)
Lemma nan_unique (x : float) : is_nan x = true -> x = nan.
Proof.
  intros H. apply is_nan_true in H. apply Prim2SF_inj. now rewrite H.
Qed.

Lemma is_nan_nan : is_nan nan = true.
Proof. reflexivity. Qed.

Lemma is_infinity_spec (x : float) :
  is_infinity x = match Prim2SF x with S754_infinity _ => true | _ => false end.
Proof.
  unfold is_infinity. rewrite FloatAxioms.eqb_spec, abs_spec.
  change (Prim2SF infinity) with (S754_infinity false).
  now destruct (Prim2SF x) as [s | s | | [|] m e].
Qed.

Lemma is_finite_spec (x : float) : is_finite x = true <-> finite (Prim2SF x).
Proof.
  unfold is_finite. rewrite is_nan_spec, is_infinity_spec.
  destruct (Prim2SF x); cbn; split; (congruence || tauto).
Qed.

(** *** Comparison *)

Lemma SFcompare_antisym (a b : spec_float) (c : comparison) :
  SFcompare a b = Some c -> SFcompare b a = Some (CompOpp c).
Proof.
  destruct a as [sa | sa | | sa ma ea], b as [sb | sb | | sb mb eb]; cbn;
    try discriminate;
    try (intros [= <-]; try destruct sa; try destruct sb; reflexivity).
  intros [= <-]. f_equal.
  assert (Hp : Pos.compare_cont Eq mb ma = CompOpp (Pos.compare_cont Eq ma mb))
    by (symmetry; apply (Pos.compare_cont_antisym ma mb Eq)).
  rewrite (Z.compare_antisym ea eb), Hp.
  destruct sa, sb; cbn; try reflexivity;
    destruct (ea ?= eb)%Z; cbn; try reflexivity;
    destruct (Pos.compare_cont Eq ma mb); reflexivity.
Qed.

Lemma SFcompare_some (a b : spec_float) :
  a <> S754_nan -> b <> S754_nan -> exists c, SFcompare a b = Some c.
Proof.
  destruct a, b; cbn; try congruence; eauto.
Qed.

(** Without NaN, "not above" is "at most". *)
Lemma ltb_false_leb (t d : float) :
  is_nan t = false -> is_nan d = false ->
  (PrimFloat.ltb t d = false <-> PrimFloat.leb d t = true).
Proof.
  intros Ht Hd. apply is_nan_false in Ht, Hd.
  rewrite ltb_spec, leb_spec. unfold SFltb, SFleb.
  destruct (SFcompare_some _ _ Ht Hd) as [c Hc].
  rewrite Hc, (SFcompare_antisym _ _ _ Hc).
  destruct c; cbn; split; congruence.
Qed.

(** Nothing is below NaN, and NaN is below nothing. *)
Lemma ltb_nan_r (t d : float) : is_nan d = true -> PrimFloat.ltb t d = false.
Proof.
  intros Hd. apply is_nan_true in Hd. rewrite ltb_spec, Hd. unfold SFltb.
  now destruct (Prim2SF t).
Qed.

Lemma leb_nan_l (t d : float) : is_nan d = true -> PrimFloat.leb d t = false.
Proof.
  intros Hd. apply is_nan_true in Hd. now rewrite leb_spec, Hd.
Qed.

(** A tolerance that is not negative is not below a zero or a NaN. *)
Lemma tolerance_covers_zero (t d : float) :
  PrimFloat.leb PrimFloat.zero t = true -> zero_or_nan (Prim2SF d) ->
  PrimFloat.ltb t d = false.
Proof.
  rewrite leb_spec, ltb_spec. change (Prim2SF PrimFloat.zero) with (S754_zero false).
  unfold SFleb, SFltb.
  destruct (Prim2SF t) as [st | st | | st mt et], (Prim2SF d) as [sd | sd | | sd md ed];
    cbn; try tauto; try discriminate; try reflexivity;
    destruct st; try discriminate; reflexivity.
Qed.

(** A negative tolerance is below every number that is not negative. *)
Lemma negative_below_nonneg (t d : float) :
  PrimFloat.ltb t PrimFloat.zero = true -> nonneg (Prim2SF d) ->
  PrimFloat.ltb t d = true.
Proof.
  rewrite !ltb_spec. change (Prim2SF PrimFloat.zero) with (S754_zero false).
  unfold SFltb.
  destruct (Prim2SF t) as [st | st | | st mt et], (Prim2SF d) as [sd | sd | | sd md ed];
    cbn; try tauto; try discriminate; try reflexivity;
    destruct st; try discriminate; destruct sd; cbn; tauto || reflexivity.
Qed.

(** *** Rounding never invents a NaN *)

Lemma shr_1_nonneg (mrs : shr_record) : (0 <= shr_m mrs)%Z -> (0 <= shr_m (shr_1 mrs))%Z.
Proof.
  destruct mrs as [m r s]. cbn. destruct m as [| p | p]; cbn; try lia.
  - destruct p; cbn; lia.
Qed.

Lemma iter_shr_1_nonneg (p : positive) (mrs : shr_record) :
  (0 <= shr_m mrs)%Z -> (0 <= shr_m (SpecFloat.iter_pos shr_1 p mrs))%Z.
Proof.
  revert mrs. induction p as [p IH | p IH |]; intros mrs Hm; cbn.
  - apply IH, IH. now apply shr_1_nonneg.
  - now apply IH, IH.
  - now apply shr_1_nonneg.
Qed.

Lemma shr_fexp_nonneg (m e : Z) (l : location) :
  (0 <= m)%Z -> (0 <= shr_m (fst (shr_fexp prec emax m e l)))%Z.
Proof.
  intros Hm. unfold shr_fexp, shr.
  assert (H0 : (0 <= shr_m (shr_record_of_loc m l))%Z).
  { destruct l as [| []]; exact Hm. }
  destruct (_ - e)%Z; cbn [fst]; try assumption.
  now apply iter_shr_1_nonneg.
Qed.

Lemma round_nearest_even_nonneg (m : Z) (l : location) :
  (0 <= m)%Z -> (0 <= round_nearest_even m l)%Z.
Proof.
  intros Hm. unfold round_nearest_even.
  destruct l as [| []]; try destruct (Z.even m); lia.
Qed.

Lemma binary_round_aux_signed (sx : bool) (mx ex : Z) (lx : location) :
  (0 <= mx)%Z -> signed sx (binary_round_aux prec emax sx mx ex lx).
Proof.
  intros Hm. unfold binary_round_aux.
  pose proof (shr_fexp_nonneg mx ex lx Hm) as H1.
  destruct (shr_fexp prec emax mx ex lx) as [mrs' e']. cbn [fst] in H1.
  pose proof (shr_fexp_nonneg _ e' loc_Exact
                (round_nearest_even_nonneg _ (loc_of_shr_record mrs') H1)) as H2.
  destruct (shr_fexp prec emax _ e' loc_Exact) as [mrs'' e'']. cbn [fst] in H2.
  destruct (shr_m mrs'') as [| m | m]; cbn; try reflexivity; try lia.
  now destruct (e'' <=? _)%Z.
Qed.

Lemma binary_round_signed (sx : bool) (mx : positive) (ex : Z) :
  signed sx (binary_round prec emax sx mx ex).
Proof.
  unfold binary_round. destruct (shl_align _ _ _) as [mz ez].
  apply binary_round_aux_signed. lia.
Qed.

Lemma signed_not_nan (sx : bool) (s : spec_float) : signed sx s -> s <> S754_nan.
Proof. now destruct s. Qed.

Lemma binary_normalize_not_nan (m e : Z) (sz : bool) :
  binary_normalize prec emax m e sz <> S754_nan.
Proof.
  destruct m as [| p | p]; cbn; try discriminate;
    eapply signed_not_nan, binary_round_signed.
Qed.

(** The difference of two finite numbers is a number. *)
Lemma SFsub_finite (a b : spec_float) :
  finite a -> finite b -> SF64sub a b <> S754_nan.
Proof.
  unfold SF64sub, SFsub.
  destruct a as [sa | sa | | sa ma ea], b as [sb | sb | | sb mb eb]; cbn;
    try tauto; intros _ _; try discriminate.
  - destruct sa, sb; discriminate.
  - apply binary_normalize_not_nan.
Qed.

(** A number that is not negative divided by a positive finite number
    is a number that is not negative. *)
Lemma SFdiv_nonneg (a : spec_float) (mb : positive) (eb : Z) :
  nonneg a -> nonneg (SF64div a (S754_finite false mb eb)).
Proof.
  unfold SF64div, SFdiv.
  destruct a as [sa | sa | | sa ma ea]; cbn; try tauto.
  - destruct sa; tauto.
  - destruct sa; [tauto |]. intros _.
    destruct (SFdiv_core_binary prec emax (Z.pos ma) ea (Z.pos mb) eb) as [[mz ez] lz] eqn:Hc.
    assert (Hq : (0 <= mz)%Z).
    { unfold SFdiv_core_binary in Hc.
      match type of Hc with
      | (let '(q, r) := Z.div_eucl ?m' ?d in _) = _ =>
          assert (Hm : (0 <= m')%Z);
          [| pose proof (Z.div_pos m' d Hm ltac:(lia)) as Hd;
             unfold Z.div in Hd; destruct (Z.div_eucl m' d) as [q r];
             injection Hc as <- _ _; exact Hd]
      end.
      destruct (_ - _ - _)%Z; try lia. apply Z.shiftl_nonneg. lia. }
    pose proof (binary_round_aux_signed false mz ez lz Hq) as Hs.
    cbn [xorb].
    destruct (binary_round_aux prec emax false mz ez lz) as [s | s | | s m e];
      cbn in Hs |- *; try subst s; tauto.
Qed.

(** *** A number against itself *)

Lemma SFsub_diag (a : spec_float) : zero_or_nan (SF64sub a a).
Proof.
  unfold SF64sub, SFsub. destruct a as [s | s | | s m e]; cbn; try exact I.
  - now destruct s.
  - now destruct s.
  - now rewrite Z.sub_diag.
Qed.

Lemma SFabs_zero_or_nan (a : spec_float) : zero_or_nan a -> zero_or_nan (SFabs a).
Proof. now destruct a. Qed.

Lemma SFdiv_zero_or_nan (a b : spec_float) : zero_or_nan a -> zero_or_nan (SF64div a b).
Proof.
  unfold SF64div, SFdiv. destruct a as [sa | sa | | sa ma ea]; cbn; try tauto; intros _.
  now destruct b.
Qed.

(** The absolute value of a number is not negative. *)
Lemma SFabs_nonneg (a : spec_float) : a <> S754_nan -> nonneg (SFabs a).
Proof. destruct a; cbn; congruence || tauto. Qed.

(** *** The order of the numbers *)

Lemma SFcompare_lt_trans (a b c : spec_float) :
  SFcompare a b = Some Lt -> SFcompare b c = Some Lt -> SFcompare a c = Some Lt.
Proof.
  destruct a as [sa | sa | | sa ma ea], b as [sb | sb | | sb mb eb],
           c as [sc | sc | | sc mc ec]; cbn;
    try discriminate;
    try (destruct sa; discriminate); try (destruct sb; discriminate);
    try (destruct sc; discriminate);
    try (destruct sa, sb; discriminate); try (destruct sb, sc; discriminate);
    try (destruct sa, sc; (discriminate || reflexivity));
    try (destruct sa, sb, sc; (discriminate || reflexivity)).
  change (Pos.compare_cont Eq) with Pos.compare.
  destruct sa, sb, sc; try discriminate; try reflexivity;
    destruct (Z.compare_spec ea eb), (Z.compare_spec eb ec), (Z.compare_spec ea ec);
    try discriminate; try reflexivity; try lia;
    destruct (Pos.compare_spec ma mb), (Pos.compare_spec mb mc), (Pos.compare_spec ma mc);
    cbn; try discriminate; try reflexivity; lia.
Qed.

Lemma ltb_irrefl (x : float) : PrimFloat.ltb x x = false.
Proof.
  rewrite ltb_spec. unfold SFltb.
  destruct (SFcompare (Prim2SF x) (Prim2SF x)) as [c |] eqn:Hc; [| reflexivity].
  pose proof (SFcompare_antisym _ _ _ Hc) as Hc'. rewrite Hc in Hc'.
  destruct c; (reflexivity || discriminate).
Qed.

Lemma ltb_trans (a b c : float) :
  PrimFloat.ltb a b = true -> PrimFloat.ltb b c = true -> PrimFloat.ltb a c = true.
Proof.
  rewrite !ltb_spec. unfold SFltb.
  destruct (SFcompare (Prim2SF a) (Prim2SF b)) as [[| |] |] eqn:Hab; try discriminate.
  destruct (SFcompare (Prim2SF b) (Prim2SF c)) as [[| |] |] eqn:Hbc; try discriminate.
  now rewrite (SFcompare_lt_trans _ _ _ Hab Hbc).
Qed.

(** Two numbers neither of which is below the other are equal. *)
Lemma ltb_neither_eqb (a b : float) :
  is_nan a = false -> is_nan b = false ->
  PrimFloat.ltb a b = false -> PrimFloat.ltb b a = false -> PrimFloat.eqb a b = true.
Proof.
  intros Ha Hb. apply is_nan_false in Ha, Hb.
  rewrite !ltb_spec, FloatAxioms.eqb_spec. unfold SFltb, SFeqb.
  destruct (SFcompare_some _ _ Ha Hb) as [c Hc].
  rewrite Hc, (SFcompare_antisym _ _ _ Hc). now destruct c.
Qed.

End NumFacts.
(** ** Baseline comparison *)

Module CheckRegressionFacts.

Import Str CheckRegression.

Lemma threshold_spec :
  Prim2SF 1e-10%float = S754_finite false 7737125245533627 (-86).
Proof. reflexivity. Qed.

(** The quantity held against the tolerance, for two floats. *)
Lemma compare_floats (tolerance c e : float) (field_name : string) (fs : list failure) :
  is_nan c = false -> is_nan e = false ->
  compare_numeric tolerance (VFloat c) (VFloat e) field_name fs
  = if PrimFloat.ltb tolerance (difference c e)
    then (Ok false,
          (fs ++ [if PrimFloat.ltb (PrimFloat.abs e) 1e-10%float
                  then NearZeroMismatch field_name (VFloat c) (VFloat e)
                  else RelativeDifference field_name (difference c e) tolerance])%list)
    else (Ok true, fs).
Proof.
  intros Hc He. unfold compare_numeric, difference. cbn [isna]. rewrite Hc, He.
  cbv beta iota delta [andb orb bind lift to_num ret append num_abs as_float num_sub num_div].
  destruct (PrimFloat.ltb (PrimFloat.abs e) 1e-10%float);
    now destruct (PrimFloat.ltb tolerance _).
Qed.

(** With finite operands the difference is a number that is not negative. *)
Lemma difference_finite (c e : float) :
  is_finite c = true -> is_finite e = true ->
  Num.nonneg (Prim2SF (difference c e)).
Proof.
  intros Hc He. apply NumFacts.is_finite_spec in Hc, He.
  assert (Hs : SF64sub (Prim2SF c) (Prim2SF e) <> S754_nan)
    by now apply NumFacts.SFsub_finite.
  unfold difference. rewrite ltb_spec, abs_spec, threshold_spec.
  destruct (SFltb _ _) eqn:Hz.
  - rewrite abs_spec, sub_spec. now apply NumFacts.SFabs_nonneg.
  - rewrite div_spec, !abs_spec, sub_spec.
    destruct (Prim2SF e) as [s | s | | s m x]; try contradiction.
    + discriminate Hz.
    + apply NumFacts.SFdiv_nonneg. now apply NumFacts.SFabs_nonneg.
Qed.

(** A number differs from itself by zero, or by NaN when it is infinite. *)
Lemma difference_self (c : float) : Num.zero_or_nan (Prim2SF (difference c c)).
Proof.
  unfold difference. destruct (PrimFloat.ltb _ _).
  - rewrite abs_spec, sub_spec. apply NumFacts.SFabs_zero_or_nan, NumFacts.SFsub_diag.
  - rewrite div_spec, !abs_spec, sub_spec.
    apply NumFacts.SFdiv_zero_or_nan, NumFacts.SFabs_zero_or_nan, NumFacts.SFsub_diag.
Qed.




(** *** The failure list *)

Lemma grows_ret {A} (a : A) : grows (ret a).
Proof. intros fs. exists []. cbn. now rewrite app_nil_r. Qed.

Lemma grows_lift {A} (r : result A) : grows (lift r).
Proof. intros fs. exists []. cbn. now rewrite app_nil_r. Qed.

Lemma grows_append (f : failure) : grows (append f).
Proof. intros fs. now exists [f]. Qed.

Lemma grows_no_failures : grows no_failures.
Proof. intros fs. exists []. cbn. now rewrite app_nil_r. Qed.

Lemma grows_bind {A B} (m : M A) (k : A -> M B) :
  grows m -> (forall a, grows (k a)) -> grows (bind m k).
Proof.
  intros Hm Hk fs. unfold bind. destruct (Hm fs) as [add1 H1].
  destruct (m fs) as [[a | e] fs']; cbn in H1; subst fs'.
  - destruct (Hk a (fs ++ add1)%list) as [add2 H2].
    exists (add1 ++ add2)%list. now rewrite H2, app_assoc.
  - now exists add1.
Qed.

Lemma grows_for_each {A} (l : list A) (body : A -> M unit) :
  (forall a, grows (body a)) -> grows (for_each l body).
Proof.
  intros Hb. induction l as [| a l IH]; cbn.
  - apply grows_ret.
  - apply grows_bind; [apply Hb | intros _; exact IH].
Qed.

Create HintDb grows.
#[local] Hint Resolve grows_ret grows_lift grows_append grows_no_failures : grows.
#[local] Hint Extern 2 (grows (bind _ _)) => apply grows_bind; [| intros ?] : grows.
#[local] Hint Extern 2 (grows (for_each _ _)) => apply grows_for_each; intros ? : grows.
#[local] Hint Extern 3 (grows (if ?b then _ else _)) => destruct b : grows.

Lemma grows_compare_numeric tolerance current expected field_name :
  grows (compare_numeric tolerance current expected field_name).
Proof. unfold compare_numeric. auto 12 with grows. Qed.

Lemma grows_compare_string env current expected field_name :
  grows (compare_string env current expected field_name).
Proof. unfold compare_string. auto 6 with grows. Qed.

#[local] Hint Resolve grows_compare_numeric grows_compare_string : grows.

Lemma grows_check_cells env tolerance label current_df expected_df :
  grows (check_cells env tolerance label current_df expected_df).
Proof. unfold check_cells. auto 10 with grows. Qed.

#[local] Hint Resolve grows_check_cells : grows.

Lemma grows_check_csv_body env tolerance current_file expected_file :
  grows (check_csv_body env tolerance current_file expected_file).
Proof. unfold check_csv_body. auto 12 with grows. Qed.

Lemma grows_check_sheet env tolerance current_file expected_file sheet_name :
  grows (check_sheet env tolerance current_file expected_file sheet_name).
Proof. unfold check_sheet. auto 12 with grows. Qed.

#[local] Hint Resolve grows_check_sheet : grows.

Lemma grows_check_excel_body env tolerance current_file expected_file :
  grows (check_excel_body env tolerance current_file expected_file).
Proof. unfold check_excel_body. auto 12 with grows. Qed.

Lemma nonempty_decide (fs : list failure) (f : failure) :
  bool_decide ((fs ++ [f])%list = []) = false.
Proof. apply bool_decide_eq_false. now destruct fs. Qed.

Lemma reports_append_false (f : failure) : reports_emptiness (append f ;; ret false).
Proof. intros fs. cbn. symmetry. apply nonempty_decide. Qed.

Lemma reports_then_no_failures {A} (m : M A) : reports_emptiness (m ;; no_failures).
Proof. intros fs. unfold bind. now destruct (m fs) as [[a | e] fs']. Qed.

Lemma reports_bind_lift {A} (r : result A) (k : A -> M bool) :
  (forall a, reports_emptiness (k a)) -> reports_emptiness (bind (lift r) k).
Proof. intros Hk fs. unfold bind, lift. destruct r as [a | e]; [apply Hk | exact I]. Qed.

Lemma reports_check_csv_body env tolerance current_file expected_file :
  reports_emptiness (check_csv_body env tolerance current_file expected_file).
Proof.
  unfold check_csv_body.
  apply reports_bind_lift; intros current_df.
  apply reports_bind_lift; intros expected_df.
  repeat match goal with |- context [if ?b then _ else _] => destruct b end;
    auto using reports_append_false, reports_then_no_failures.
Qed.

Lemma reports_check_excel_body env tolerance current_file expected_file :
  reports_emptiness (check_excel_body env tolerance current_file expected_file).
Proof.
  unfold check_excel_body.
  apply reports_bind_lift; intros current_names.
  apply reports_bind_lift; intros expected_names.
  destruct (negb _); auto using reports_append_false, reports_then_no_failures.
Qed.

Lemma guarded_cumulative (current_file : string) (body : M bool) (fs : list failure) :
  grows body -> reports_emptiness body ->
  (exists added, snd (guarded current_file body fs) = (fs ++ added)%list) /\
  fst (guarded current_file body fs) = bool_decide (snd (guarded current_file body fs) = []).
Proof.
  intros Hg Hr. unfold guarded. specialize (Hg fs). specialize (Hr fs).
  destruct (body fs) as [[b | e] fs']; cbn in *.
  - split; assumption.
  - destruct Hg as [added ->]. split.
    + exists (added ++ [ReadError current_file e])%list. now rewrite app_assoc.
    + symmetry. apply nonempty_decide.
Qed.

Lemma nonempty_grows (fs added : list failure) : fs <> [] -> (fs ++ added)%list <> [].
Proof. now destruct fs. Qed.

Lemma check_metric_file_cumulative env tolerance expected_path metric_file fs :
  (exists added,
     snd (check_metric_file env tolerance expected_path metric_file fs) = (fs ++ added)%list) /\
  fst (check_metric_file env tolerance expected_path metric_file fs)
  = bool_decide (snd (check_metric_file env tolerance expected_path metric_file fs) = []).
Proof.
  unfold check_metric_file, check_csv_file, check_excel_file.
  destruct (String.eqb _ _); apply guarded_cumulative;
    auto using grows_check_csv_body, reports_check_csv_body,
               grows_check_excel_body, reports_check_excel_body.
Qed.

Lemma check_metric_files_after_failure env tolerance expected_path metric_files
    all_passed fs :
  fs <> [] -> metric_files <> [] ->
  fst (check_metric_files env tolerance expected_path metric_files all_passed fs) = false.
Proof.
  revert all_passed fs.
  induction metric_files as [| f rest IH]; intros all_passed fs Hfs Hne; [congruence |].
  cbn [check_metric_files].
  destruct (check_metric_file_cumulative env tolerance expected_path f fs)
    as [[added Hadd] Hret].
  destruct (check_metric_file env tolerance expected_path f fs) as [passed fs'].
  cbn in Hadd, Hret. subst fs'.
  assert (Hp : passed = false).
  { rewrite Hret. apply bool_decide_eq_false. now apply nonempty_grows. }
  clear Hret. subst passed. cbn [negb].
  destruct rest as [| g rest]; [reflexivity |].
  apply IH; [now apply nonempty_grows | discriminate].
Qed.

(** C10. A file check only appends to the failure list and returns
    whether the whole list, earlier entries included, is empty.  Hence on
    a checker that already holds a failure every later file check returns
    False, whatever the file contains, and so does the rest of a
    directory run. *)
Theorem failures_cumulative (env : Env) (tolerance : float)
    (current_file expected_file : string) (fs : list failure) :
  let csv := check_csv_file env tolerance current_file expected_file fs in
  let xls := check_excel_file env tolerance current_file expected_file fs in
  ((exists added, snd csv = (fs ++ added)%list) /\ fst csv = bool_decide (snd csv = [])) /\
  ((exists added, snd xls = (fs ++ added)%list) /\ fst xls = bool_decide (snd xls = [])) /\
  (fs <> [] ->
   fst csv = false /\ fst xls = false /\
   forall metric_files all_passed, metric_files <> [] ->
     fst (check_metric_files env tolerance expected_file metric_files all_passed fs) = false).
Proof.
  intros csv xls.
  assert (Hcsv := guarded_cumulative current_file _ fs
                    (grows_check_csv_body env tolerance current_file expected_file)
                    (reports_check_csv_body env tolerance current_file expected_file)).
  assert (Hxls := guarded_cumulative current_file _ fs
                    (grows_check_excel_body env tolerance current_file expected_file)
                    (reports_check_excel_body env tolerance current_file expected_file)).
  fold (check_csv_file env tolerance current_file expected_file fs) in Hcsv.
  fold (check_excel_file env tolerance current_file expected_file fs) in Hxls.
  fold csv in Hcsv. fold xls in Hxls.
  split; [exact Hcsv | split; [exact Hxls |]].
  intros Hne.
  destruct Hcsv as [[a1 H1] R1], Hxls as [[a2 H2] R2].
  split; [| split].
  - rewrite R1, H1. apply bool_decide_eq_false. now apply nonempty_grows.
  - rewrite R2, H2. apply bool_decide_eq_false. now apply nonempty_grows.
  - intros metric_files all_passed Hfiles.
    now apply check_metric_files_after_failure.
Qed.

Lemma failures_cumulative_witness :
  check_csv_file shape_env 1e-9 "current.csv" "current.csv" [] = (true, []) /\
  [ReadError "earlier.csv" OSError] <> [] /\
  fst (check_csv_file shape_env 1e-9 "current.csv" "current.csv"
         [ReadError "earlier.csv" OSError]) = false.
Proof.
  split; [reflexivity | split; [discriminate |]].
  apply (proj2 (proj2 (failures_cumulative shape_env 1e-9 "current.csv" "current.csv"
                         [ReadError "earlier.csv" OSError]))).
  discriminate.
Defined.

(** *** Shape mismatches *)

Lemma shape_eqb_neq (a b : nat * nat) : a <> b -> shape_eqb a b = false.
Proof.
  destruct a as [a1 a2], b as [b1 b2]. unfold shape_eqb; cbn. intros Hne.
  destruct (Nat.eqb_spec a1 b1), (Nat.eqb_spec a2 b2); try reflexivity.
  subst. congruence.
Qed.

Lemma shape_eqb_refl (a : nat * nat) : shape_eqb a a = true.
Proof. unfold shape_eqb. now rewrite !Nat.eqb_refl. Qed.

Lemma labels_eqb_neq (a b : list string) : a <> b -> labels_eqb a b = false.
Proof. intros Hne. now apply bool_decide_eq_false. Qed.

(** C5, as the code behaves.  A CSV shape or column-name mismatch and a
    workbook sheet-name mismatch each add exactly one failure and end
    the file check with False, no cell being compared.  A shape or column
    mismatch of one sheet adds exactly one failure for that sheet and
    the loop goes on with the remaining sheets. *)
Theorem mismatch_reported_once (env : Env) (tolerance : float)
    (current_file expected_file : string) (fs : list failure) :
  (forall cur exp,
     read_csv env current_file = Ok cur -> read_csv env expected_file = Ok exp ->
     shape cur <> shape exp ->
     check_csv_file env tolerance current_file expected_file fs
     = (false, (fs ++ [ShapeMismatch (shape cur) (shape exp)])%list)) /\
  (forall cur exp,
     read_csv env current_file = Ok cur -> read_csv env expected_file = Ok exp ->
     shape cur = shape exp -> columns cur <> columns exp ->
     check_csv_file env tolerance current_file expected_file fs
     = (false, (fs ++ [ColumnMismatch (columns cur) (columns exp)])%list)) /\
  (forall names names',
     sheet_names env current_file = Ok names ->
     sheet_names env expected_file = Ok names' ->
     names <> names' ->
     check_excel_file env tolerance current_file expected_file fs
     = (false, (fs ++ [SheetNamesMismatch names names'])%list)) /\
  (forall sheet rest cur exp,
     read_excel env current_file sheet = Ok cur ->
     read_excel env expected_file sheet = Ok exp ->
     shape cur <> shape exp ->
     for_each (sheet :: rest) (check_sheet env tolerance current_file expected_file) fs
     = for_each rest (check_sheet env tolerance current_file expected_file)
         (fs ++ [SheetShapeMismatch sheet (shape cur) (shape exp)])%list) /\
  (forall sheet rest cur exp,
     read_excel env current_file sheet = Ok cur ->
     read_excel env expected_file sheet = Ok exp ->
     shape cur = shape exp -> columns cur <> columns exp ->
     for_each (sheet :: rest) (check_sheet env tolerance current_file expected_file) fs
     = for_each rest (check_sheet env tolerance current_file expected_file)
         (fs ++ [SheetColumnMismatch sheet])%list).
Proof.
  split; [| split; [| split; [| split]]].
  - intros cur exp Hc He Hs.
    unfold check_csv_file, guarded, check_csv_body, bind, lift.
    rewrite Hc, He, (shape_eqb_neq _ _ Hs). reflexivity.
  - intros cur exp Hc He Hs Hl.
    unfold check_csv_file, guarded, check_csv_body, bind, lift.
    rewrite Hc, He, Hs, shape_eqb_refl, (labels_eqb_neq _ _ Hl). reflexivity.
  - intros names names' Hc He Hn.
    unfold check_excel_file, guarded, check_excel_body, bind, lift.
    rewrite Hc, He, (labels_eqb_neq _ _ Hn). reflexivity.
  - intros sheet rest cur exp Hc He Hs.
    cbn [for_each]. unfold bind at 1. unfold check_sheet at 1. unfold bind, lift.
    rewrite Hc, He, (shape_eqb_neq _ _ Hs). reflexivity.
  - intros sheet rest cur exp Hc He Hs Hl.
    cbn [for_each]. unfold bind at 1. unfold check_sheet at 1. unfold bind, lift.
    rewrite Hc, He, Hs, shape_eqb_refl, (labels_eqb_neq _ _ Hl). reflexivity.
Qed.

Lemma mismatch_reported_once_witness :
  check_csv_file shape_env 1e-9 "current.csv" "baseline.csv" []
  = (false, [ShapeMismatch (1, 1) (2, 1)]%nat) /\
  for_each ["s1"; "s2"] (check_sheet shape_env 1e-9 "current.xlsx" "baseline.xlsx") []
  = (Ok tt, [SheetShapeMismatch "s1" (1, 1) (2, 1);
             RelativeDifference "s2.a[0]" 0.66666666666666663 1e-9]%nat).
Proof.
  split.
  - apply (proj1 (mismatch_reported_once shape_env 1e-9 "current.csv" "baseline.csv" [])
             short_table tall_table eq_refl eq_refl).
    discriminate.
  - rewrite (proj1 (proj2 (proj2 (proj2
               (mismatch_reported_once shape_env 1e-9 "current.xlsx" "baseline.xlsx" []))))
               "s1" ["s2"] short_table tall_table eq_refl eq_refl);
      [reflexivity | discriminate].
Defined.

(** C5, as stated, fails: the two CSV tables differ in shape, the check
    ends with the shape failure alone, and the aligned cell [a[0]], which
    is out of tolerance, is never compared. *)
Lemma shape_mismatch_skips_aligned_cells :
  check_csv_file shape_env 1e-9 "current.csv" "baseline.csv" []
  = (false, [ShapeMismatch (1, 1) (2, 1)]%nat) /\
  loc short_table 0 "a" = VFloat 1 /\
  loc tall_table 0 "a" = VFloat 5 /\
  compare_numeric 1e-9 (VFloat 1) (VFloat 5) "a[0]" []
  = (Ok false, [RelativeDifference "a[0]" 0.8 1e-9]).
Proof. repeat split. Qed.

End CheckRegressionFacts.

(** ** Normalisation *)

Module CollectResultsFacts.

Import Str StrFacts PathParsing PathParsingFacts CollectResults.

Lemma collect_Forall {A B} (P : B -> Prop) (f : A -> result (list B)) l out :
  (forall a o, f a = Ok o -> List.Forall P o) ->
  collect f l = Ok out -> List.Forall P out.
Proof.
  intros Hf. revert out. induction l as [| a l IH]; cbn; intros out Hc.
  - injection Hc as <-. constructor.
  - destruct (f a) as [here |] eqn:Ha; cbn in Hc; [| discriminate].
    destruct (collect f l) as [rest |]; cbn in Hc; [| discriminate].
    injection Hc as <-. apply Forall_app. split; [eapply Hf; eassumption | now apply IH].
Qed.

Lemma collect_Forall2 {A B C} (R : B -> C -> Prop) (f : A -> result (list B))
    (g : A -> list C) l out :
  (forall a o, f a = Ok o -> Forall2 R o (g a)) ->
  collect f l = Ok out -> Forall2 R out (List.flat_map g l).
Proof.
  intros Hf. revert out. induction l as [| a l IH]; cbn; intros out Hc.
  - injection Hc as <-. constructor.
  - destruct (f a) as [here |] eqn:Ha; cbn in Hc; [| discriminate].
    destruct (collect f l) as [rest |]; cbn in Hc; [| discriminate].
    injection Hc as <-. apply Forall2_app; [now apply Hf | now apply IH].
Qed.

(** [row[col]] used as a condition gives the cell under the label, and
    only when no other column bears the label. *)
Lemma scalar_inv (cols : list string) (cells : list pyval) (col : string) (v : pyval) :
  scalar (row_item_at cols cells col) = Ok v ->
  (count_label col cols <= 1)%nat /\ v = row_get cols cells col.
Proof.
  unfold row_item_at.
  destruct (Nat.ltb_spec 1 (count_label col cols)); cbn; [discriminate |].
  intros [= <-]. split; [assumption | reflexivity].
Qed.

(** What one iteration of the metric loop produces. *)
Lemma emit_inv env run_id metadata sheet_name cols asset_col model_col metric_cols
    idx cells asset model metric_col out :
  emit env run_id metadata sheet_name cols asset_col model_col metric_cols
    idx cells asset model metric_col = Ok out ->
  let cell := row_get cols cells metric_col in
  (notna cell = false /\ out = []) \/
  (notna cell = true /\
   exists r x, out = [r] /\
     py_float env cell = Ok x /\ r_value r = Some x /\
     r_row_index r = idx /\ r_metric r = normalize_metric_name metric_col /\
     r_asset r = asset /\ r_model r = model /\
     r_asset_type r = asset_type metadata /\
     r_source_file r = file_path metadata /\
     (if contains "nf_generated_residuals" (file_path metadata)
      then r_model_family r = "NF-GARCH"
      else if truthy_opt (model_family metadata)
           then r_model_family r = default "" (model_family metadata)
           else _infer_model_family model = Ok (r_model_family r))).
Proof.
  intros He cell. unfold emit in He.
  destruct (scalar (row_item_at cols cells metric_col)) as [v |] eqn:Hs;
    cbn [rbind] in He; [| discriminate].
  apply scalar_inv in Hs as [_ ->]. fold cell in He.
  destruct (notna cell) eqn:Hn.
  - right. split; [reflexivity |].
    destruct (contains "nf_generated_residuals" (file_path metadata)) eqn:Hnf.
    + cbn in He. destruct (py_float env cell) as [x |] eqn:Hx; cbn in He; [| discriminate].
      injection He as <-. eexists _, x. cbn. now repeat split.
    + destruct (truthy_opt (model_family metadata)) eqn:Hmf.
      * cbn in He. destruct (py_float env cell) as [x |] eqn:Hx; cbn in He; [| discriminate].
        injection He as <-. eexists _, x. cbn. now repeat split.
      * destruct (_infer_model_family model) as [fam |] eqn:Hfam; cbn in He; [| discriminate].
        destruct (py_float env cell) as [x |] eqn:Hx; cbn in He; [| discriminate].
        injection He as <-. eexists _, x. cbn. now repeat split.
  - left. injection He as <-. now split.
Qed.

(** The records of a row are those of its metric columns. *)
Lemma process_row_inv env run_id metadata sheet_name cols asset_col model_col metric_cols
    idx cells out :
  process_row env run_id metadata sheet_name cols asset_col model_col metric_cols
    (idx, cells) = Ok out ->
  exists asset model,
    row_keys metadata cols asset_col model_col cells = Ok (asset, model) /\
    collect (emit env run_id metadata sheet_name cols asset_col model_col metric_cols
               idx cells asset model) metric_cols = Ok out.
Proof.
  unfold process_row.
  destruct (row_keys metadata cols asset_col model_col cells) as [[asset model] |];
    cbn [rbind fst snd]; [| discriminate].
  intros Hc. now exists asset, model.
Qed.

(** A property of the records of every table is a property of the
    records of every file. *)
Lemma process_file_Forall (P : string -> ResultRecord -> Prop) (env : Env)
    (run_id : string) (skipped_files : list (string * exn)) (path : string) :
  (forall df metadata sheet_name records,
     parse_file_metadata env path = Ok metadata ->
     _process_dataframe env run_id df metadata sheet_name = Ok records ->
     List.Forall (P path) records) ->
  List.Forall (P path) (fst (process_file env run_id skipped_files path)).
Proof.
  intros Hdf. unfold process_file.
  destruct (process_file_body env run_id path) as [records | e] eqn:Hb; [| constructor].
  cbn [fst]. revert Hb. unfold process_file_body.
  destruct (parse_file_metadata env path) as [metadata |] eqn:Hmd;
    cbn [rbind]; [| discriminate].
  specialize (fun df sheet records => Hdf df metadata sheet records eq_refl).
  destruct (String.eqb (suffix path) ".csv").
  { destruct (read_csv env path) as [df |]; cbn; [| discriminate]. now apply Hdf. }
  destruct (String.eqb (suffix path) ".xlsx").
  { destruct (sheet_names env path) as [names |]; cbn; [| discriminate].
    destruct (collect _ names) as [excel_data |]; cbn; [| discriminate].
    apply collect_Forall. intros [name d] o. now apply Hdf. }
  destruct (String.eqb (suffix path) ".json").
  { destruct (open_json env path) as [data |]; cbn; [| discriminate].
    destruct (json_normalize env data) as [df |]; cbn; [| discriminate].
    now apply Hdf. }
  intros [= <-]. constructor.
Qed.

Lemma parsed_file_path (env : Env) (path : string) (metadata : Metadata) :
  parse_file_metadata env path = Ok metadata -> file_path metadata = path.
Proof. intros H. now apply parse_file_metadata_ok in H as (fold & _ & ->). Qed.

(** C4. Every record emitted for a file whose path contains the
    generated-residuals directory name has model family "NF-GARCH",
    whatever the model named in the row: this holds for every table
    handed to [_process_dataframe] with such a file path and for every
    record [process_file] returns for such a path. *)
Theorem nf_path_forces_family (env : Env) (run_id : string) :
  (forall df metadata sheet_name records,
     contains "nf_generated_residuals" (file_path metadata) = true ->
     _process_dataframe env run_id df metadata sheet_name = Ok records ->
     List.Forall (fun r => r_model_family r = "NF-GARCH") records) /\
  (forall skipped_files file_path,
     contains "nf_generated_residuals" file_path = true ->
     List.Forall (fun r => r_model_family r = "NF-GARCH")
       (fst (process_file env run_id skipped_files file_path))).
Proof.
  assert (Hdf : forall df metadata sheet_name records,
     contains "nf_generated_residuals" (file_path metadata) = true ->
     _process_dataframe env run_id df metadata sheet_name = Ok records ->
     List.Forall (fun r => r_model_family r = "NF-GARCH") records).
  { intros df metadata sheet_name records Hnf. unfold _process_dataframe.
    destruct (empty df); [intros [= <-]; constructor |].
    apply collect_Forall. intros [idx cells] o Hrow.
    apply process_row_inv in Hrow as (asset & model & _ & Hrow). revert Hrow.
    apply collect_Forall. intros metric_col o' He.
    apply emit_inv in He as [[_ ->] | [_ (r & x & -> & _ & _ & _ & _ & _ & _ & _ & _ & Hf)]].
    - constructor.
    - rewrite Hnf in Hf. now repeat constructor. }
  split; [exact Hdf |].
  intros skipped_files path Hnf.
  apply (process_file_Forall (fun _ r => r_model_family r = "NF-GARCH")).
  intros df metadata sheet_name records Hpath. apply Hdf.
  now rewrite (parsed_file_path _ _ _ Hpath).
Qed.

Lemma nf_path_forces_family_witness :
  contains "nf_generated_residuals" "nf_generated_residuals/eGARCH_AMZN.csv" = true /\
  exists metadata,
    parse_file_metadata bare_env "nf_generated_residuals/eGARCH_AMZN.csv" = Ok metadata /\
    exists r,
      _process_dataframe bare_env "run" single_row metadata None = Ok [r] /\
      r_model r = VStr "sGARCH" /\ r_model_family r = "NF-GARCH".
Proof.
  split; [reflexivity |]. eexists. split; [reflexivity |].
  match goal with
  | |- exists r, _process_dataframe _ _ _ ?md _ = _ /\ _ =>
      pose proof (proj1 (nf_path_forces_family bare_env "run") single_row md None) as H
  end.
  eexists. split; [reflexivity |]. split; [reflexivity |].
  exact (Forall_inv (H _ eq_refl eq_refl)).
Defined.

(** [float] of a number that is not missing is not NaN: only text can
    be read as NaN. *)
Lemma SF2Prim_not_nan (s : spec_float) : s <> S754_nan -> is_nan (SF2Prim s) = false.
Proof.
  intros Hs. apply NumFacts.is_nan_false.
  destruct s as [[|] | [|] | | sx m e]; try discriminate; try congruence.
  cbn [SF2Prim].
  assert (Hl : Prim2SF (Z.ldexp (of_uint63 (Uint63.of_Z (Z.pos m))) e) <> S754_nan).
  { rewrite Z_ldexp_spec, of_uint63_spec.
    pose proof (NumFacts.binary_normalize_not_nan
                  (Uint63.to_Z (Uint63.of_Z (Z.pos m))) 0 false) as Hn.
    destruct (binary_normalize prec emax _ 0 false) as [s | s | | s m' e'];
      cbn [SFldexp]; try discriminate; try congruence.
    eapply NumFacts.signed_not_nan, NumFacts.binary_round_signed. }
  destruct sx; [| exact Hl].
  rewrite opp_spec. now destruct (Prim2SF _).
Qed.

Lemma py_float_nan (env : Env) (cell : pyval) (x : float) :
  notna cell = true -> py_float env cell = Ok x -> is_nan x = true ->
  exists s, cell = VStr s.
Proof.
  unfold notna. destruct cell as [| b | z | f | s]; cbn.
  - discriminate.
  - intros _ [= <-]. now destruct b.
  - intros _ [= <-] Hn. unfold Num.float_of_Z in Hn.
    rewrite SF2Prim_not_nan in Hn; [discriminate |].
    apply NumFacts.binary_normalize_not_nan.
  - intros Hf [= <-] Hn. rewrite Hn in Hf. discriminate.
  - intros _ _ _. now exists s.
Qed.

Lemma values_present (env : Env) (run_id : string) (df : DataFrame)
    (metadata : Metadata) (sheet_name : option string) (records : list ResultRecord) :
  _process_dataframe env run_id df metadata sheet_name = Ok records ->
  List.Forall (fun r => exists x, r_value r = Some x) records.
Proof.
  unfold _process_dataframe.
  destruct (empty df); [intros [= <-]; constructor |].
  apply collect_Forall. intros [idx cells] o Hrow.
  apply process_row_inv in Hrow as (asset & model & _ & Hrow). revert Hrow.
  apply collect_Forall. intros col o' Hemit.
  apply emit_inv in Hemit as [[_ ->] | [_ (r & x & -> & _ & Hv & _)]].
  - constructor.
  - repeat constructor. now exists x.
Qed.

(** C6, as the code behaves.  The records of a table correspond one to
    one, in order, to the (row, metric column) pairs whose cell is not
    missing: a missing cell yields no record.  Every record carries the
    [float] conversion of its cell, never null; the value is NaN only
    when the cell is a text that [float] reads as NaN.  No record
    [process_file] returns has a null value. *)
Theorem missing_cells_skipped (env : Env) (run_id : string) :
  (forall df metadata sheet_name records,
     _process_dataframe env run_id df metadata sheet_name = Ok records ->
     Forall2
       (fun r (c : nat * string * pyval) =>
          let '(idx, col, cell) := c in
          r_row_index r = idx /\ r_metric r = normalize_metric_name col /\
          notna cell = true /\
          exists x, py_float env cell = Ok x /\ r_value r = Some x /\
                    (is_nan x = true -> exists s, cell = VStr s))
       records (present_cells df)) /\
  (forall skipped_files file_path,
     List.Forall (fun r => exists x, r_value r = Some x)
       (fst (process_file env run_id skipped_files file_path))).
Proof.
  split.
  - intros df metadata sheet_name records.
    unfold _process_dataframe, present_cells.
    destruct (empty df) eqn:He.
    + intros [= <-]. unfold empty in He.
      apply orb_true_iff in He as [He | He]; apply Nat.eqb_eq in He.
      * destruct (rows df); [constructor | discriminate].
      * destruct (columns df); [| discriminate]. cbn.
        induction (indexed (rows df)); cbn; [constructor | assumption].
    + apply collect_Forall2. intros [idx cells] o Hrow.
      apply process_row_inv in Hrow as (asset & model & _ & Hrow). revert Hrow.
      apply collect_Forall2. intros col o' Hemit. cbn [fst snd].
      apply emit_inv in Hemit
        as [[Hn ->] | [Hn (r & x & -> & Hx & Hv & Hi & Hm & _)]]; rewrite Hn.
      * constructor.
      * repeat constructor; try assumption. exists x. repeat split; try assumption.
        now apply (py_float_nan env).
  - intros skipped_files path.
    apply (process_file_Forall (fun _ r => exists x, r_value r = Some x)).
    intros df metadata sheet_name records _. apply values_present.
Qed.

Lemma missing_cells_skipped_witness :
  exists metadata,
    parse_file_metadata bare_env "outputs/test.csv" = Ok metadata /\
    present_cells gappy_table = [(0%nat, "MAE", VFloat 0.5)] /\
    exists r,
      _process_dataframe bare_env "run" gappy_table metadata None = Ok [r] /\
      r_metric r = "MAE" /\ r_value r = Some 0.5%float.
Proof.
  eexists. split; [reflexivity |]. split; [reflexivity |].
  match goal with
  | |- exists r, _process_dataframe _ _ _ ?md _ = _ /\ _ =>
      pose proof (proj1 (missing_cells_skipped bare_env "run") gappy_table md None) as H
  end.
  eexists. split; [reflexivity |].
  specialize (H _ eq_refl).
  apply Forall2_cons_inv_l in H
    as ([[idx col] cell] & rest & (_ & Hm & _ & x & Hx & Hv & _) & _ & Hp).
  injection Hp as <- <- <- _. injection Hx as <-.
  split; [exact Hm | exact Hv].
Defined.

(** C6, as stated, fails in its second half.  The JSON document
    [{"Model": "sGARCH", "MSE": "nan"}] gives a table whose [MSE] cell
    is the text "nan"; the cell is not missing, a record is emitted, and
    its value is [float("nan")]: NaN, the null of the master table. *)
Lemma text_nan_is_recorded :
  notna (VStr "nan") = true /\
  exists r,
    process_file float_env "run" [] "outputs/metrics.json" = ([r], []) /\
    r_metric r = "MSE" /\ r_row_index r = 0%nat /\
    r_value r = Some nan /\ isna (VFloat nan) = true.
Proof.
  split; [reflexivity |]. eexists. split; [reflexivity |]. repeat split.
Qed.

(** What the single-row table yields under a given file-level metadata. *)
Lemma single_row_under (env : Env) (run_id : string) (metadata : Metadata)
    (sheet_name : option string) :
  contains "nf_generated_residuals" (file_path metadata) = false ->
  exists r,
    _process_dataframe env run_id single_row metadata sheet_name = Ok [r] /\
    r_model r = VStr "sGARCH" /\ r_asset r = VStr "AMZN" /\
    r_metric r = "MSE" /\ r_value r = Some 0.01%float /\
    r_asset_type r = asset_type metadata /\
    r_model_family r =
      (if truthy_opt (model_family metadata)
       then default "" (model_family metadata) else "GARCH").
Proof.
  intros Hnf.
  unfold _process_dataframe.
  change (empty single_row) with false. cbv iota.
  change (List.map clean_column (columns single_row)) with ["Model"; "Asset"; "MSE"].
  change (_find_column ["Model"; "Asset"; "MSE"] ["asset"; "Asset"; "ASSET"; "symbol"; "Symbol"])
    with (Some "Asset").
  change (_find_column ["Model"; "Asset"; "MSE"] ["model"; "Model"; "MODEL"; "method"; "Method"])
    with (Some "Model").
  change (_get_metric_columns ["Model"; "Asset"; "MSE"]) with ["MSE"].
  change (indexed (rows single_row))
    with [(0%nat, [VStr "sGARCH"; VStr "AMZN"; VFloat 0.01])].
  cbn [collect]. unfold process_row.
  assert (Hk : row_keys metadata ["Model"; "Asset"; "MSE"] (Some "Asset") (Some "Model")
                 [VStr "sGARCH"; VStr "AMZN"; VFloat 0.01]
               = Ok (VStr "AMZN", VStr "sGARCH")) by reflexivity.
  rewrite Hk. cbn [rbind fst snd collect]. unfold emit.
  change (scalar (row_item_at ["Model"; "Asset"; "MSE"]
                    [VStr "sGARCH"; VStr "AMZN"; VFloat 0.01] "MSE"))
    with (@Ok pyval (VFloat 0.01)).
  cbn [rbind].
  change (notna (VFloat 0.01)) with true. cbv iota.
  rewrite Hnf.
  change (_infer_model_family (VStr "sGARCH")) with (@Ok string "GARCH").
  destruct (truthy_opt (model_family metadata)); cbn;
    eexists; (split; [reflexivity |]); cbn; now repeat split.
Qed.

(** C3, as the code behaves.  For every file-level metadata whose path
    does not contain the generated-residuals directory name, the
    single-row table yields exactly one record, with model "sGARCH",
    asset "AMZN", metric "MSE" and value 0.01; its asset type is the
    asset type of the file-level metadata, and its model family is the
    metadata's model family when there is one and "GARCH", from the
    row's model, otherwise.  The same holds of [process_file] on a CSV
    file holding that table, with the metadata inferred from its path. *)
Theorem single_row_record (env : Env) (run_id : string) :
  (forall metadata sheet_name,
     contains "nf_generated_residuals" (file_path metadata) = false ->
     exists r,
       _process_dataframe env run_id single_row metadata sheet_name = Ok [r] /\
       r_model r = VStr "sGARCH" /\ r_asset r = VStr "AMZN" /\
       r_metric r = "MSE" /\ r_value r = Some 0.01%float /\
       r_asset_type r = asset_type metadata /\
       r_model_family r =
         (if truthy_opt (model_family metadata)
          then default "" (model_family metadata) else "GARCH")) /\
  (forall skipped_files path metadata,
     suffix path = ".csv" -> read_csv env path = Ok single_row ->
     contains "nf_generated_residuals" path = false ->
     parse_file_metadata env path = Ok metadata ->
     exists r,
       process_file env run_id skipped_files path = ([r], skipped_files) /\
       r_model r = VStr "sGARCH" /\ r_asset r = VStr "AMZN" /\
       r_metric r = "MSE" /\ r_value r = Some 0.01%float /\
       r_asset_type r = asset_type metadata /\
       r_model_family r =
         (if truthy_opt (model_family metadata)
          then default "" (model_family metadata) else "GARCH")).
Proof.
  split; [apply single_row_under |].
  intros skipped_files path metadata Hsuf Hread Hnf Hmd.
  rewrite <- (parsed_file_path _ _ _ Hmd) in Hnf.
  destruct (single_row_under env run_id metadata None Hnf) as (r & Hr & Hfields).
  exists r. split; [| exact Hfields].
  unfold process_file, process_file_body. rewrite Hmd, Hsuf, Hread.
  change (String.eqb ".csv" ".csv") with true. cbv iota. unfold rbind.
  now rewrite Hr.
Qed.

Lemma single_row_record_witness :
  contains "nf_generated_residuals" "outputs/AMZN_results.csv" = false /\
  exists metadata,
    parse_file_metadata bare_env "outputs/AMZN_results.csv" = Ok metadata /\
    exists r,
      _process_dataframe bare_env "run" single_row metadata None = Ok [r] /\
      r_model r = VStr "sGARCH" /\ r_asset r = VStr "AMZN" /\
      r_metric r = "MSE" /\ r_value r = Some 0.01%float /\
      r_asset_type r = Some "Equity" /\ r_model_family r = "GARCH".
Proof.
  split; [reflexivity |]. eexists. split; [reflexivity |].
  match goal with
  | |- exists r, _process_dataframe _ _ _ ?md _ = _ /\ _ =>
      exact (proj1 (single_row_record bare_env "run") md None eq_refl)
  end.
Defined.

(** C3, as stated, fails.  With a path that names no asset the asset
    type of the record is null, with a path that names an FX pair it is
    "FX", and with a path whose model token contains "nf" the model
    family is "NF-GARCH", although the row says AMZN and sGARCH and none
    of the paths lies under the generated-residuals directory. *)
Lemma single_row_asset_type_not_from_row :
  (contains "nf_generated_residuals" "outputs/test.csv" = false /\
   exists metadata r,
     parse_file_metadata bare_env "outputs/test.csv" = Ok metadata /\
     _process_dataframe bare_env "run" single_row metadata None = Ok [r] /\
     r_asset r = VStr "AMZN" /\ r_asset_type r = None) /\
  (contains "nf_generated_residuals" "outputs/EURUSD_results.csv" = false /\
   exists metadata r,
     parse_file_metadata bare_env "outputs/EURUSD_results.csv" = Ok metadata /\
     _process_dataframe bare_env "run" single_row metadata None = Ok [r] /\
     r_asset r = VStr "AMZN" /\ r_asset_type r = Some "FX") /\
  (contains "nf_generated_residuals" "outputs/confusion_matrix.csv" = false /\
   exists metadata r,
     parse_file_metadata bare_env "outputs/confusion_matrix.csv" = Ok metadata /\
     _process_dataframe bare_env "run" single_row metadata None = Ok [r] /\
     r_model r = VStr "sGARCH" /\ r_model_family r = "NF-GARCH").
Proof.
  repeat split; eexists; eexists; (split; [reflexivity |]);
    (split; [reflexivity |]); split; reflexivity.
Qed.

End CollectResultsFacts.

(** ** Totality of metadata inference *)

Module MetadataFacts.

Import Str StrFacts PathParsing PathParsingFacts.

Lemma first_config_hash_none (env : Env) (file_dir : string) (cands : list string) :
  first_config_hash env file_dir cands = None <->
  List.Forall (passed_over env file_dir) cands.
Proof.
  induction cands as [| c cands IH]; cbn.
  - split; [constructor | reflexivity].
  - destruct (path_exists env (path_join file_dir c)) eqn:Hex.
    + destruct (config_digest env c (path_join file_dir c)) as [h | e] eqn:Hd.
      * split; [discriminate |]. intros Hall. apply Forall_inv in Hall.
        destruct Hall as [Hne | [e He]]; congruence.
      * rewrite IH. split.
        -- intros Hall. constructor; [right; now exists e | assumption].
        -- intros Hall. now apply Forall_inv_tail in Hall.
    + rewrite IH. split.
      * intros Hall. constructor; [now left | assumption].
      * intros Hall. now apply Forall_inv_tail in Hall.
Qed.

Lemma first_config_hash_some (env : Env) (file_dir : string) (cands : list string)
    (h : string) :
  first_config_hash env file_dir cands = Some h <->
  exists before c after,
    cands = (before ++ c :: after)%list /\
    List.Forall (passed_over env file_dir) before /\
    path_exists env (path_join file_dir c) = true /\
    config_digest env c (path_join file_dir c) = Ok h.
Proof.
  induction cands as [| c cands IH]; cbn.
  - split; [discriminate |]. intros (before & c & after & Heq & _).
    now destruct before.
  - destruct (path_exists env (path_join file_dir c)) eqn:Hex.
    + destruct (config_digest env c (path_join file_dir c)) as [h' | e] eqn:Hd.
      * split.
        -- intros [= ->]. exists [], c, cands. repeat split; [constructor | assumption..].
        -- intros (before & c' & after & Heq & Hb & Hex' & Hd').
           destruct before as [| b before]; cbn in Heq; injection Heq as <- Heq.
           ++ congruence.
           ++ apply Forall_inv in Hb. destruct Hb as [Hne | [e He]]; congruence.
      * rewrite IH. split.
        -- intros (before & c' & after & -> & Hb & Hex' & Hd').
           exists (c :: before), c', after. repeat split; try assumption.
           constructor; [right; now exists e | assumption].
        -- intros (before & c' & after & Heq & Hb & Hex' & Hd').
           destruct before as [| b before]; cbn in Heq; injection Heq as <- Heq.
           ++ congruence.
           ++ exists before, c', after. repeat split; try assumption.
              now apply Forall_inv_tail in Hb.
    + rewrite IH. split.
      * intros (before & c' & after & -> & Hb & Hex' & Hd').
        exists (c :: before), c', after. repeat split; try assumption.
        constructor; [now left | assumption].
      * intros (before & c' & after & Heq & Hb & Hex' & Hd').
        destruct before as [| b before]; cbn in Heq; injection Heq as <- Heq.
        -- congruence.
        -- exists before, c', after. repeat split; try assumption.
           now apply Forall_inv_tail in Hb.
Qed.

(** C8, as the code behaves.  [parse_file_metadata] raises in one case
    only: the first fold pattern that matches the path captures more
    digits than [int] accepts, and the [ValueError] of [int] reaches the
    caller.  For every other path it returns a metadata value, whatever
    the readers of the environment do.  In the metadata returned, an
    exception while a candidate configuration file is read makes the
    search go on with the next candidate; the hash is null exactly when
    every candidate is missing or fails, and otherwise is the digest of
    the first candidate that exists and loads.  A header that cannot be
    read gives no metrics, the split type is always one of the two
    names, and model family and asset type are null when model and
    asset are. *)
Theorem metadata_total (env : Env) (file_path0 : string) :
  let file_dir := dirname file_path0 in
  (forall e, parse_file_metadata env file_path0 = Raise e <->
     e = ValueError /\
     exists digits, Re.first_match fold_patterns file_path0 = Some digits /\
                    (int_max_str_digits < String.length digits)%nat) /\
  ((forall digits, Re.first_match fold_patterns file_path0 = Some digits ->
                   (String.length digits <= int_max_str_digits)%nat) ->
   exists md, parse_file_metadata env file_path0 = Ok md) /\
  (forall md, parse_file_metadata env file_path0 = Ok md ->
     file_path md = file_path0 /\
     (config_hash md = None <-> List.Forall (passed_over env file_dir) config_files) /\
     (forall h, config_hash md = Some h <->
        exists before c after,
          config_files = (before ++ c :: after)%list /\
          List.Forall (passed_over env file_dir) before /\
          path_exists env (path_join file_dir c) = true /\
          config_digest env c (path_join file_dir c) = Ok h) /\
     (forall e, endswith file_path0 ".csv" = true ->
        read_csv_header env file_path0 = Raise e -> metrics md = []) /\
     (forall e, endswith file_path0 ".csv" = false -> endswith file_path0 ".json" = true ->
        open_json env file_path0 = Raise e -> metrics md = []) /\
     (split_type md = "tscv" \/ split_type md = "chrono") /\
     (model md = None -> model_family md = None) /\
     (asset md = None -> asset_type md = None)).
Proof.
  intros file_dir. subst file_dir.
  split; [| split].
  - intros e. rewrite parse_file_metadata_eq, <- parse_fold_raises.
    destruct (parse_fold_from_path file_path0); [split; discriminate |].
    split; now intros [= <-].
  - intros Hshort. rewrite parse_file_metadata_eq.
    destruct (parse_fold_from_path file_path0) as [fold | e] eqn:Hf; [now eexists |].
    apply parse_fold_raises in Hf as [_ (digits & Hm & Hlen)].
    apply Hshort in Hm. lia.
  - intros md Hmd. apply parse_file_metadata_ok in Hmd as (fold & _ & ->).
    cbn [file_path config_hash metrics split_type model asset model_family asset_type
         metadata_of].
    split; [reflexivity |].
    split; [apply first_config_hash_none |].
    split; [intros h; apply first_config_hash_some |].
    split; [| split; [| split; [| split]]].
    + intros e Hcsv Hr. unfold parse_metric_from_content. now rewrite Hcsv, Hr.
    + intros e Hcsv Hjson Hr. unfold parse_metric_from_content.
      now rewrite Hcsv, Hjson, Hr.
    + apply PathParsingFacts.split_type_range.
    + now intros ->.
    + now intros ->.
Qed.

Lemma metadata_total_witness :
  parse_file_metadata bare_env ""
  = Ok {| file_path := ""; asset := None; model := None; split_type := "chrono";
          fold := FoldAll; metrics := []; config_hash := None;
          model_family := None; asset_type := None |} /\
  parse_file_metadata bare_env long_fold_path = Raise ValueError /\
  read_csv_header bare_env "outputs/results.csv" = Raise OSError /\
  exists md,
    parse_file_metadata bare_env "outputs/results.csv" = Ok md /\
    metrics md = [] /\ config_hash md = None.
Proof.
  split; [reflexivity |]. split.
  - apply (proj1 (metadata_total bare_env long_fold_path) ValueError).
    split; [reflexivity |]. exists (ones 4301). split; vm_compute; [reflexivity | lia].
  - split; [reflexivity |]. eexists. split; [reflexivity |].
    match goal with
    | |- metrics ?md = _ /\ _ =>
        pose proof (proj2 (proj2 (metadata_total bare_env "outputs/results.csv")) md eq_refl)
          as (_ & Hnone & _ & Hcsv & _)
    end.
    split.
    + exact (Hcsv OSError eq_refl eq_refl).
    + apply Hnone. repeat constructor.
Defined.

(** C8, as stated, fails twice.  Reading [out/config.json] raises, the
    exception is swallowed, and the hash is not null but the digest of
    [out/config.yaml].  And a path whose fold number has 4301 digits
    makes [parse_file_metadata] raise [ValueError]. *)
Lemma config_exception_not_null :
  (path_exists config_env "out/config.json" = true /\
   config_digest config_env "config.json" "out/config.json" = Raise ParseError /\
   exists md, parse_file_metadata config_env "out/results.csv" = Ok md /\
              config_hash md = Some "99914b93") /\
  (String.length long_fold_path = 4318%nat /\
   parse_file_metadata bare_env long_fold_path = Raise ValueError).
Proof.
  split.
  - split; [reflexivity |]. split; [reflexivity |]. eexists. split; reflexivity.
  - split; vm_compute; reflexivity.
Qed.

End MetadataFacts.

(** ** Aggregation *)

Module AggregatorFacts.

Import CollectResults.

(** The minimum is a value of the group that no value is below. *)
Lemma fmin_spec (x : float) (t : list float) :
  List.In (fmin (x :: t)) (x :: t) /\
  (forall u, List.In u (x :: t) -> PrimFloat.ltb u (fmin (x :: t)) = false).
Proof.
  cbn [fmin].
  assert (Hgen : forall seen m,
    List.In m seen -> (forall u, List.In u seen -> PrimFloat.ltb u m = false) ->
    let r := List.fold_left (fun m v => if PrimFloat.ltb v m then v else m) t m in
    List.In r (seen ++ t)%list /\
    (forall u, List.In u (seen ++ t)%list -> PrimFloat.ltb u r = false)).
  { induction t as [| v t IH]; intros seen m Hin Hmin; cbn.
    - rewrite app_nil_r. now split.
    - replace (seen ++ v :: t)%list with ((seen ++ [v]) ++ t)%list
        by now rewrite <- app_assoc.
      apply IH.
      + destruct (PrimFloat.ltb v m); apply in_or_app; [right; now left | now left].
      + intros u Hu. apply in_app_or in Hu as [Hu | [<- | []]].
        * destruct (PrimFloat.ltb v m) eqn:Hvm; [| now apply Hmin].
          destruct (PrimFloat.ltb u v) eqn:Huv; [| reflexivity].
          rewrite <- (Hmin u Hu). symmetry. now apply (NumFacts.ltb_trans u v m).
        * destruct (PrimFloat.ltb v m) eqn:Hvm; [apply NumFacts.ltb_irrefl | assumption]. }
  apply (Hgen [x] x); [now left |].
  intros u [<- | []]. apply NumFacts.ltb_irrefl.
Qed.

(** The maximum is a value of the group that is below no value. *)
Lemma fmax_spec (x : float) (t : list float) :
  List.In (fmax (x :: t)) (x :: t) /\
  (forall u, List.In u (x :: t) -> PrimFloat.ltb (fmax (x :: t)) u = false).
Proof.
  cbn [fmax].
  assert (Hgen : forall seen m,
    List.In m seen -> (forall u, List.In u seen -> PrimFloat.ltb m u = false) ->
    let r := List.fold_left (fun m v => if PrimFloat.ltb m v then v else m) t m in
    List.In r (seen ++ t)%list /\
    (forall u, List.In u (seen ++ t)%list -> PrimFloat.ltb r u = false)).
  { induction t as [| v t IH]; intros seen m Hin Hmax; cbn.
    - rewrite app_nil_r. now split.
    - replace (seen ++ v :: t)%list with ((seen ++ [v]) ++ t)%list
        by now rewrite <- app_assoc.
      apply IH.
      + destruct (PrimFloat.ltb m v); apply in_or_app; [right; now left | now left].
      + intros u Hu. apply in_app_or in Hu as [Hu | [<- | []]].
        * destruct (PrimFloat.ltb m v) eqn:Hmv; [| now apply Hmax].
          destruct (PrimFloat.ltb v u) eqn:Hvu; [| reflexivity].
          rewrite <- (Hmax u Hu). symmetry. now apply (NumFacts.ltb_trans m v u).
        * destruct (PrimFloat.ltb m v) eqn:Hmv; [apply NumFacts.ltb_irrefl | assumption]. }
  apply (Hgen [x] x); [now left |].
  intros u [<- | []]. apply NumFacts.ltb_irrefl.
Qed.

Lemma same_number_refl (a : float) : same_number a a.
Proof.
  unfold same_number. destruct (is_nan a) eqn:Hn; [now right | left].
  apply NumFacts.ltb_neither_eqb; try assumption; apply NumFacts.ltb_irrefl.
Qed.

(** Minimum and maximum of a group of numbers do not depend on the
    order of its values. *)
Lemma fmin_perm (l l' : list float) :
  numbers l -> l ≡ₚ l' -> same_number (fmin l) (fmin l').
Proof.
  intros Hnum Hp.
  destruct l as [| x t], l' as [| x' t'].
  - right. now split.
  - now apply Permutation_nil_cons in Hp.
  - symmetry in Hp. now apply Permutation_nil_cons in Hp.
  - destruct (fmin_spec x t) as [Hin Hmin], (fmin_spec x' t') as [Hin' Hmin'].
    assert (Hnum' : numbers (x' :: t')) by (unfold numbers; now rewrite <- Hp).
    left. apply NumFacts.ltb_neither_eqb.
    + exact (proj1 (List.Forall_forall _ _) Hnum _ Hin).
    + exact (proj1 (List.Forall_forall _ _) Hnum' _ Hin').
    + apply Hmin'. now rewrite <- Hp.
    + apply Hmin. now rewrite Hp.
Qed.

Lemma fmax_perm (l l' : list float) :
  numbers l -> l ≡ₚ l' -> same_number (fmax l) (fmax l').
Proof.
  intros Hnum Hp.
  destruct l as [| x t], l' as [| x' t'].
  - right. now split.
  - now apply Permutation_nil_cons in Hp.
  - symmetry in Hp. now apply Permutation_nil_cons in Hp.
  - destruct (fmax_spec x t) as [Hin Hmax], (fmax_spec x' t') as [Hin' Hmax'].
    assert (Hnum' : numbers (x' :: t')) by (unfold numbers; now rewrite <- Hp).
    left. apply NumFacts.ltb_neither_eqb.
    + exact (proj1 (List.Forall_forall _ _) Hnum _ Hin).
    + exact (proj1 (List.Forall_forall _ _) Hnum' _ Hin').
    + apply Hmax. now rewrite Hp.
    + apply Hmax'. now rewrite <- Hp.
Qed.

Lemma number_of_number (r : ResultRecord) (v : float) :
  number_of r = Some v -> is_nan v = false.
Proof.
  unfold number_of. destruct (r_value r) as [f |]; [| discriminate].
  destruct (is_nan f) eqn:Hn; [discriminate |]. now intros [= <-].
Qed.

Section GroupByFacts.

Context {K : Type} `{Countable K}.
Variables (env : Env) (key : ResultRecord -> option K) (leb : K -> K -> bool).

Lemma group_keys_perm (master master' : list ResultRecord) :
  master ≡ₚ master' -> group_keys key leb master = group_keys key leb master'.
Proof.
  intros Hp. unfold group_keys. now rewrite Hp.
Qed.

Lemma group_values_perm (master master' : list ResultRecord) (k : K) :
  master ≡ₚ master' -> group_values key master k ≡ₚ group_values key master' k.
Proof.
  intros Hp. unfold group_values. now rewrite Hp.
Qed.

Lemma group_values_numbers (master : list ResultRecord) (k : K) :
  numbers (group_values key master k).
Proof.
  unfold numbers, group_values. apply Forall_forall. intros v Hv.
  apply list_elem_of_omap in Hv as (r & _ & Hr).
  now apply number_of_number in Hr.
Qed.

Lemma groupby_agg_perm (master master' : list ResultRecord) :
  master ≡ₚ master' ->
  Forall2 rows_agree (groupby_agg env key leb master) (groupby_agg env key leb master').
Proof.
  intros Hp. unfold groupby_agg. rewrite <- (group_keys_perm _ _ Hp).
  induction (group_keys key leb master) as [| k ks IH]; cbn [List.map]; constructor;
    [| exact IH].
  pose proof (group_values_perm _ _ k Hp) as Hv.
  pose proof (group_values_numbers master k) as Hn.
  unfold rows_agree. cbn [fst snd agg s_count s_min s_max].
  split; [reflexivity |]. split; [now apply Permutation_length |].
  split; [now apply fmin_perm | now apply fmax_perm].
Qed.

End GroupByFacts.

(** C9, as the code behaves.  For every reordering of the records the
    summary by model and the summary by asset and model have the same
    groups, in the same order, and each group has the same count, the
    same minimum and the same maximum.  Mean and standard deviation are
    floating-point reductions over the values in record order and are
    not covered. *)
Theorem summaries_order_independent (env : Env) (master master' : list ResultRecord) :
  master ≡ₚ master' ->
  summaries_agree (create_summary_tables env master) (create_summary_tables env master').
Proof.
  intros Hp. unfold create_summary_tables.
  destruct master as [| r master], master' as [| r' master'].
  - exact I.
  - now apply Permutation_nil_cons in Hp.
  - symmetry in Hp. now apply Permutation_nil_cons in Hp.
  - split; now apply groupby_agg_perm.
Qed.

Lemma summaries_order_independent_witness :
  let a := sample_record "sGARCH" "MSE" 0.5 in
  let b := sample_record "eGARCH" "MSE" 1.5 in
  let c := sample_record "sGARCH" "MSE" 2.5 in
  [a; b; c] ≡ₚ [c; a; b] /\
  summaries_agree (create_summary_tables summing_env [a; b; c])
                  (create_summary_tables summing_env [c; a; b]).
Proof.
  intros a b c.
  assert (Hp : [a; b; c] ≡ₚ [c; a; b]).
  { symmetry. exact (Permutation_cons_append [a; b] c). }
  split; [exact Hp |].
  exact (summaries_order_independent summing_env [a; b; c] [c; a; b] Hp).
Defined.

(** C9, as stated, fails for the mean.  The same three records of one
    group, in two orders, have mean 0 in one order and a third in the
    other, both with a plain running sum and with a compensated one. *)
Lemma mean_depends_on_order :
  cancelling_master ≡ₚ cancelling_master' /\
  (List.map (fun row => s_mean (snd row)) <$>
     (summary_by_model <$> create_summary_tables summing_env cancelling_master)
   = Some [0%float]) /\
  (List.map (fun row => s_mean (snd row)) <$>
     (summary_by_model <$> create_summary_tables summing_env cancelling_master')
   = Some [0.33333333333333331%float]) /\
  (List.map (fun row => s_mean (snd row)) <$>
     (summary_by_model <$> create_summary_tables compensating_env cancelling_master)
   = Some [0%float]) /\
  (List.map (fun row => s_mean (snd row)) <$>
     (summary_by_model <$> create_summary_tables compensating_env cancelling_master')
   = Some [0.33333333333333331%float]) /\
  PrimFloat.eqb 0 0.33333333333333331 = false.
Proof.
  split.
  - exact (Permutation_cons_append _ _).
  - repeat split; vm_compute; reflexivity.
Qed.

End AggregatorFacts.

(** ** The regular-expression matcher *)

Module ReFacts.

Import Str StrFacts.

Local Arguments String.append !_ _ / : simpl nomatch.

(** What a successful greedy repetition consumed. *)
Lemma rep_inv (cls : ascii -> bool) (lo : nat) (hi : option nat)
    (k : string -> string -> option string) (s : string) (n : nat) (taken r : string) :
  Re.rep cls lo hi k s n taken = Some r ->
  exists consumed rest,
    s = consumed ++ rest /\
    all_chars cls consumed = true /\
    (lo <= n + String.length consumed)%nat /\
    (consumed = "" \/ forall h, hi = Some h -> (n + String.length consumed <= h)%nat) /\
    k rest (taken ++ consumed) = Some r.
Proof.
  revert n taken. induction s as [| c t IH]; intros n taken Hr.
  - cbn in Hr. destruct (lo <=? n)%nat eqn:Hlo; [| discriminate].
    apply Nat.leb_le in Hlo. exists "", "". cbn.
    rewrite append_nil_r. repeat split; try lia; auto.
  - cbn [Re.rep] in Hr.
    assert (Hstop : (if (lo <=? n)%nat then k (String c t) taken else None) = Some r ->
            exists consumed rest,
              String c t = consumed ++ rest /\
              all_chars cls consumed = true /\
              (lo <= n + String.length consumed)%nat /\
              (consumed = "" \/
               forall h, hi = Some h -> (n + String.length consumed <= h)%nat) /\
              k rest (taken ++ consumed) = Some r).
    { intros Hs. destruct (lo <=? n)%nat eqn:Hlo; [| discriminate].
      apply Nat.leb_le in Hlo. exists "", (String c t). cbn.
      rewrite append_nil_r. repeat split; try lia; auto. }
    destruct (cls c && Re.below hi n) eqn:Hc; [| now apply Hstop].
    destruct (Re.rep cls lo hi k t (S n) (taken ++ String c "")) as [r' |] eqn:Hrec;
      [| now apply Hstop].
    injection Hr as ->.
    apply IH in Hrec as (consumed & rest & -> & Hall & Hlen & Hhi & Hk).
    apply andb_true_iff in Hc as [Hcls Hbelow].
    exists (String c consumed), rest. cbn.
    rewrite Hcls, Hall. repeat split.
    + lia.
    + right. intros h Hh. destruct Hhi as [-> | Hhi].
      * cbn. subst hi. cbn in Hbelow. apply Nat.ltb_lt in Hbelow. lia.
      * specialize (Hhi h Hh). lia.
    + rewrite append_assoc in Hk. exact Hk.
Qed.

Lemma match_here_no_cap (p : list Re.atom) (s cap r : string) :
  Re.no_cap p = true -> Re.match_here p s cap = Some r -> r = cap.
Proof.
  revert s. induction p as [| a p IH]; intros s Hn Hm.
  - now injection Hm as ->.
  - destruct a as [c | cls lo hi | cls lo hi]; cbn in Hn; [| | discriminate].
    + cbn in Hm. destruct s as [| d t]; [discriminate |].
      destruct (Ascii.eqb c d); [| discriminate]. now apply IH in Hm.
    + cbn in Hm. apply rep_inv in Hm as (consumed & rest & _ & _ & _ & _ & Hk).
      now apply IH in Hk.
Qed.

Lemma no_cap_lits (w : string) : Re.no_cap (Re.lits w) = true.
Proof. induction w as [| c w IH]; [reflexivity | exact IH]. Qed.

(** Literal characters match themselves. *)
Lemma match_here_lits (w : string) (p : list Re.atom) (s cap r : string) :
  Re.match_here (Re.lits w ++ p)%list s cap = Some r ->
  exists rest, s = w ++ rest /\ Re.match_here p rest cap = Some r.
Proof.
  revert s. induction w as [| c w IH]; intros s Hm.
  - now exists s.
  - cbn in Hm. destruct s as [| d t]; [discriminate |].
    destruct (Ascii.eqb_spec c d) as [-> |]; [| discriminate].
    apply IH in Hm as (rest & -> & Hm). now exists rest.
Qed.

(** A successful search matched at some position. *)
Lemma search_inv (p : list Re.atom) (s r : string) :
  Re.search p s = Some r ->
  exists pre suf, s = pre ++ suf /\ Re.match_here p suf "" = Some r.
Proof.
  induction s as [| c t IH]; cbn [Re.search]; intros Hs.
  - destruct (Re.match_here p "" "") as [r' |] eqn:Hm; [| discriminate].
    injection Hs as ->. now exists "", "".
  - destruct (Re.match_here p (String c t) "") as [r' |] eqn:Hm.
    + injection Hs as ->. now exists "", (String c t).
    + apply IH in Hs as (pre & suf & -> & Hm'). now exists (String c pre), suf.
Qed.

Lemma first_match_inv (ps : list (list Re.atom)) (s r : string) :
  Re.first_match ps s = Some r -> exists p, List.In p ps /\ Re.search p s = Some r.
Proof.
  induction ps as [| p ps IH]; cbn; [discriminate |].
  destruct (Re.search p s) as [r' |] eqn:Hp.
  - intros [= ->]. exists p. now split; [left |].
  - intros Hf. apply IH in Hf as (q & Hq & Hs). exists q. now split; [right |].
Qed.

(** A pattern that starts with a capturing repetition and goes on
    without one returns the text the repetition consumed. *)
Lemma match_here_cap (cls : ascii -> bool) (lo : nat) (hi : option nat)
    (p : list Re.atom) (s r : string) :
  Re.no_cap p = true ->
  Re.match_here (Re.Cap cls lo hi :: p) s "" = Some r ->
  exists rest,
    s = r ++ rest /\ all_chars cls r = true /\ (lo <= String.length r)%nat /\
    (forall h, hi = Some h -> (String.length r <= h \/ r = "")%nat) /\
    Re.match_here p rest r = Some r.
Proof.
  intros Hn Hm. cbn in Hm.
  apply rep_inv in Hm as (consumed & rest & -> & Hall & Hlen & Hhi & Hk).
  change ("" ++ consumed) with consumed in Hk.
  pose proof (match_here_no_cap _ _ _ _ Hn Hk) as ->.
  exists rest. repeat split; try assumption; try lia.
  intros h Hh. destruct Hhi as [-> | Hhi]; [now right | left].
  specialize (Hhi h Hh). lia.
Qed.

End ReFacts.

(** ** Further properties of metadata inference *)

Module PathParsingExtra.

Import Str StrFacts ReFacts PathParsing PathParsingFacts.

Local Arguments String.append !_ _ / : simpl nomatch.

Lemma parse_model_family_range (m : string) :
  parse_model_family m = "GARCH" \/ parse_model_family m = "NF-GARCH".
Proof. unfold parse_model_family. destruct (_ && _); auto. Qed.

(** X1. The two model-family classifiers agree on every model name, and
    a name is classified "NF-GARCH" exactly when it contains "nf" in any
    letter case or contains "Flow"; every other name, the empty one
    included, is "GARCH". *)
Theorem model_family_classifiers (m : string) :
  CollectResults._infer_model_family (VStr m) = Ok (parse_model_family m) /\
  (parse_model_family m = "NF-GARCH" <->
   contains "nf" (lower m) = true \/ contains "Flow" m = true) /\
  (parse_model_family m = "GARCH" \/ parse_model_family m = "NF-GARCH").
Proof.
  unfold CollectResults._infer_model_family, parse_model_family, truthy.
  destruct (String.eqb_spec m "") as [-> | Hne]; cbn [negb andb].
  - split; [reflexivity |]. split; [| now left].
    split; [discriminate |]. intros [H | H]; discriminate H.
  - assert (Hnf : contains "NF" m = true -> contains "nf" (lower m) = true).
    { intros H. now apply contains_lower in H. }
    destruct (contains "NF" m) eqn:H1.
    + rewrite (Hnf eq_refl). cbn. split; [reflexivity |].
      split; [| now right]. split; [now left | reflexivity].
    + destruct (contains "Flow" m) eqn:H2; cbn.
      * split; [reflexivity |]. split; [| now right]. split; [now right | reflexivity].
      * destruct (contains "nf" (lower m)) eqn:H3; cbn.
        -- split; [reflexivity |]. split; [| now right]. split; [now left | reflexivity].
        -- split; [reflexivity |]. split; [| now left].
           split; [discriminate |]. intros [H | H]; discriminate H.
Qed.

Lemma model_family_classifiers_witness :
  contains "nf" (lower "NF_sGARCH") = true /\ parse_model_family "NF_sGARCH" = "NF-GARCH".
Proof.
  split; [reflexivity |].
  apply (proj2 (proj1 (proj2 (model_family_classifiers "NF_sGARCH")))).
  left. reflexivity.
Defined.

Lemma vocabulary_match_In (vocab : list string) (path w : string) :
  vocabulary_match vocab path = Some w -> List.In w vocab.
Proof. unfold vocabulary_match. intros H. now apply List.find_some in H. Qed.

(** The capture of an asset pattern. *)
Lemma asset_pattern_capture (path a : string) :
  Re.first_match asset_patterns path = Some a ->
  all_chars is_upper a = true /\ (3 <= String.length a <= 6)%nat.
Proof.
  intros Hf. apply first_match_inv in Hf as (p & Hp & Hs).
  apply search_inv in Hs as (pre & suf & _ & Hm).
  assert (Hcap : forall t w, Re.match_here (Re.Cap is_upper 3 (Some 6) :: Re.lits w) t "" = Some a ->
            all_chars is_upper a = true /\ (3 <= String.length a <= 6)%nat).
  { intros t w Hc.
    apply match_here_cap in Hc as (rest & _ & Hall & Hlo & Hhi & _);
      [| apply no_cap_lits].
    split; [assumption |]. split; [assumption |].
    destruct (Hhi 6%nat eq_refl) as [H | ->]; [assumption | cbn in Hlo; lia]. }
  unfold asset_patterns in Hp. cbn [List.In] in Hp.
  destruct Hp as [<- | [<- | [<- | []]]].
  - cbn [Re.match_here] in Hm. destruct suf as [| d t]; [discriminate |].
    destruct (Ascii.eqb "/" d); [| discriminate]. now apply Hcap in Hm.
  - now apply Hcap in Hm.
  - now apply Hcap in Hm.
Qed.

Lemma asset_inferred_shape (path a : string) :
  parse_asset_from_path path = Some a ->
  (List.In a known_assets \/
   (all_chars is_upper a = true /\ (3 <= String.length a <= 6)%nat)) /\
  a <> "".
Proof.
  unfold parse_asset_from_path.
  destruct (vocabulary_match known_assets path) as [w |] eqn:Hv.
  - intros [= ->]. apply vocabulary_match_In in Hv. split; [now left |].
    unfold known_assets in Hv. cbn in Hv.
    intros ->. intuition discriminate.
  - intros Hf. apply asset_pattern_capture in Hf as [Hall Hlen].
    split; [now right |]. intros ->. cbn in Hlen. lia.
Qed.

(** X2. An asset inferred from a path is either one of the twelve known
    identifiers or a run of three to six upper-case letters; in
    particular it is never empty. *)
Theorem asset_shape (path a : string) :
  parse_asset_from_path path = Some a ->
  (List.In a known_assets \/
   (all_chars is_upper a = true /\ (3 <= String.length a <= 6)%nat)) /\
  a <> "".
Proof. apply asset_inferred_shape. Qed.

Lemma asset_shape_witness :
  parse_asset_from_path "results/plots/XYZW_histogram.png" = Some "XYZW" /\
  (List.In "XYZW" known_assets \/
   (all_chars is_upper "XYZW" = true /\ (3 <= String.length "XYZW" <= 6)%nat)) /\
  "XYZW" <> "".
Proof.
  split; [reflexivity |].
  exact (asset_shape "results/plots/XYZW_histogram.png" "XYZW" eq_refl).
Defined.

(** The capture of a model pattern is not empty. *)
Lemma model_pattern_capture (path m : string) :
  Re.first_match model_patterns path = Some m ->
  all_chars is_word_alpha m = true /\ m <> "".
Proof.
  intros Hf. apply first_match_inv in Hf as (p & Hp & Hs).
  apply search_inv in Hs as (pre & suf & _ & Hm).
  assert (Hcap : forall t q, Re.no_cap q = true ->
            Re.match_here (Re.Cap is_word_alpha 1 None :: q) t "" = Some m ->
            all_chars is_word_alpha m = true /\ m <> "").
  { intros t q Hq Hc.
    apply match_here_cap in Hc as (rest & _ & Hall & Hlo & _); [| assumption].
    split; [assumption |]. intros ->. cbn in Hlo. lia. }
  unfold model_patterns in Hp. cbn [List.In] in Hp.
  destruct Hp as [<- | [<- | [<- | []]]]; eapply Hcap; try eassumption; reflexivity.
Qed.

Lemma model_nonempty (path m : string) :
  parse_model_from_path path = Some m -> m <> "".
Proof.
  unfold parse_model_from_path.
  destruct (vocabulary_match known_models path) as [w |] eqn:Hv.
  - intros [= ->]. apply vocabulary_match_In in Hv.
    unfold known_models in Hv. cbn in Hv. intros ->. intuition discriminate.
  - intros Hf. now apply model_pattern_capture in Hf.
Qed.

(** X3. In the metadata [parse_file_metadata] returns for a path the
    asset type is null exactly when the asset is, and otherwise "FX" or
    "Equity", never "Unknown"; the model family is null exactly when the
    model is, and otherwise "GARCH" or "NF-GARCH". *)
Theorem derived_fields (env : Env) (path : string) (md : Metadata) :
  parse_file_metadata env path = Ok md ->
  (asset_type md = None <-> asset md = None) /\
  (forall t, asset_type md = Some t -> t = "FX" \/ t = "Equity") /\
  (model_family md = None <-> model md = None) /\
  (forall f, model_family md = Some f -> f = "GARCH" \/ f = "NF-GARCH").
Proof.
  intros Hmd. apply parse_file_metadata_ok in Hmd as (fold & _ & ->).
  cbn [metadata_of asset_type asset model_family model].
  split; [| split; [| split]].
  - destruct (parse_asset_from_path path) as [a |] eqn:Ha; [| tauto].
    apply asset_inferred_shape in Ha as [_ Hne].
    destruct (String.eqb_spec a ""); [contradiction |]. cbn. split; discriminate.
  - intros t. destruct (parse_asset_from_path path) as [a |] eqn:Ha; [| discriminate].
    apply asset_inferred_shape in Ha as [_ Hne].
    destruct (String.eqb_spec a "") as [| Hn]; [contradiction |]. cbn.
    intros [= <-]. unfold parse_asset_type.
    destruct (String.eqb_spec a ""); [contradiction |]. cbn.
    destruct (_ && _); auto.
  - destruct (parse_model_from_path path) as [m |] eqn:Hm; [| tauto].
    apply model_nonempty in Hm.
    destruct (String.eqb_spec m ""); [contradiction |]. cbn. split; discriminate.
  - intros f. destruct (parse_model_from_path path) as [m |] eqn:Hm; [| discriminate].
    destruct (negb (String.eqb m "")); [| discriminate].
    intros [= <-]. apply parse_model_family_range.
Qed.

Lemma derived_fields_witness :
  exists md,
    parse_file_metadata bare_env "results/EURUSD_sGARCH.csv" = Ok md /\
    asset_type md = Some "FX" /\ ("FX" = "FX" \/ "FX" = "Equity").
Proof.
  eexists. split; [reflexivity |]. split; [reflexivity |].
  apply (proj1 (proj2 (derived_fields bare_env "results/EURUSD_sGARCH.csv"
                         (metadata_of bare_env "results/EURUSD_sGARCH.csv" FoldAll)
                         eq_refl))).
  reflexivity.
Defined.

(** X4. Every path in which a known model identifier occurs, the
    NF_-prefixed ones included, gets the file-level model family
    "GARCH": the vocabulary scan only ever returns an identifier without
    the prefix. *)
Theorem vocabulary_model_family (env : Env) (path w : string) (md : Metadata) :
  List.In w known_models ->
  contains (lower w) (lower path) = true ->
  parse_file_metadata env path = Ok md ->
  model_family md = Some "GARCH".
Proof.
  intros Hw Hc Hmd. apply parse_file_metadata_ok in Hmd as (fold & _ & ->).
  cbn [metadata_of model_family]. unfold parse_model_from_path.
  destruct (vocabulary_match known_models path) as [m |] eqn:Hv.
  - apply PathParsingFacts.vocabulary_never_nf in Hv. cbn in Hv.
    destruct Hv as [<- | [<- | [<- | [<- | [<- | []]]]]]; reflexivity.
  - unfold vocabulary_match in Hv.
    pose proof (List.find_none _ _ Hv w Hw) as Hf. cbv beta in Hf. congruence.
Qed.

Lemma vocabulary_model_family_witness :
  List.In "NF_eGARCH" known_models /\
  contains (lower "NF_eGARCH") (lower "results/NF_eGARCH_AMZN.csv") = true /\
  exists md,
    parse_file_metadata bare_env "results/NF_eGARCH_AMZN.csv" = Ok md /\
    model_family md = Some "GARCH".
Proof.
  assert (Hin : List.In "NF_eGARCH" known_models) by (cbn; tauto).
  split; [exact Hin |]. split; [reflexivity |].
  eexists. split; [reflexivity |].
  exact (vocabulary_model_family bare_env "results/NF_eGARCH_AMZN.csv" "NF_eGARCH"
           (metadata_of bare_env "results/NF_eGARCH_AMZN.csv" FoldAll)
           Hin eq_refl eq_refl).
Defined.

(** A fold pattern matches only where the path spells "fold". *)
Lemma fold_pattern_needs_fold (path digits : string) :
  Re.first_match fold_patterns path = Some digits -> contains "fold" path = true.
Proof.
  intros Hf. apply first_match_inv in Hf as (p & Hp & Hs).
  apply search_inv in Hs as (pre & suf & -> & Hm).
  unfold fold_patterns in Hp. cbn [List.In] in Hp.
  destruct Hp as [<- | [<- | [<- | []]]].
  - apply match_here_lits in Hm as (rest & -> & _).
    apply contains_spec. exists pre, ("_" ++ rest). reflexivity.
  - apply match_here_lits in Hm as (rest & -> & _).
    apply contains_spec. now exists pre, rest.
  - apply match_here_cap in Hm as (rest & -> & _ & _ & _ & Hl); [| apply no_cap_lits].
    rewrite <- (app_nil_r (Re.lits "_fold")) in Hl.
    apply match_here_lits in Hl as (rest' & -> & _).
    apply contains_spec. exists (pre ++ digits ++ "_"), rest'.
    rewrite !append_assoc. reflexivity.
Qed.

(** X5. A path that does not spell "fold" in lower case has fold "all";
    the scan is case-sensitive, so "Fold_1" is not a fold marker. *)
Theorem fold_needs_marker (path : string) :
  contains "fold" path = false -> parse_fold_from_path path = Ok FoldAll.
Proof.
  intros Hc. unfold parse_fold_from_path.
  destruct (Re.first_match fold_patterns path) as [digits |] eqn:Hf; [| reflexivity].
  apply fold_pattern_needs_fold in Hf. congruence.
Qed.

Lemma fold_needs_marker_witness :
  contains "fold" "outputs/Fold_1_results.csv" = false /\
  parse_fold_from_path "outputs/Fold_1_results.csv" = Ok FoldAll.
Proof.
  split; [reflexivity |].
  exact (fold_needs_marker "outputs/Fold_1_results.csv" eq_refl).
Defined.

Lemma normalize_hit (m : string) (kv : string * string) :
  List.find (fun kv => String.eqb (squash (fst kv)) (squash m)) normalizations = Some kv ->
  normalize_metric_name m = snd kv.
Proof. unfold normalize_metric_name. now intros ->. Qed.

Lemma normalize_miss (m : string) :
  List.find (fun kv => String.eqb (squash (fst kv)) (squash m)) normalizations = None ->
  normalize_metric_name m = m.
Proof. unfold normalize_metric_name. now intros ->. Qed.

(** X6. Normalising a metric name twice is the same as normalising it
    once: every canonical name is a fixed point. *)
Theorem normalize_idempotent (m : string) :
  normalize_metric_name (normalize_metric_name m) = normalize_metric_name m.
Proof.
  destruct (List.find (fun kv => String.eqb (squash (fst kv)) (squash m)) normalizations)
    as [kv |] eqn:Hf.
  - rewrite (normalize_hit m kv Hf).
    apply List.find_some in Hf as [Hin _].
    unfold normalizations in Hin. cbn [List.In] in Hin.
    repeat (destruct Hin as [<- | Hin]; [reflexivity |]). destruct Hin.
  - now rewrite !(normalize_miss m Hf).
Qed.

(** X7. Two names that agree after lower-casing and removal of
    underscores and hyphens are normalised alike: either both hit the
    table and get the same canonical name, or both are returned
    unchanged. *)
Theorem normalize_insensitive (m m' : string) :
  squash m = squash m' ->
  normalize_metric_name m = normalize_metric_name m' \/
  (normalize_metric_name m = m /\ normalize_metric_name m' = m').
Proof.
  intros Hs. unfold normalize_metric_name. rewrite Hs.
  destruct (List.find _ normalizations); [now left | now right].
Qed.

Lemma normalize_insensitive_witness :
  squash "Log-Likelihood" = squash "log_likelihood" /\
  normalize_metric_name "Log-Likelihood" = "LogLikelihood" /\
  (normalize_metric_name "Log-Likelihood" = normalize_metric_name "log_likelihood" \/
   (normalize_metric_name "Log-Likelihood" = "Log-Likelihood" /\
    normalize_metric_name "log_likelihood" = "log_likelihood")).
Proof.
  split; [reflexivity |]. split; [reflexivity |].
  exact (normalize_insensitive "Log-Likelihood" "log_likelihood" eq_refl).
Defined.

(** X8. The polarity of a metric does not depend on letter case, is
    always "lower" or "higher", and is "lower" whenever a
    lower-is-better keyword occurs in the name, even when a
    higher-is-better keyword occurs as well. *)
Theorem polarity_rules (m : string) :
  get_metric_polarity (lower m) = get_metric_polarity m /\
  (get_metric_polarity m = "lower" \/ get_metric_polarity m = "higher") /\
  (forall k, List.In k lower_is_better -> contains k (lower m) = true ->
             get_metric_polarity m = "lower").
Proof.
  unfold get_metric_polarity. rewrite lower_idempotent.
  split; [reflexivity |]. split.
  - destruct (List.existsb _ lower_is_better); [now left |].
    destruct (List.existsb _ higher_is_better); [now right | now left].
  - intros k Hk Hc.
    assert (He : List.existsb (fun metric => contains metric (lower m)) lower_is_better = true).
    { apply List.existsb_exists. now exists k. }
    now rewrite He.
Qed.

Lemma polarity_rules_witness :
  List.In "mse" lower_is_better /\
  contains "mse" (lower "Accuracy_MSE") = true /\
  contains "accuracy" (lower "Accuracy_MSE") = true /\
  get_metric_polarity "Accuracy_MSE" = "lower".
Proof.
  assert (Hin : List.In "mse" lower_is_better) by (cbn; tauto).
  split; [exact Hin |]. split; [reflexivity |]. split; [reflexivity |].
  exact (proj2 (proj2 (polarity_rules "Accuracy_MSE")) "mse" Hin eq_refl).
Defined.

(** X9. The collector's own polarity table and [get_metric_polarity]
    agree on every metric the table lists, and on every canonical name
    that [normalize_metric_name] can produce the function answers
    without falling to its default. *)
Theorem polarity_tables_agree :
  List.Forall (fun kv => get_metric_polarity (fst kv) = snd kv)
    CollectResults.metric_polarity /\
  List.Forall
    (fun kv =>
       List.existsb (fun k => contains k (lower (snd kv)))
         (lower_is_better ++ higher_is_better) = true)
    normalizations.
Proof.
  split.
  - unfold CollectResults.metric_polarity. repeat constructor.
  - unfold normalizations. repeat constructor.
Qed.

End PathParsingExtra.

(** ** Further properties of the collector *)

Module CollectResultsExtra.

Import Str StrFacts PathParsing PathParsingFacts CollectResults CollectResultsFacts.

Lemma mem_In (x : string) (l : list string) : mem x l = true <-> List.In x l.
Proof.
  unfold mem. rewrite List.existsb_exists. split.
  - intros (y & Hy & He). apply String.eqb_eq in He. now subst.
  - intros Hx. exists x. split; [assumption | apply String.eqb_refl].
Qed.

Lemma is_metric_column_spec (col : string) :
  is_metric_column col = negb (mem col key_names).
Proof.
  destruct (mem col key_names) eqn:Hm.
  - apply mem_In in Hm. unfold key_names in Hm. cbn [List.In] in Hm.
    repeat (destruct Hm as [<- | Hm]; [reflexivity |]). destruct Hm.
  - unfold is_metric_column. fold key_names. rewrite Hm.
    now destruct (List.existsb _ metric_indicators).
Qed.

(** X10. A column is a metric column exactly when its name is not one
    of "asset", "model", "Asset", "Model", "index", "Index": the keyword
    vocabulary never changes the classification. *)
Theorem metric_columns_are_the_rest (cols : list string) :
  _get_metric_columns cols = List.filter (fun col => negb (mem col key_names)) cols.
Proof.
  unfold _get_metric_columns. apply List.filter_ext. intros col.
  apply is_metric_column_spec.
Qed.

Lemma collect_raise {A B} (f : A -> result (list B)) (l : list A) (a : A) :
  List.In a l -> (exists e, f a = Raise e) -> exists e, collect f l = Raise e.
Proof.
  intros Hin [e He]. induction l as [| h l IH]; [destruct Hin |].
  cbn. destruct (f h) as [here | e'] eqn:Hh; cbn; [| now exists e'].
  destruct Hin as [-> | Hin]; [congruence |].
  destruct (IH Hin) as [e'' ->]. now exists e''.
Qed.

(** X11. The key-column aliases "ASSET", "symbol", "Symbol", "MODEL",
    "method" and "Method" are also read as metric columns; a table that
    has such a column with a text cell that is not a number cannot be
    normalised: [_process_dataframe] raises. *)
Theorem alias_column_text_raises (env : Env) (run_id : string) (df : DataFrame)
    (metadata : Metadata) (sheet_name : option string)
    (col : string) (idx : nat) (cells : list pyval) (s : string) (e : exn) :
  let cols := List.map clean_column (columns df) in
  List.In col alias_names -> List.In col cols ->
  List.In (idx, cells) (indexed (rows df)) ->
  row_get cols cells col = VStr s ->
  float_of_str env s = Raise e ->
  List.In col (_get_metric_columns cols) /\
  exists e', _process_dataframe env run_id df metadata sheet_name = Raise e'.
Proof.
  intros cols Halias Hcol Hrow Hcell Hfloat.
  assert (Hmetric : List.In col (_get_metric_columns cols)).
  { unfold _get_metric_columns. apply List.filter_In. split; [assumption |].
    unfold alias_names in Halias. cbn [List.In] in Halias.
    repeat (destruct Halias as [<- | Halias]; [reflexivity |]). destruct Halias. }
  split; [assumption |].
  unfold _process_dataframe.
  assert (He : empty df = false).
  { unfold empty, indexed in *. destruct (rows df); [destruct Hrow |].
    unfold cols in Hcol. destruct (columns df); [destruct Hcol | reflexivity]. }
  rewrite He. fold cols.
  apply (collect_raise _ _ (idx, cells) Hrow).
  unfold process_row.
  destruct (row_keys _ _ _ _ _) as [[asset model] | e']; cbn [rbind fst snd];
    [| now exists e'].
  apply (collect_raise _ _ col Hmetric).
  unfold emit.
  destruct (scalar (row_item_at cols cells col)) as [v | e'] eqn:Hs; cbn [rbind];
    [| now exists e'].
  apply scalar_inv in Hs as [_ ->]. rewrite Hcell. cbn [notna isna negb].
  destruct (contains "nf_generated_residuals" (file_path metadata)).
  - cbn. rewrite Hfloat. cbn. now exists e.
  - destruct (truthy_opt (model_family metadata)).
    + cbn. rewrite Hfloat. cbn. now exists e.
    + destruct (_infer_model_family model) as [fam | e']; cbn; [| now exists e'].
      rewrite Hfloat. cbn. now exists e.
Qed.

Lemma alias_column_text_raises_witness :
  parse_file_metadata bare_env "outputs/prices.csv"
  = Ok (metadata_of bare_env "outputs/prices.csv" FoldAll) /\
  exists e',
    _process_dataframe bare_env "run" symbol_table
      (metadata_of bare_env "outputs/prices.csv" FoldAll) None = Raise e'.
Proof.
  split; [reflexivity |].
  assert (Ha : List.In "symbol" alias_names) by (cbn; tauto).
  assert (Hc : List.In "symbol" (List.map clean_column (columns symbol_table)))
    by (cbn; tauto).
  assert (Hr : List.In (0%nat, [VStr "AAPL"; VFloat 0.1]) (indexed (rows symbol_table)))
    by (cbn; tauto).
  exact (proj2 (alias_column_text_raises bare_env "run" symbol_table
                  (metadata_of bare_env "outputs/prices.csv" FoldAll) None
                  "symbol" 0 [VStr "AAPL"; VFloat 0.1] "AAPL" ValueError
                  Ha Hc Hr eq_refl eq_refl)).
Defined.

(** X12. [process_file] never raises: it either leaves the list of
    skipped files alone or appends the file with its exception and
    returns no record.  When the metadata cannot be inferred, because
    the fold number of the path is too long for [int], the file is
    skipped with that exception whatever its extension.  Otherwise an
    unsupported extension gives no record and no skip entry; an empty
    table gives no record and no skip entry; a reader that raises gives
    no record and one skip entry. *)
Theorem process_file_outcomes (env : Env) (run_id : string)
    (skipped : list (string * exn)) (path : string) :
  (snd (process_file env run_id skipped path) = skipped \/
   exists e, process_file env run_id skipped path = ([], (skipped ++ [(path, e)])%list)) /\
  (forall e, parse_file_metadata env path = Raise e ->
   process_file env run_id skipped path = ([], (skipped ++ [(path, e)])%list)) /\
  (forall metadata, parse_file_metadata env path = Ok metadata ->
   (suffix path <> ".csv" -> suffix path <> ".xlsx" -> suffix path <> ".json" ->
    process_file env run_id skipped path = ([], skipped)) /\
   (forall df, suffix path = ".csv" -> read_csv env path = Ok df -> empty df = true ->
    process_file env run_id skipped path = ([], skipped)) /\
   (forall e, suffix path = ".csv" -> read_csv env path = Raise e ->
    process_file env run_id skipped path = ([], (skipped ++ [(path, e)])%list))).
Proof.
  split; [| split].
  - unfold process_file. destruct (process_file_body env run_id path) as [recs | e].
    + now left.
    + right. now exists e.
  - intros e Hmd. unfold process_file, process_file_body. now rewrite Hmd.
  - intros metadata Hmd. split; [| split].
    + intros H1 H2 H3. unfold process_file, process_file_body. rewrite Hmd. cbn [rbind].
      apply String.eqb_neq in H1, H2, H3. now rewrite H1, H2, H3.
    + intros df Hs Hr He. unfold process_file, process_file_body.
      rewrite Hmd, Hs, Hr. change (String.eqb ".csv" ".csv") with true. cbv iota.
      unfold rbind, _process_dataframe. now rewrite He.
    + intros e Hs Hr. unfold process_file, process_file_body.
      rewrite Hmd, Hs, Hr. reflexivity.
Qed.

Lemma process_file_outcomes_witness :
  process_file scan_env "run" [] "outputs/empty.csv" = ([], []) /\
  process_file scan_env "run" [] "outputs/missing.csv"
  = ([], [("outputs/missing.csv", OSError)]) /\
  process_file scan_env "run" [] "outputs/notes.txt" = ([], []) /\
  suffix long_fold_path = ".txt" /\
  process_file scan_env "run" [] long_fold_path = ([], [(long_fold_path, ValueError)]).
Proof.
  split; [| split; [| split; [| split]]].
  - exact (proj1 (proj2 (proj2 (proj2 (process_file_outcomes scan_env "run" [] "outputs/empty.csv"))
                           (metadata_of scan_env "outputs/empty.csv" FoldAll) eq_refl))
             header_only eq_refl eq_refl eq_refl).
  - exact (proj2 (proj2 (proj2 (proj2 (process_file_outcomes scan_env "run" [] "outputs/missing.csv"))
                           (metadata_of scan_env "outputs/missing.csv" FoldAll) eq_refl))
             OSError eq_refl eq_refl).
  - apply (proj1 (proj2 (proj2 (process_file_outcomes scan_env "run" [] "outputs/notes.txt"))
                    (metadata_of scan_env "outputs/notes.txt" FoldAll) eq_refl));
      discriminate.
  - vm_compute. reflexivity.
  - apply (proj1 (proj2 (process_file_outcomes scan_env "run" [] long_fold_path))).
    vm_compute. reflexivity.
Defined.

Lemma collect_Forall_In {A B} (P : B -> Prop) (f : A -> result (list B)) l out :
  (forall a o, List.In a l -> f a = Ok o -> List.Forall P o) ->
  collect f l = Ok out -> List.Forall P out.
Proof.
  revert out. induction l as [| a l IH]; cbn; intros out Hf Hc.
  - injection Hc as <-. constructor.
  - destruct (f a) as [here |] eqn:Ha; cbn in Hc; [| discriminate].
    destruct (collect f l) as [rest |]; cbn in Hc; [| discriminate].
    injection Hc as <-. apply Forall_app. split.
    + apply (Hf a); [now left | assumption].
    + apply IH; [| reflexivity]. intros b o Hb. apply Hf. now right.
Qed.

(** The fields an emitted record takes from its surroundings. *)
Lemma emit_fields env run_id metadata sheet_name cols asset_col model_col metric_cols
    idx cells asset model metric_col out :
  emit env run_id metadata sheet_name cols asset_col model_col metric_cols
    idx cells asset model metric_col = Ok out ->
  List.Forall
    (fun r =>
       r_source_file r = file_path metadata /\ r_run_id r = run_id /\
       r_split_type r = split_type metadata /\ r_fold r = fold metadata /\
       r_config_hash r = config_hash metadata /\ r_asset_type r = asset_type metadata /\
       r_timestamp r = now env /\ r_sheet_name r = sheet_name /\
       r_row_index r = idx /\ r_asset r = asset /\ r_model r = model /\
       r_metric r = normalize_metric_name metric_col)
    out.
Proof.
  unfold emit. destruct (scalar _) as [cell |]; cbn [rbind]; [| discriminate].
  destruct (notna cell); [| intros [= <-]; constructor].
  destruct (if contains _ _ then _ else _) as [fam |]; cbn; [| discriminate].
  destruct (py_float env cell) as [x |]; cbn; [| discriminate].
  intros [= <-]. repeat constructor.
Qed.

Lemma row_keys_present metadata cols asset_col model_col cells asset model :
  row_keys metadata cols asset_col model_col cells = Ok (asset, model) ->
  (isna asset = false /\ eq_str asset "nan" = false) /\
  (isna model = false /\ eq_str model "nan" = false).
Proof.
  unfold row_keys.
  destruct (scalar (_get_value cols cells asset_col)) as [own_asset |]; cbn [rbind];
    [| discriminate].
  destruct (scalar (_get_value cols cells model_col)) as [own_model |]; cbn [rbind];
    [| discriminate].
  set (a0 := py_or _ (of_opt_str (PathParsing.asset metadata))).
  set (m0 := py_or _ (of_opt_str (PathParsing.model metadata))).
  destruct (if eq_str a0 "Unknown" && eq_str m0 "Unknown" then _ else _) as [a1 m1].
  intros [= <- <-]. split.
  - destruct (isna a1 || eq_str a1 "nan") eqn:Ha; [now split |].
    now apply orb_false_iff in Ha.
  - destruct (isna m1 || eq_str m1 "nan") eqn:Hm; [now split |].
    now apply orb_false_iff in Hm.
Qed.

Lemma indexed_In {A} (l : list A) (i : nat) (x : A) :
  List.In (i, x) (indexed l) -> (i < List.length l)%nat.
Proof.
  unfold indexed. intros Hin. apply List.in_combine_l in Hin.
  apply List.in_seq in Hin. lia.
Qed.

Lemma table_records (env : Env) (run_id : string) (df : DataFrame)
    (metadata : Metadata) (sheet_name : option string) (records : list ResultRecord) :
  _process_dataframe env run_id df metadata sheet_name = Ok records ->
  List.Forall (record_of_table env run_id df metadata sheet_name) records.
Proof.
  unfold _process_dataframe. destruct (empty df); [intros [= <-]; constructor |].
  apply collect_Forall_In. intros [idx cells] o Hrow Hout.
  apply process_row_inv in Hout as (asset & model & Hk & Hout). revert Hout.
  apply row_keys_present in Hk as [Ha Hm].
  apply indexed_In in Hrow.
  apply collect_Forall_In. intros col o' Hcol Hemit.
  apply emit_fields in Hemit. revert Hemit. apply List.Forall_impl.
  intros r (H1 & H2 & H3 & H4 & H5 & H6 & _ & H8 & H9 & H10 & H11 & H12).
  unfold record_of_table. rewrite H9, H10, H11.
  repeat split; try assumption; try apply Ha; try apply Hm.
  exists col. split; [| assumption].
  unfold _get_metric_columns in Hcol. now apply List.filter_In in Hcol.
Qed.

(** X13. Every record of a table carries the provenance of the table:
    the source file, run id, split type, fold, configuration hash and
    asset type of the file-level metadata, the sheet name, a row index
    that is a row of the table and a metric that is the normalised name
    of one of its columns.  Its asset and model are never missing and
    never the text "nan". *)
Theorem records_carry_provenance (env : Env) (run_id : string) (df : DataFrame)
    (metadata : Metadata) (sheet_name : option string) (records : list ResultRecord) :
  _process_dataframe env run_id df metadata sheet_name = Ok records ->
  List.Forall (record_of_table env run_id df metadata sheet_name) records.
Proof. apply table_records. Qed.

Lemma records_carry_provenance_witness :
  parse_file_metadata bare_env "outputs/tscv/fold_2_results.csv"
  = Ok (metadata_of bare_env "outputs/tscv/fold_2_results.csv" (FoldNum 2)) /\
  exists r,
    _process_dataframe bare_env "run" gappy_table
      (metadata_of bare_env "outputs/tscv/fold_2_results.csv" (FoldNum 2)) (Some "s1")
    = Ok [r] /\
    record_of_table bare_env "run" gappy_table
      (metadata_of bare_env "outputs/tscv/fold_2_results.csv" (FoldNum 2)) (Some "s1") r /\
    r_split_type r = "tscv" /\ r_fold r = FoldNum 2.
Proof.
  split; [reflexivity |].
  eexists. split; [reflexivity |]. split; [| split; reflexivity].
  exact (Forall_inv
           (records_carry_provenance bare_env "run" gappy_table
              (metadata_of bare_env "outputs/tscv/fold_2_results.csv" (FoldNum 2))
              (Some "s1") _ eq_refl)).
Defined.

(** X14. Every record [process_file] returns for a path names that path
    as its source file and carries the split type, fold and
    configuration hash inferred from the path, and the run id of the
    collector; its asset and model are never missing. *)
Theorem file_records_traceable (env : Env) (run_id : string)
    (skipped : list (string * exn)) (path : string) :
  List.Forall
    (fun r =>
       r_source_file r = path /\ r_run_id r = run_id /\
       r_split_type r = parse_split_type_from_path path /\
       parse_fold_from_path path = Ok (r_fold r) /\
       r_config_hash r = extract_config_hash env path /\
       isna (r_asset r) = false /\ isna (r_model r) = false)
    (fst (process_file env run_id skipped path)).
Proof.
  apply (process_file_Forall
           (fun path r =>
              r_source_file r = path /\ r_run_id r = run_id /\
              r_split_type r = parse_split_type_from_path path /\
              parse_fold_from_path path = Ok (r_fold r) /\
              r_config_hash r = extract_config_hash env path /\
              isna (r_asset r) = false /\ isna (r_model r) = false)).
  intros df metadata sheet_name records Hmd Hp.
  apply parse_file_metadata_ok in Hmd as (fold & Hfold & ->).
  apply table_records in Hp. revert Hp. apply List.Forall_impl.
  intros r (H1 & H2 & H3 & H4 & H5 & _ & _ & _ & _ & [Ha _] & [Hm _]).
  cbn [metadata_of file_path split_type PathParsing.fold config_hash] in H1, H3, H4, H5.
  rewrite H4. repeat split; assumption.
Qed.

Lemma existsb_false_Forall {A} (f : A -> bool) (l : list A) :
  List.existsb f l = false -> List.Forall (fun x => f x = false) l.
Proof.
  induction l as [| x l IH]; cbn; [constructor |].
  intros H. apply orb_false_iff in H as [Hx Hl]. constructor; auto.
Qed.

(** X15. Every file [scan_result_files] returns was produced by the
    glob of an existing search directory, contains none of the skip
    patterns anywhere in its path and has at least 100 bytes. *)
Theorem scanned_files_pass_filters (env : Env) (size_of : string -> N)
    (base_dir file_path : string) :
  List.In file_path (scan_result_files env size_of base_dir) ->
  List.Forall (fun pattern => contains pattern file_path = false) skip_patterns /\
  (100 <= size_of file_path)%N /\
  exists search_dir pattern,
    List.In search_dir search_dirs /\ List.In pattern search_patterns /\
    path_exists env (path_div base_dir search_dir) = true /\
    List.In file_path (glob env (path_div base_dir search_dir) pattern).
Proof.
  unfold scan_result_files. intros Hin.
  apply List.in_flat_map in Hin as (pattern & Hpat & Hin).
  apply List.in_flat_map in Hin as (search_dir & Hdir & Hin).
  destruct (path_exists env (path_div base_dir search_dir)) eqn:Hex; [| destruct Hin].
  apply List.filter_In in Hin as [Hglob Hskip].
  apply negb_true_iff in Hskip. unfold _should_skip_file in Hskip.
  destruct (List.existsb _ skip_patterns) eqn:Hp; [discriminate |].
  destruct (size_of file_path <? 100)%N eqn:Hsz; [discriminate |].
  split; [now apply existsb_false_Forall in Hp |].
  split; [now apply N.ltb_ge in Hsz |].
  now exists search_dir, pattern.
Qed.

Lemma scanned_files_pass_filters_witness :
  scan_result_files scan_env (fun _ => 200%N) "." = ["outputs/a.csv"] /\
  List.Forall (fun pattern => contains pattern "outputs/a.csv" = false) skip_patterns /\
  (100 <= 200)%N.
Proof.
  split; [reflexivity |].
  assert (Hin : List.In "outputs/a.csv" (scan_result_files scan_env (fun _ => 200%N) "."))
    by (left; reflexivity).
  pose proof (scanned_files_pass_filters scan_env (fun _ => 200%N) "." "outputs/a.csv" Hin)
    as (H1 & H2 & _).
  now split.
Defined.





End CollectResultsExtra.

(** ** Further properties of the summaries *)

Module AggregatorExtra.

Import CollectResults.

Section GroupKeys.

Context {K : Type} `{Countable K}.
Variables (env : Env) (key : ResultRecord -> option K) (leb : K -> K -> bool).

Lemma group_keys_NoDup (master : list ResultRecord) :
  NoDup (group_keys key leb master).
Proof.
  unfold group_keys. rewrite merge_sort_Permutation. apply NoDup_elements.
Qed.

Lemma group_keys_In (master : list ResultRecord) (k : K) :
  List.In k (group_keys key leb master) <->
  exists r, List.In r master /\ key r = Some k.
Proof.
  unfold group_keys. rewrite <- list_elem_of_In, merge_sort_Permutation.
  rewrite elem_of_elements, elem_of_list_to_set, list_elem_of_omap.
  split; intros (r & Hr & Hk); exists r.
  - now rewrite <- list_elem_of_In.
  - now rewrite list_elem_of_In.
Qed.

Lemma groupby_agg_keys (master : list ResultRecord) :
  List.map fst (groupby_agg env key leb master) = group_keys key leb master.
Proof.
  unfold groupby_agg. rewrite List.map_map. cbn. apply List.map_id.
Qed.

Lemma group_values_cons (r : ResultRecord) (master : list ResultRecord) (k : K) :
  List.length (group_values key (r :: master) k) =
  ((if decide (key r = Some k) then (match number_of r with Some _ => 1 | None => 0 end) else 0)
   + List.length (group_values key master k))%nat.
Proof.
  unfold group_values. rewrite filter_cons.
  destruct (decide (key r = Some k)); [| reflexivity].
  cbn. now destruct (number_of r).
Qed.

Lemma list_sum_cons (x : nat) (l : list nat) :
  List.list_sum (x :: l) = (x + List.list_sum l)%nat.
Proof. reflexivity. Qed.

Lemma list_sum_plus {A} (f g : A -> nat) (l : list A) :
  List.list_sum (List.map (fun x => (f x + g x)%nat) l) =
  (List.list_sum (List.map f l) + List.list_sum (List.map g l))%nat.
Proof.
  induction l as [| x l IH]; [reflexivity |].
  cbn [List.map]. rewrite !list_sum_cons, IH. lia.
Qed.

Lemma sum_indicator (k0 : K) (c : nat) (ks : list K) :
  NoDup ks -> List.In k0 ks ->
  List.list_sum (List.map (fun k => if decide (Some k0 = Some k) then c else 0%nat) ks) = c.
Proof.
  induction 1 as [| k ks Hnin Hnd IH]; cbn [List.map]; [intros [] |]. rewrite list_sum_cons.
  rewrite list_elem_of_In in Hnin. intros [-> | Hin].
  - destruct (decide (Some k0 = Some k0)); [| congruence].
    assert (Hz : List.list_sum (List.map
               (fun k => if decide (Some k0 = Some k) then c else 0%nat) ks) = 0%nat).
    { clear IH Hnd. induction ks as [| k ks IHks]; [reflexivity |].
      cbn [List.map]. rewrite list_sum_cons.
      destruct (decide (Some k0 = Some k)) as [[= ->] |].
      - exfalso. apply Hnin. now left.
      - apply IHks. intros Hin. apply Hnin. now right. }
    rewrite Hz. lia.
  - rewrite (IH Hin).
    destruct (decide (Some k0 = Some k)) as [[= ->] |]; [contradiction | lia].
Qed.

Lemma sum_zero {A} (l : list A) : List.list_sum (List.map (fun _ => 0%nat) l) = 0%nat.
Proof. induction l; [reflexivity |]. cbn [List.map]. now rewrite list_sum_cons. Qed.

(** Over keys that are distinct and cover the records, the group sizes
    add up to the number of counted records. *)
Lemma group_sizes_add_up (master : list ResultRecord) (ks : list K) :
  NoDup ks ->
  (forall r k, List.In r master -> key r = Some k -> List.In k ks) ->
  List.list_sum (List.map (fun k => List.length (group_values key master k)) ks) =
  List.length (List.filter (counted key) master).
Proof.
  intros Hnd. induction master as [| r master IH]; intros Hcov.
  - cbn. apply sum_zero.
  - rewrite (List.map_ext _ _ (group_values_cons r master)).
    rewrite list_sum_plus, IH; [| intros r' k Hr'; apply Hcov; now right].
    cbn [List.filter]. unfold counted at 2.
    destruct (key r) as [k0 |] eqn:Hk.
    + rewrite (sum_indicator k0 _ ks Hnd);
        [| apply (Hcov r); [now left | assumption]].
      destruct (number_of r); cbn; lia.
    + match goal with
      | |- (?X + _)%nat = _ => assert (Hz : X = 0%nat)
      end.
      { clear. induction ks as [| k ks IHks]; [reflexivity |].
        cbn [List.map]. rewrite list_sum_cons.
        destruct (decide (None = Some k)); [discriminate | exact IHks]. }
      rewrite Hz. reflexivity.
Qed.

End GroupKeys.

(** X17. In both summaries the group keys are pairwise distinct, and a
    key has a row exactly when some record of the master table has that
    key with no missing component. *)
Theorem summary_keys (env : Env) (master : list ResultRecord) (s : Summaries) :
  create_summary_tables env master = Some s ->
  (NoDup (List.map fst (summary_by_model s)) /\
   forall k, List.In k (List.map fst (summary_by_model s)) <->
             exists r, List.In r master /\ by_model r = Some k) /\
  (NoDup (List.map fst (summary_by_asset_model s)) /\
   forall k, List.In k (List.map fst (summary_by_asset_model s)) <->
             exists r, List.In r master /\ by_asset_model r = Some k).
Proof.
  unfold create_summary_tables. destruct master as [| r0 master0]; [discriminate |].
  intros [= <-]. cbn [summary_by_model summary_by_asset_model].
  rewrite !groupby_agg_keys. split; split.
  - apply group_keys_NoDup.
  - apply group_keys_In.
  - apply group_keys_NoDup.
  - apply group_keys_In.
Qed.

Lemma s_count_agg (env : Env) (values : list float) : s_count (agg env values) = List.length values.
Proof. reflexivity. Qed.

Lemma groupby_agg_counts {K : Type} `{Countable K} (env : Env)
    (key : ResultRecord -> option K) (leb : K -> K -> bool) (master : list ResultRecord) :
  List.list_sum (List.map (fun row => s_count (snd row)) (groupby_agg env key leb master)) =
  List.length (List.filter (counted key) master).
Proof.
  unfold groupby_agg. rewrite List.map_map. cbn [snd].
  rewrite (List.map_ext _ (fun k => List.length (group_values key master k)))
    by (intros k; apply s_count_agg).
  apply group_sizes_add_up; [apply group_keys_NoDup |].
  intros r k Hr Hk. apply group_keys_In. now exists r.
Qed.

(** X18. No record is lost or counted twice: in each summary the counts
    of all rows add up to the number of records whose key is complete
    and whose value is a number. *)
Theorem summary_counts_add_up (env : Env) (master : list ResultRecord) (s : Summaries) :
  create_summary_tables env master = Some s ->
  List.list_sum (List.map (fun row => s_count (snd row)) (summary_by_model s)) =
  List.length (List.filter (counted by_model) master) /\
  List.list_sum (List.map (fun row => s_count (snd row)) (summary_by_asset_model s)) =
  List.length (List.filter (counted by_asset_model) master).
Proof.
  unfold create_summary_tables. destruct master as [| r0 master0]; [discriminate |].
  intros [= <-]. cbn [summary_by_model summary_by_asset_model].
  split; apply groupby_agg_counts.
Qed.

Lemma agg_consistent (env : Env) (values : list float) :
  numbers values -> stats_consistent (agg env values).
Proof.
  intros Hnum. destruct values as [| x l].
  - left. now repeat split.
  - right.
    destruct (AggregatorFacts.fmin_spec x l) as [Hin Hmin].
    destruct (AggregatorFacts.fmax_spec x l) as [Hin' _].
    pose proof (proj1 (List.Forall_forall _ _) Hnum _ Hin) as Hn.
    pose proof (proj1 (List.Forall_forall _ _) Hnum _ Hin') as Hn'.
    cbn [agg s_count s_min s_max s_std].
    split; [cbn; lia |]. split; [exact Hn |]. split; [exact Hn' |]. split.
    + apply (NumFacts.ltb_false_leb _ _ Hn' Hn). now apply Hmin.
    + destruct l as [| y l]; [now split | discriminate].
Qed.

(** X19. In every row of both summaries, either no value was counted and
    every statistic is NaN, or at least one value was counted, the
    minimum and the maximum are numbers and the minimum is at most the
    maximum; with a count of one the standard deviation is NaN and
    minimum and maximum coincide. *)
Theorem summary_rows_consistent (env : Env) (master : list ResultRecord) (s : Summaries) :
  create_summary_tables env master = Some s ->
  List.Forall (fun row => stats_consistent (snd row)) (summary_by_model s) /\
  List.Forall (fun row => stats_consistent (snd row)) (summary_by_asset_model s).
Proof.
  unfold create_summary_tables. destruct master as [| r0 master0]; [discriminate |].
  intros [= <-]. cbn [summary_by_model summary_by_asset_model].
  split; unfold groupby_agg; apply List.Forall_forall; intros row Hrow;
    apply List.in_map_iff in Hrow as (k & <- & _); apply agg_consistent;
    apply AggregatorFacts.group_values_numbers.
Qed.

Lemma summary_keys_witness :
  exists s,
    create_summary_tables summing_env sample_master = Some s /\
    NoDup (List.map fst (summary_by_model s)).
Proof.
  eexists. split; [reflexivity |].
  exact (proj1 (proj1 (summary_keys summing_env sample_master _ eq_refl))).
Defined.

Lemma summary_counts_add_up_witness :
  exists s,
    create_summary_tables summing_env sample_master = Some s /\
    List.list_sum (List.map (fun row => s_count (snd row)) (summary_by_model s)) = 3%nat.
Proof.
  eexists. split; [reflexivity |].
  exact (proj1 (summary_counts_add_up summing_env sample_master _ eq_refl)).
Defined.

Lemma summary_rows_consistent_witness :
  exists s,
    create_summary_tables summing_env sample_master = Some s /\
    List.Forall (fun row => stats_consistent (snd row)) (summary_by_model s).
Proof.
  eexists. split; [reflexivity |].
  exact (proj1 (summary_rows_consistent summing_env sample_master _ eq_refl)).
Defined.

End AggregatorExtra.

(** ** Further properties of the baseline comparison *)

Module CheckRegressionExtra.

Import Str CheckRegression CheckRegressionFacts.

(** X20. [compare_string] succeeds, recording nothing, exactly when the
    two values have the same text, and otherwise records one failure
    with the field and both values; it never raises.  A missing cell and
    the text "nan" have the same text, so they compare equal. *)
Theorem compare_string_rules (env : Env) (current expected : pyval)
    (field_name : string) (fs : list failure) :
  (py_str env current = py_str env expected ->
   compare_string env current expected field_name fs = (Ok true, fs)) /\
  (py_str env current <> py_str env expected ->
   compare_string env current expected field_name fs
   = (Ok false, (fs ++ [StringMismatch field_name current expected])%list)) /\
  compare_string env VNaN (VStr "nan") field_name fs = (Ok true, fs).
Proof.
  unfold compare_string. split; [| split].
  - intros ->. now rewrite String.eqb_refl.
  - intros Hne. apply String.eqb_neq in Hne. now rewrite Hne.
  - reflexivity.
Qed.

Lemma compare_string_rules_witness :
  compare_string bare_env (VStr "sGARCH") (VStr "sGARCH") "Model[0]" [] = (Ok true, []) /\
  compare_string bare_env (VStr "sGARCH") (VStr "sgarch") "Model[0]" []
  = (Ok false, [StringMismatch "Model[0]" (VStr "sGARCH") (VStr "sgarch")]).
Proof.
  split.
  - apply (proj1 (compare_string_rules bare_env (VStr "sGARCH") (VStr "sGARCH") "Model[0]" [])).
    reflexivity.
  - apply (proj1 (proj2 (compare_string_rules bare_env (VStr "sGARCH") (VStr "sgarch")
                           "Model[0]" []))).
    discriminate.
Defined.

Lemma float_of_zero : Num.float_of_Z 0 = PrimFloat.zero.
Proof. reflexivity. Qed.

(** A float or an integer compared with itself passes under a tolerance
    that is not negative. *)
Lemma compare_numeric_self (tolerance : float) (v : pyval) (field_name : string)
    (fs : list failure) :
  PrimFloat.leb PrimFloat.zero tolerance = true -> is_float v || is_int v = true ->
  compare_numeric tolerance v v field_name fs = (Ok true, fs).
Proof.
  intros Htol Hv. destruct v as [| b | z | f | s]; try discriminate.
  - unfold compare_numeric. cbn [isna andb orb].
    cbv beta iota delta [bind lift to_num ret append num_abs as_float as_int num_sub num_div].
    rewrite Z.sub_diag. change (Num.wrap64 (Z.abs (Num.wrap64 0))) with 0%Z.
    rewrite float_of_zero.
    destruct (PrimFloat.ltb (Num.float_of_Z (Num.wrap64 (Z.abs z))) 1e-10%float).
    + now rewrite (NumFacts.tolerance_covers_zero tolerance PrimFloat.zero Htol I).
    + rewrite (NumFacts.tolerance_covers_zero tolerance _ Htol); [reflexivity |].
      rewrite div_spec. now apply NumFacts.SFdiv_zero_or_nan.
  - destruct (is_nan f) eqn:Hn.
    + unfold compare_numeric. cbn [isna]. now rewrite Hn.
    + rewrite (compare_floats tolerance f f field_name fs Hn Hn).
      now rewrite (NumFacts.tolerance_covers_zero tolerance _ Htol (difference_self f)).
Qed.

Lemma for_each_quiet {A} (l : list A) (body : A -> M unit) (fs : list failure) :
  (forall a, List.In a l -> body a fs = (Ok tt, fs)) ->
  for_each l body fs = (Ok tt, fs).
Proof.
  induction l as [| a l IH]; intros Hb; [reflexivity |].
  cbn [for_each]. unfold bind. rewrite (Hb a (or_introl eq_refl)).
  apply IH. intros b Hin. apply Hb. now right.
Qed.

Lemma loc_in_column (df : DataFrame) (col : string) (idx : nat) :
  (idx < List.length (rows df))%nat -> List.In (loc df idx col) (column_cells df col).
Proof.
  intros Hlt. unfold loc, column_cells.
  apply (List.in_map (fun cells => CollectResults.row_get (columns df) cells col)).
  now apply List.nth_In.
Qed.

Lemma check_cells_self (env : Env) (tolerance : float) (label : string -> nat -> string)
    (df : DataFrame) (fs : list failure) :
  PrimFloat.leb PrimFloat.zero tolerance = true ->
  List.Forall (fun col => boolean_column df col = false) (columns df) ->
  check_cells env tolerance label df df fs = (Ok tt, fs).
Proof.
  intros Htol Hbool. unfold check_cells.
  apply for_each_quiet. intros col Hcol.
  apply for_each_quiet. intros idx Hidx.
  unfold index in Hidx. apply List.in_seq in Hidx as [_ Hidx]. cbn in Hidx.
  pose proof (loc_in_column df col idx Hidx) as Hin.
  destruct (is_numeric_dtype df col) eqn:Hnum.
  - unfold bind. rewrite compare_numeric_self; [reflexivity | assumption |].
    unfold is_numeric_dtype in Hnum.
    apply orb_true_iff in Hnum as [Hnum | Hb].
    + apply orb_true_iff in Hnum as [Hf | Hi].
      * rewrite List.forallb_forall in Hf. now rewrite (Hf _ Hin).
      * rewrite List.forallb_forall in Hi. rewrite (Hi _ Hin). apply orb_true_r.
    + pose proof (proj1 (List.Forall_forall _ _) Hbool col Hcol) as Hno.
      unfold boolean_column in Hno. rewrite Hb, andb_true_r in Hno.
      apply negb_false_iff, Nat.eqb_eq in Hno. lia.
  - unfold bind, compare_string. now rewrite String.eqb_refl.
Qed.

(** X21. Under a tolerance that is not negative, a CSV file without
    boolean columns checked against itself records no failure: the check
    returns whether the failure list was already empty and leaves the
    list as it was.  A file whose first column is boolean does not match
    itself: subtracting two booleans raises, and the check returns False
    with a read-error entry. *)
Theorem file_matches_itself (env : Env) (tolerance : float) (file : string) (df : DataFrame)
    (fs : list failure) :
  read_csv env file = Ok df ->
  (PrimFloat.leb PrimFloat.zero tolerance = true ->
   List.Forall (fun col => boolean_column df col = false) (columns df) ->
   check_csv_file env tolerance file file fs = (bool_decide (fs = []), fs)) /\
  (forall col cols, columns df = col :: cols -> boolean_column df col = true ->
   check_csv_file env tolerance file file fs
   = (false, (fs ++ [ReadError file TypeError])%list)).
Proof.
  intros Hread. split.
  - intros Htol Hbool.
    unfold check_csv_file, guarded, check_csv_body, bind at 1 2, lift.
    rewrite Hread, shape_eqb_refl. cbn [negb].
    unfold labels_eqb. rewrite bool_decide_eq_true_2 by reflexivity. cbn [negb].
    unfold bind. rewrite check_cells_self by assumption. reflexivity.
  - intros col cols Hcol Hb.
    unfold check_csv_file, guarded, check_csv_body, bind at 1 2, lift.
    rewrite Hread, shape_eqb_refl. cbn [negb].
    unfold labels_eqb. rewrite bool_decide_eq_true_2 by reflexivity. cbn [negb].
    unfold bind at 1. unfold check_cells, index.
    unfold boolean_column in Hb. apply andb_true_iff in Hb as [Hrows Hb].
    destruct (rows df) as [| row rest] eqn:Hr; [discriminate |].
    rewrite Hcol. cbn [List.length List.seq for_each]. unfold bind at 1 2.
    assert (Hnum : is_numeric_dtype df col = true).
    { unfold is_numeric_dtype. rewrite Hb. apply orb_true_r. }
    rewrite Hnum.
    assert (Hcell : exists b, loc df 0 col = VBool b).
    { rewrite List.forallb_forall in Hb.
      assert (Hin : List.In (loc df 0 col) (column_cells df col))
        by (apply loc_in_column; rewrite Hr; cbn; lia).
      apply Hb in Hin. destruct (loc df 0 col); try discriminate. now eexists. }
    destruct Hcell as [b ->].
    unfold bind at 1. unfold compare_numeric. cbn [isna andb orb].
    cbv beta iota delta [bind lift to_num num_abs as_float].
    now destruct (PrimFloat.ltb _ _).
Qed.

Lemma file_matches_itself_witness :
  PrimFloat.leb PrimFloat.zero 1e-9 = true /\
  read_csv shape_env "baseline.csv" = Ok tall_table /\
  check_csv_file shape_env 1e-9 "baseline.csv" "baseline.csv" [] = (true, []) /\
  read_csv text_env "flags.csv" = Ok flag_table /\
  check_csv_file text_env 1e-9 "flags.csv" "flags.csv" []
  = (false, [ReadError "flags.csv" TypeError]).
Proof.
  split; [reflexivity |]. split; [reflexivity |]. split; [| split; [reflexivity |]].
  - apply (proj1 (file_matches_itself shape_env 1e-9 "baseline.csv" tall_table []
                    eq_refl)); [reflexivity |].
    repeat constructor.
  - exact (proj2 (file_matches_itself text_env 1e-9 "flags.csv" flag_table [] eq_refl)
             "converged" [] eq_refl eq_refl).
Defined.

(** X22. Under a negative tolerance no two finite numbers compare equal,
    not even a number with itself: [compare_numeric] records a failure
    for every pair of finite floats.  Against an infinite baseline every
    number passes, whatever the tolerance, because the relative
    difference is NaN. *)
Theorem negative_tolerance_rejects (tolerance c e : float) (field_name : string)
    (fs : list failure) :
  (PrimFloat.ltb tolerance PrimFloat.zero = true ->
   is_finite c = true -> is_finite e = true ->
   exists f, compare_numeric tolerance (VFloat c) (VFloat e) field_name fs
             = (Ok false, (fs ++ [f])%list)) /\
  (is_nan c = false -> is_infinity e = true ->
   compare_numeric tolerance (VFloat c) (VFloat e) field_name fs = (Ok true, fs)).
Proof.
  split.
  - intros Hneg Fc Fe.
    assert (Hc : is_nan c = false)
      by (unfold is_finite in Fc; now destruct (is_nan c)).
    assert (He : is_nan e = false)
      by (unfold is_finite in Fe; now destruct (is_nan e)).
    rewrite (compare_floats tolerance c e field_name fs Hc He).
    rewrite (NumFacts.negative_below_nonneg tolerance _ Hneg (difference_finite c e Fc Fe)).
    eexists. reflexivity.
  - intros Hc Hinf.
    assert (He : is_nan e = false).
    { rewrite NumFacts.is_infinity_spec in Hinf. apply NumFacts.is_nan_false.
      now destruct (Prim2SF e). }
    rewrite (compare_floats tolerance c e field_name fs Hc He).
    assert (Hd : is_nan (difference c e) = true).
    { apply NumFacts.is_nan_true. unfold difference.
      rewrite NumFacts.is_infinity_spec in Hinf. apply NumFacts.is_nan_false in Hc.
      rewrite ltb_spec, abs_spec, threshold_spec.
      destruct (Prim2SF e) as [s | s | | s m x] eqn:Pe; try discriminate.
      cbn [SFabs SFltb SFcompare]. rewrite div_spec, !abs_spec, sub_spec, Pe.
      destruct (Prim2SF c) as [sc | sc | | sc mc xc]; try congruence;
        try (now destruct s); now destruct sc, s. }
    now rewrite (NumFacts.ltb_nan_r tolerance _ Hd).
Qed.

Lemma negative_tolerance_rejects_witness :
  PrimFloat.ltb (-0.1) PrimFloat.zero = true /\
  (exists f, compare_numeric (-0.1) (VFloat 2) (VFloat 2) "x[0]" [] = (Ok false, [f])) /\
  compare_numeric (-0.1) (VFloat 2) (VFloat infinity) "x[0]" [] = (Ok true, []).
Proof.
  split; [reflexivity |]. split.
  - exact (proj1 (negative_tolerance_rejects (-0.1) 2 2 "x[0]" [])
             eq_refl eq_refl eq_refl).
  - exact (proj2 (negative_tolerance_rejects (-0.1) 2 infinity "x[0]" [])
             eq_refl eq_refl).
Defined.

(** X23. A value that meets text in the baseline makes
    [compare_numeric] raise a type error without recording a failure.
    When this happens in the first cell of a CSV check, the check ends
    with False and a single read-error entry, and no other cell is
    compared. *)
Theorem text_baseline_aborts (env : Env) (tolerance : float)
    (current_file expected_file : string) (fs : list failure) :
  (forall current s field_name, isna current = false ->
     compare_numeric tolerance current (VStr s) field_name fs = (Raise TypeError, fs)) /\
  (forall cur exp col cols s,
     read_csv env current_file = Ok cur -> read_csv env expected_file = Ok exp ->
     shape cur = shape exp -> columns cur = columns exp ->
     columns cur = col :: cols -> rows cur <> [] ->
     is_numeric_dtype cur col = true ->
     isna (loc cur 0 col) = false -> loc exp 0 col = VStr s ->
     check_csv_file env tolerance current_file expected_file fs
     = (false, (fs ++ [ReadError current_file TypeError])%list)).
Proof.
  assert (Htext : forall current s field_name, isna current = false ->
            compare_numeric tolerance current (VStr s) field_name fs = (Raise TypeError, fs)).
  { intros current s field_name Hc. unfold compare_numeric. now rewrite Hc. }
  split; [exact Htext |].
  intros cur exp col cols s Hc He Hshape Hcols Hcol Hrows Hnum Hcv Hev.
  unfold check_csv_file, guarded, check_csv_body, bind at 1 2, lift.
  rewrite Hc, He, Hshape, shape_eqb_refl. cbn [negb].
  unfold labels_eqb. rewrite bool_decide_eq_true_2 by assumption. cbn [negb].
  unfold bind at 1. unfold check_cells, index.
  destruct (rows cur) as [| row rest] eqn:Hr; [contradiction |].
  rewrite Hcol. cbn [List.length List.seq for_each]. unfold bind at 1 2.
  rewrite Hnum, Hev. unfold bind at 1. now rewrite (Htext _ _ _ Hcv).
Qed.

Lemma text_baseline_aborts_witness :
  check_csv_file text_env 1e-9 "outputs/standardized/current.csv" "baseline.csv" []
  = (false, [ReadError "outputs/standardized/current.csv" TypeError]).
Proof.
  refine (proj2 (text_baseline_aborts text_env 1e-9 "outputs/standardized/current.csv"
                   "baseline.csv" [])
            short_table text_baseline "a" [] "high" _ _ _ _ _ _ _ _ _);
    try reflexivity.
  discriminate.
Defined.

Lemma check_metric_files_grows env tolerance expected_path metric_files all_passed fs :
  exists added,
    snd (check_metric_files env tolerance expected_path metric_files all_passed fs)
    = (fs ++ added)%list.
Proof.
  revert all_passed fs.
  induction metric_files as [| f rest IH]; intros all_passed fs.
  - exists []. cbn. now rewrite app_nil_r.
  - cbn [check_metric_files].
    destruct (check_metric_file_cumulative env tolerance expected_path f fs)
      as [[added Hadd] _].
    destruct (check_metric_file env tolerance expected_path f fs) as [passed fs'].
    cbn in Hadd. subst fs'.
    destruct (IH (if negb passed then false else all_passed) (fs ++ added)%list)
      as [more ->].
    exists (added ++ more)%list. now rewrite app_assoc.
Qed.

Lemma check_metric_files_verdict env tolerance expected_path metric_files all_passed fs :
  (fs = [] -> all_passed = true) -> metric_files <> [] ->
  fst (check_metric_files env tolerance expected_path metric_files all_passed fs)
  = bool_decide
      (snd (check_metric_files env tolerance expected_path metric_files all_passed fs) = []).
Proof.
  revert all_passed fs.
  induction metric_files as [| f rest IH]; intros all_passed fs Hinv Hne; [congruence |].
  cbn [check_metric_files].
  destruct (check_metric_file_cumulative env tolerance expected_path f fs)
    as [[added Hadd] Hret].
  destruct (check_metric_file env tolerance expected_path f fs) as [passed fs'].
  cbn in Hadd, Hret.
  assert (Hinv' : fs' = [] -> (if negb passed then false else all_passed) = true).
  { intros Hnil. rewrite Hret, bool_decide_eq_true_2 by assumption. cbn.
    apply Hinv. subst fs'. now destruct fs. }
  destruct rest as [| g rest].
  - cbn [check_metric_files fst snd].
    destruct (decide (fs' = [])) as [Hnil | Hnil].
    + rewrite (Hinv' Hnil). symmetry. now apply bool_decide_eq_true_2.
    + rewrite Hret, (bool_decide_eq_false_2 _ Hnil). reflexivity.
  - apply IH; [assumption | discriminate].
Qed.

(** X24. The verdict of a directory check.  When the directory or the
    baseline file is missing the check returns False and records no
    failure.  When both exist and no metric file is found it returns
    True, whatever failures the checker already holds.  When at least
    one metric file is found it returns whether the failure list is
    empty at the end, and in every case earlier failures are kept. *)
Theorem directory_verdict (env : Env) (tolerance : float)
    (current_dir expected_file : string) (fs : list failure) :
  let out := check_metrics_directory env tolerance current_dir expected_file fs in
  let metric_files :=
    List.concat (List.map (glob env current_dir) ["*.csv"; "*.xlsx"; "*.xls"]) in
  (path_exists env current_dir = false \/ path_exists env expected_file = false ->
   out = (false, fs)) /\
  (path_exists env current_dir = true -> path_exists env expected_file = true ->
   (metric_files = [] -> out = (true, fs)) /\
   (metric_files <> [] -> fst out = bool_decide (snd out = []))) /\
  (exists added, snd out = (fs ++ added)%list).
Proof.
  intros out metric_files. subst out. unfold check_metrics_directory.
  fold metric_files.
  split; [| split].
  - intros [Hd | Hb].
    + now rewrite Hd.
    + rewrite Hb. now destruct (path_exists env current_dir).
  - intros Hd Hb. rewrite Hd, Hb. cbn [negb]. split.
    + intros ->. reflexivity.
    + intros Hne. now apply check_metric_files_verdict.
  - destruct (path_exists env current_dir); cbn [negb];
      [| exists []; cbn; now rewrite app_nil_r].
    destruct (path_exists env expected_file); cbn [negb];
      [| exists []; cbn; now rewrite app_nil_r].
    apply check_metric_files_grows.
Qed.

Lemma directory_verdict_witness :
  check_metrics_directory bare_env 1e-9 "outputs/standardized" "baseline.csv" [] = (false, []) /\
  check_metrics_directory text_env 1e-9 "outputs/standardized" "baseline.csv" []
  = (false, [ReadError "outputs/standardized/current.csv" TypeError]) /\
  fst (check_metrics_directory text_env 1e-9 "outputs/standardized" "baseline.csv" [])
  = bool_decide
      (snd (check_metrics_directory text_env 1e-9 "outputs/standardized" "baseline.csv" [])
       = []).
Proof.
  split; [| split].
  - apply (proj1 (directory_verdict bare_env 1e-9 "outputs/standardized" "baseline.csv" [])).
    left. reflexivity.
  - reflexivity.
  - apply (proj1 (proj2 (directory_verdict text_env 1e-9 "outputs/standardized"
                           "baseline.csv" []))); try reflexivity.
    discriminate.
Defined.

End CheckRegressionExtra.
